(** * Auditoria monofasico (PIS/COFINS): rules engine, reconciliation and
    estimation stage.

    Shallow embedding of [app/services/rules_engine.py],
    [app/services/comparison.py], [app/services/calculator.py],
    [app/services/pgdas_importer.py] and of the processing loop of
    [app/routers/uploads.py].

    Conventions of the embedding.
    - A table is the list of its rows in storage order; [.first()] is the
      first row of that order which passes the filter.  An ORM object is
      identified by the position of its row.
    - Python [str] values are [string]s whose characters are the code points
      below 256.
    - [decimal.Decimal] values are pairs coefficient/exponent with the
      default context (28 significant digits, ROUND_HALF_EVEN) written out
      in every operation.  Exponent limits (Emax/Emin), infinities, NaN and
      the sign of zero are outside the model.
    - The storage engine's own conversions (rounding to the scale of a
      NUMERIC column on write, binary floats inside SQLite) are outside the
      model: a field holds the value that the code assigned to it.  The
      properties are about what a call computes and assigns.  A rate
      derived by a call is assigned with the precision of the division,
      and the NUMERIC(6,4) column hands four decimals of it to the next
      call; the idempotence of the estimation and of a processing pass is
      therefore stated for declarations whose rate is already stored.
    - A function that works on the session returns the database it leaves
      behind together with its own result; every stage commits before it
      returns.  An exception is the [Levanta] outcome of the [py] monad; it
      carries no database, and what an aborted call leaves behind is stated
      where it matters (the import of a declaration file). *)

From Stdlib Require Import ZArith QArith Qpower Lia Lqa Bool Ascii String.
From stdpp Require Import base option list strings gmap.

#[local] Open Scope Z_scope.

(** ** Python strings *)

Module PyStr.

(** [str.isspace] on one character, for the code points below 256:
    TAB..CR, FS..US, SPACE, NEL (0x85) and NBSP (0xA0). *)
Definition isspace (c : ascii) : bool :=
  let n := Z.of_nat (nat_of_ascii c) in
  ((9 <=? n) && (n <=? 13)) || ((28 <=? n) && (n <=? 32))
  || (n =? 133) || (n =? 160).

Fixpoint lstrip (s : string) : string :=
  match s with
  | String c r => if isspace c then lstrip r else s
  | EmptyString => EmptyString
  end.

(** [rstrip]: a character survives when something that is not white space
    follows it or when it is itself not white space. *)
Fixpoint rstrip (s : string) : string :=
  match s with
  | String c r =>
      match rstrip r with
      | EmptyString => if isspace c then EmptyString else String c EmptyString
      | r' => String c r'
      end
  | EmptyString => EmptyString
  end.

Definition strip (s : string) : string := rstrip (lstrip s).

(** [x or ""] for an optional string. *)
Definition or_empty (x : option string) : string :=
  match x with
  | Some s => s
  | None => ""
  end.

(** [s.split(sep)] for a one-character separator. *)
Fixpoint split (sep : ascii) (s : string) : list string :=
  match s with
  | EmptyString => [EmptyString]
  | String c r =>
      if Ascii.eqb c sep then EmptyString :: split sep r
      else match split sep r with
           | h :: t => String c h :: t
           | [] => [String c EmptyString]
           end
  end.

End PyStr.

(** ** Dates *)

Record date := mk_date { year : Z; month : Z; day : Z }.

(** Chronological order of [datetime.date] (also the order of the ISO text
    the storage engine compares). *)
Definition date_leb (a b : date) : bool :=
  (year a <? year b)
  || ((year a =? year b)
      && ((month a <? month b)
          || ((month a =? month b) && (day a <=? day b)))).

(** A [datetime]: calendar date and microseconds since midnight. *)
Record datetime := mk_datetime { dt_date : date; dt_micro : Z }.

Definition date_eqb (a b : date) : bool :=
  (year a =? year b) && (month a =? month b) && (day a =? day b).

Definition datetime_leb (a b : datetime) : bool :=
  if date_eqb (dt_date a) (dt_date b) then dt_micro a <=? dt_micro b
  else date_leb (dt_date a) (dt_date b).

Definition datetime_ltb (a b : datetime) : bool := negb (datetime_leb b a).

(** ** [decimal.Decimal] with the default context *)

Module Dec.

(** A finite decimal number: [coef * 10 ^ exp]. *)
Record t := mk { coef : Z; exp : Z }.

(** [context.prec] of the default context. *)
Definition prec : Z := 28.

Fixpoint ndigits_aux (fuel : nat) (n : Z) : Z :=
  match fuel with
  | O => 1
  | S f => if n <? 10 then 1 else 1 + ndigits_aux f (n / 10)
  end.

(** [len(self._int)]: the number of decimal digits of the coefficient
    (1 for zero). *)
Definition ndigits (n : Z) : Z :=
  ndigits_aux (S (Z.to_nat (Z.log2 (Z.abs n)))) (Z.abs n).

(** [Decimal._fix]: round to [prec] significant digits, ties to even. *)
Definition fix_ (d : t) : t :=
  let n := ndigits (coef d) in
  if n <=? prec then d
  else
    let drop := n - prec in
    let p := 10 ^ drop in
    let a := Z.abs (coef d) in
    let q := a / p in
    let r := a mod p in
    let q1 := if (p <? 2 * r) || ((2 * r =? p) && Z.odd q) then q + 1 else q in
    if prec <? ndigits q1
    then mk (Z.sgn (coef d) * (q1 / 10)) (exp d + drop + 1)
    else mk (Z.sgn (coef d) * q1) (exp d + drop).

(** The two coefficients brought to the smaller exponent. *)
Definition align (a b : t) : Z * Z * Z :=
  let e := Z.min (exp a) (exp b) in
  (coef a * 10 ^ (exp a - e), coef b * 10 ^ (exp b - e), e).

Definition mul_exact (a b : t) : t := mk (coef a * coef b) (exp a + exp b).

Definition add_exact (a b : t) : t :=
  let '(ca, cb, e) := align a b in mk (ca + cb) e.

Definition neg (a : t) : t := mk (- coef a) (exp a).

(** [Decimal.__mul__], [__add__], [__sub__]: the exact result, then
    [_fix]. *)
Definition mul (a b : t) : t := fix_ (mul_exact a b).
Definition add (a b : t) : t := fix_ (add_exact a b).
Definition sub (a b : t) : t := add a (neg b).

(** The loop of [__truediv__] that removes trailing zeros of an exact
    quotient while the exponent is below the ideal one. *)
Fixpoint strip_zeros (fuel : nat) (c e ideal : Z) : Z * Z :=
  match fuel with
  | O => (c, e)
  | S f =>
      if (e <? ideal) && (c mod 10 =? 0)
      then strip_zeros f (c / 10) (e + 1) ideal
      else (c, e)
  end.

(** [Decimal.__truediv__]; [None] is the exception raised for a zero
    divisor. *)
Definition div (a b : t) : option t :=
  if coef b =? 0 then None
  else if coef a =? 0 then Some (fix_ (mk 0 (exp a - exp b)))
  else
    let sign := Z.sgn (coef a) * Z.sgn (coef b) in
    let shift := ndigits (coef b) - ndigits (coef a) + prec + 1 in
    let e := exp a - exp b - shift in
    let x := Z.abs (coef a) in
    let y := Z.abs (coef b) in
    let '(q, r) :=
      if 0 <=? shift then ((x * 10 ^ shift) / y, (x * 10 ^ shift) mod y)
      else (x / (y * 10 ^ (- shift)), x mod (y * 10 ^ (- shift))) in
    let '(c, e') :=
      if negb (r =? 0) then ((if q mod 5 =? 0 then q + 1 else q), e)
      else strip_zeros (Z.to_nat (exp a - exp b - e)) q e (exp a - exp b) in
    Some (fix_ (mk (sign * c) e')).

(** Numeric comparison ([==], [<=], [<] of Decimal). *)
Definition compare (a b : t) : comparison :=
  let '(ca, cb, _) := align a b in ca ?= cb.

Definition eqb (a b : t) : bool :=
  match compare a b with Eq => true | _ => false end.
Definition leb (a b : t) : bool :=
  match compare a b with Gt => false | _ => true end.
Definition ltb (a b : t) : bool :=
  match compare a b with Lt => true | _ => false end.

(** [Decimal(0)]. *)
Definition zero : t := mk 0 0.

(** Truth value of a Decimal: false exactly for zero. *)
Definition truthy (a : t) : bool := negb (coef a =? 0).

(** [Decimal(x or 0)] for a field that cannot be [None]. *)
Definition or_zero (x : t) : t := if truthy x then x else zero.

(** [Decimal(x or 0)] for a nullable field. *)
Definition opt_or_zero (x : option t) : t :=
  match x with
  | Some d => or_zero d
  | None => zero
  end.

(** The rational number a Decimal denotes. *)
Definition to_Q (a : t) : Q := (inject_Z (coef a) * 10 ^ exp a)%Q.

End Dec.

Declare Scope dec_scope.
Delimit Scope dec_scope with dec.
Notation "a * b" := (Dec.mul a b) : dec_scope.
Notation "a + b" := (Dec.add a b) : dec_scope.
Notation "a - b" := (Dec.sub a b) : dec_scope.
Notation "a <=? b" := (Dec.leb a b) : dec_scope.
Notation "a =? b" := (Dec.eqb a b) : dec_scope.


(** ** Exceptions *)

Inductive excecao :=
  ValueError | OverflowError | ZeroDivisionError | IntegrityError.

(** A computation that returns or raises. *)
Inductive py (A : Type) : Type :=
| Retorna (a : A)
| Levanta (e : excecao).
Arguments Retorna {A} a.
Arguments Levanta {A} e.

#[global] Instance py_ret : MRet py := fun A a => Retorna a.

#[global] Instance py_bind : MBind py := fun A B k m =>
  match m with
  | Retorna a => k a
  | Levanta e => Levanta e
  end.

(** [.first()] of a filtered query: position and row of the first match. *)
Definition first_ {A : Type} (p : A -> bool) (tabela : list A)
  : option (nat * A) :=
  list_find (fun x => Is_true (p x)) tabela.

(** The key given to a new row: one more than the largest key in use. *)
Definition proximo_id (ids : list Z) : Z := 1 + foldr Z.max 0 ids.

(** ** Tables (app/models.py) *)

Module Empresa.
Record t := mk { id : Z; cnpj : string; razao_social : string }.
End Empresa.

Module ItemNota.
Record t := mk {
  id : Z;
  ncm : string;
  cfop : string;
  quantidade : Dec.t;
  valor_unitario : Dec.t;
  valor_total : Dec.t;
  cst_pis : option string;
  cst_cofins : option string;
  eh_monofasico : bool;
  eh_inconsistente : bool
}.

Definition set_eh_monofasico (b : bool) (i : t) : t :=
  mk (id i) (ncm i) (cfop i) (quantidade i) (valor_unitario i)
     (valor_total i) (cst_pis i) (cst_cofins i) b (eh_inconsistente i).

Definition set_eh_inconsistente (b : bool) (i : t) : t :=
  mk (id i) (ncm i) (cfop i) (quantidade i) (valor_unitario i)
     (valor_total i) (cst_pis i) (cst_cofins i) (eh_monofasico i) b.
End ItemNota.

(** An invoice owns its items ([NotaFiscal.itens]). *)
Module NotaFiscal.
Record t := mk {
  id : Z;
  empresa_id : Z;
  chave : string;
  data_emissao : datetime;
  valor_total : Dec.t;
  itens : list ItemNota.t
}.

Definition set_itens (l : list ItemNota.t) (n : t) : t :=
  mk (id n) (empresa_id n) (chave n) (data_emissao n) (valor_total n) l.
End NotaFiscal.

Module NCMMonofasico.
Record t := mk {
  id : Z;
  ncm : string;
  descricao : string;
  setor : string;
  data_inicio_vigencia : date;
  data_fim_vigencia : option date;
  flag_monofasico : bool
}.
End NCMMonofasico.

Module CompetenciaPGDAS.
Record t := mk {
  id : Z;
  empresa_id : Z;
  ano_mes : string;
  anexo : option string;
  receita_bruta_total : Dec.t;
  receita_monofasica_declarada : Dec.t;
  receita_substituicao_tributaria : option Dec.t;
  receita_outras_exclusoes : option Dec.t;
  receita_bruta_12m : Dec.t;
  aliquota_nominal : option Dec.t;
  parcela_a_deduzir : option Dec.t;
  aliquota_efetiva : option Dec.t
}.

Definition set_aliquota_efetiva (v : option Dec.t) (c : t) : t :=
  mk (id c) (empresa_id c) (ano_mes c) (anexo c) (receita_bruta_total c)
     (receita_monofasica_declarada c) (receita_substituicao_tributaria c)
     (receita_outras_exclusoes c) (receita_bruta_12m c) (aliquota_nominal c)
     (parcela_a_deduzir c) v.
End CompetenciaPGDAS.

Module AnexoAliquota.
Record t := mk {
  id : Z;
  anexo : string;
  faixa : Z;
  receita_bruta_min : Dec.t;
  receita_bruta_max : Dec.t;
  aliquota_nominal : Dec.t;
  parcela_a_deduzir : Dec.t;
  percentual_pis : Dec.t;
  percentual_cofins : Dec.t
}.
End AnexoAliquota.

Module ResultadoAuditoria.
Record t := mk {
  id : Z;
  empresa_id : Z;
  competencia_id : Z;
  base_monofasica_xml : Dec.t;
  base_monofasica_pgdas : Dec.t;
  diferenca_base : Dec.t;
  pis_indev : option Dec.t;
  cofins_indev : option Dec.t;
  total_indev : option Dec.t
}.

Definition set_bases (xml pgdas dif : Dec.t) (r : t) : t :=
  mk (id r) (empresa_id r) (competencia_id r) xml pgdas dif
     (pis_indev r) (cofins_indev r) (total_indev r).

Definition set_indev (pis cofins total : option Dec.t) (r : t) : t :=
  mk (id r) (empresa_id r) (competencia_id r) (base_monofasica_xml r)
     (base_monofasica_pgdas r) (diferenca_base r) pis cofins total.
End ResultadoAuditoria.

(** The database: one list of rows per table. *)
Record BD := mk_BD {
  ncm_monofasicos : list NCMMonofasico.t;
  notas_fiscais : list NotaFiscal.t;
  competencias_pgdas : list CompetenciaPGDAS.t;
  anexos_aliquotas : list AnexoAliquota.t;
  resultados_auditoria : list ResultadoAuditoria.t
}.

Definition set_notas_fiscais (l : list NotaFiscal.t) (db : BD) : BD :=
  mk_BD (ncm_monofasicos db) l (competencias_pgdas db) (anexos_aliquotas db)
        (resultados_auditoria db).

Definition set_competencias_pgdas (l : list CompetenciaPGDAS.t) (db : BD)
  : BD :=
  mk_BD (ncm_monofasicos db) (notas_fiscais db) l (anexos_aliquotas db)
        (resultados_auditoria db).

Definition set_resultados_auditoria (l : list ResultadoAuditoria.t)
  (db : BD) : BD :=
  mk_BD (ncm_monofasicos db) (notas_fiscais db) (competencias_pgdas db)
        (anexos_aliquotas db) l.

(** ** app/services/rules_engine.py *)

Definition vigente (ncm : string) (data_referencia : date)
  (r : NCMMonofasico.t) : bool :=
  String.eqb (NCMMonofasico.ncm r) ncm
  && NCMMonofasico.flag_monofasico r
  && date_leb (NCMMonofasico.data_inicio_vigencia r) data_referencia
  && match NCMMonofasico.data_fim_vigencia r with
     | None => true
     | Some fim => date_leb data_referencia fim
     end.

Definition _ncm_esta_em_vigencia (tabela : list NCMMonofasico.t)
  (ncm : string) (data_referencia : date) : bool :=
  let existe := first_ (vigente ncm data_referencia) tabela in
  match existe with
  | Some _ => true
  | None => false
  end.

Definition classificar_item (item : ItemNota.t) (ncm_monofasico : bool)
  : ItemNota.t :=
  let cst_pis := PyStr.strip (PyStr.or_empty (ItemNota.cst_pis item)) in
  let cst_cofins := PyStr.strip (PyStr.or_empty (ItemNota.cst_cofins item)) in
  let possui_cst_04 := String.eqb cst_pis "04" || String.eqb cst_cofins "04" in
  let item := ItemNota.set_eh_monofasico false item in
  let item := ItemNota.set_eh_inconsistente false item in
  if ncm_monofasico && possui_cst_04 then
    ItemNota.set_eh_monofasico true item
  else if ncm_monofasico && negb possui_cst_04 then
    ItemNota.set_eh_inconsistente true item
  else if negb ncm_monofasico && possui_cst_04 then
    ItemNota.set_eh_inconsistente true item
  else item.

(** [int(s)] for decimal text: optional white space around, optional sign,
    digits, single underscores between digits.  The white space [int]
    skips is that of [str.isspace] less the separators FS..US (0x1C..0x1F),
    and a text of more than 4300 digits is refused (the default of
    [sys.set_int_max_str_digits]). *)
Definition int_isspace (c : ascii) : bool :=
  let n := Z.of_nat (nat_of_ascii c) in
  ((9 <=? n) && (n <=? 13)) || (n =? 32) || (n =? 133) || (n =? 160).

Fixpoint int_lstrip (s : string) : string :=
  match s with
  | String c r => if int_isspace c then int_lstrip r else s
  | EmptyString => EmptyString
  end.

Fixpoint int_rstrip (s : string) : string :=
  match s with
  | String c r =>
      match int_rstrip r with
      | EmptyString =>
          if int_isspace c then EmptyString else String c EmptyString
      | r' => String c r'
      end
  | EmptyString => EmptyString
  end.

Definition int_strip (s : string) : string := int_rstrip (int_lstrip s).

Definition int_max_str_digits : Z := 4300.

Definition digit_of (c : ascii) : option Z :=
  let n := Z.of_nat (nat_of_ascii c) in
  if (48 <=? n) && (n <=? 57) then Some (n - 48) else None.

Fixpoint int_digits (s : string) (acc : Z) (after_digit : bool) : option Z :=
  match s with
  | EmptyString => if after_digit then Some acc else None
  | String c r =>
      match digit_of c with
      | Some d => int_digits r (10 * acc + d) true
      | None =>
          if Ascii.eqb c "_" && after_digit then int_digits r acc false
          else None
      end
  end.

(** The number of decimal digits in a text. *)
Fixpoint conta_digitos (s : string) : Z :=
  match s with
  | String c r =>
      (if digit_of c is Some _ then 1 else 0) + conta_digitos r
  | EmptyString => 0
  end.

Definition int (s : string) : py Z :=
  let texto := int_strip s in
  let parsed :=
    match texto with
    | String c r =>
        if Ascii.eqb c "-" then Z.opp <$> int_digits r 0 false
        else if Ascii.eqb c "+" then int_digits r 0 false
        else int_digits texto 0 false
    | EmptyString => None
    end in
  match parsed with
  | Some n =>
      if conta_digitos texto <=? int_max_str_digits then Retorna n
      else Levanta ValueError
  | None => Levanta ValueError
  end.

(** An integer that fits the C [int] the constructor of [datetime]
    converts its arguments to. *)
Definition c_int (n : Z) : bool :=
  (-2147483648 <=? n) && (n <=? 2147483647).

(** [datetime(ano, mes, 1)]: OverflowError for an argument that does not
    fit a C [int], ValueError for a year outside 1..9999 or a month
    outside 1..12. *)
Definition datetime_dia1 (ano mes : Z) : py datetime :=
  if negb (c_int ano && c_int mes) then Levanta OverflowError
  else if (1 <=? ano) && (ano <=? 9999) && (1 <=? mes) && (mes <=? 12)
  then Retorna (mk_datetime (mk_date ano mes 1) 0)
  else Levanta ValueError.

Definition _intervalo_datas_competencia (ano_mes : string)
  : py (datetime * datetime) :=
  match PyStr.split "-" ano_mes with
  | [a; m] =>
      ano ← int a;
      mes ← int m;
      inicio ← datetime_dia1 ano mes;
      fim ← (if mes =? 12 then datetime_dia1 (ano + 1) 1
             else datetime_dia1 ano (mes + 1));
      Retorna (inicio, fim)
  | a :: _ =>
      (* the unpacking fails; a conversion error of the first part is
         raised before it *)
      _ ← int a; Levanta ValueError
  | [] => Levanta ValueError
  end.

(** The filter on invoices shared by the two queries of this module. *)
Definition nota_na_competencia (empresa : Empresa.t)
  (data_inicio data_fim : datetime) (nota : NotaFiscal.t) : bool :=
  (NotaFiscal.empresa_id nota =? Empresa.id empresa)
  && datetime_leb data_inicio (NotaFiscal.data_emissao nota)
  && datetime_ltb (NotaFiscal.data_emissao nota) data_fim.

(** The inner loop over [nota.itens]. *)
Definition classificar_itens_nota (tabela : list NCMMonofasico.t)
  (nota : NotaFiscal.t) : NotaFiscal.t :=
  let data_ref := dt_date (NotaFiscal.data_emissao nota) in
  NotaFiscal.set_itens
    (map (fun item =>
            let ncm_vigente :=
              _ncm_esta_em_vigencia tabela (ItemNota.ncm item) data_ref in
            classificar_item item ncm_vigente)
         (NotaFiscal.itens nota))
    nota.

Definition classificar_itens_empresa_competencia (db : BD)
  (empresa : Empresa.t) (ano_mes : string) : py (BD * Z) :=
  '(data_inicio, data_fim) ← _intervalo_datas_competencia ano_mes;
  let selecionada := nota_na_competencia empresa data_inicio data_fim in
  let notas :=
    map (fun nota =>
           if selecionada nota
           then classificar_itens_nota (ncm_monofasicos db) nota
           else nota)
        (notas_fiscais db) in
  let itens_processados :=
    foldr (fun nota n =>
             if selecionada nota
             then Z.of_nat (length (NotaFiscal.itens nota)) + n else n)
          0 (notas_fiscais db) in
  Retorna (set_notas_fiscais notas db, itens_processados).

(** [coalesce(sum(valor_total), 0)] over the flagged items of the selected
    invoices; the engine's SUM is taken as the exact sum. *)
Definition calcular_base_monofasica_xml (db : BD) (empresa : Empresa.t)
  (ano_mes : string) : py Dec.t :=
  '(data_inicio, data_fim) ← _intervalo_datas_competencia ano_mes;
  let linhas :=
    flat_map (fun nota =>
                if nota_na_competencia empresa data_inicio data_fim nota
                then filter (fun i => Is_true (ItemNota.eh_monofasico i))
                            (NotaFiscal.itens nota)
                else [])
             (notas_fiscais db) in
  Retorna (foldl (fun s i => Dec.add_exact s (ItemNota.valor_total i))
                 Dec.zero linhas).

(** ** app/services/comparison.py *)

Definition get_or_create_resultado_auditoria
  (tabela : list ResultadoAuditoria.t) (empresa : Empresa.t)
  (competencia : CompetenciaPGDAS.t)
  : list ResultadoAuditoria.t * (nat * ResultadoAuditoria.t) :=
  let existente :=
    first_ (fun r =>
              (ResultadoAuditoria.empresa_id r =? Empresa.id empresa)
              && (ResultadoAuditoria.competencia_id r
                  =? CompetenciaPGDAS.id competencia))
           tabela in
  match existente with
  | Some ir => (tabela, ir)
  | None =>
      let novo :=
        ResultadoAuditoria.mk
          (proximo_id (ResultadoAuditoria.id <$> tabela))
          (Empresa.id empresa)
          (CompetenciaPGDAS.id competencia)
          Dec.zero Dec.zero Dec.zero
          None None None in
      (tabela ++ [novo], (length tabela, novo))
  end.

Definition cruzar_competencia (db : BD) (empresa : Empresa.t)
  (ano_mes : string) : py (BD * option ResultadoAuditoria.t) :=
  let competencia :=
    first_ (fun c =>
              (CompetenciaPGDAS.empresa_id c =? Empresa.id empresa)
              && String.eqb (CompetenciaPGDAS.ano_mes c) ano_mes)
           (competencias_pgdas db) in
  match competencia with
  | None => Retorna (db, None)
  | Some (_, competencia) =>
      base_monofasica_xml ← calcular_base_monofasica_xml db empresa ano_mes;
      let base_pgdas_decimal :=
        Dec.or_zero (CompetenciaPGDAS.receita_monofasica_declarada competencia) in
      let diferenca_base := (base_monofasica_xml - base_pgdas_decimal)%dec in
      let '(tabela, (i, resultado)) :=
        get_or_create_resultado_auditoria (resultados_auditoria db)
          empresa competencia in
      let resultado :=
        ResultadoAuditoria.set_bases base_monofasica_xml base_pgdas_decimal
          diferenca_base resultado in
      Retorna (set_resultados_auditoria (<[i := resultado]> tabela) db,
               Some resultado)
  end.

(** ** app/services/calculator.py *)

Definition na_faixa (competencia : CompetenciaPGDAS.t) (receita_12m : Dec.t)
  (a : AnexoAliquota.t) : bool :=
  match CompetenciaPGDAS.anexo competencia with
  | Some anexo => String.eqb (AnexoAliquota.anexo a) anexo
  | None => false
  end
  && (AnexoAliquota.receita_bruta_min a <=? receita_12m)%dec
  && (receita_12m <=? AnexoAliquota.receita_bruta_max a)%dec.

Definition obter_anexo_aliquota_para_competencia
  (tabela : list AnexoAliquota.t) (competencia : CompetenciaPGDAS.t)
  : option AnexoAliquota.t :=
  let receita_12m :=
    Dec.or_zero (CompetenciaPGDAS.receita_bruta_12m competencia) in
  snd <$> first_ (na_faixa competencia receita_12m) tabela.

(** The object is returned with the value: the function writes the
    memoized rate on it.  Value and field are the quotient as the code
    assigns it (28 significant digits); the column is NUMERIC(6,4), so a
    load of the row after the commit yields four decimals of it. *)
Definition garantir_aliquota_efetiva (competencia : CompetenciaPGDAS.t)
  : py (CompetenciaPGDAS.t * Dec.t) :=
  match CompetenciaPGDAS.aliquota_efetiva competencia with
  | Some v => Retorna (competencia, v)
  | None =>
      let receita_12m :=
        Dec.or_zero (CompetenciaPGDAS.receita_bruta_12m competencia) in
      if (receita_12m =? Dec.zero)%dec then
        Retorna (CompetenciaPGDAS.set_aliquota_efetiva (Some Dec.zero)
                   competencia,
                 Dec.zero)
      else
        let aliquota_nominal :=
          Dec.opt_or_zero (CompetenciaPGDAS.aliquota_nominal competencia) in
        let parcela_deduzir :=
          Dec.opt_or_zero (CompetenciaPGDAS.parcela_a_deduzir competencia) in
        match Dec.div (receita_12m * aliquota_nominal - parcela_deduzir)%dec
                      receita_12m with
        | None => Levanta ZeroDivisionError
        | Some aliquota_efetiva =>
            Retorna (CompetenciaPGDAS.set_aliquota_efetiva
                       (Some aliquota_efetiva) competencia,
                     aliquota_efetiva)
        end
  end.

(** [competencia] is [resultado.competencia], the row the summary is
    linked to ([None] when the link resolves to nothing).  Both objects are
    returned as the function leaves them. *)
Definition calcular_indev_para_resultado (tabela : list AnexoAliquota.t)
  (resultado : ResultadoAuditoria.t)
  (competencia : option CompetenciaPGDAS.t)
  : py (ResultadoAuditoria.t * option CompetenciaPGDAS.t) :=
  match competencia with
  | None => Retorna (resultado, None)
  | Some competencia =>
      let diferenca_base :=
        Dec.or_zero (ResultadoAuditoria.diferenca_base resultado) in
      if (diferenca_base <=? Dec.zero)%dec then
        Retorna (ResultadoAuditoria.set_indev (Some Dec.zero)
                   (Some Dec.zero) (Some Dec.zero) resultado,
                 Some competencia)
      else
        '(competencia, aliquota_efetiva) ←
          garantir_aliquota_efetiva competencia;
        let anexo_faixa :=
          obter_anexo_aliquota_para_competencia tabela competencia in
        match anexo_faixa with
        | None =>
            Retorna (ResultadoAuditoria.set_indev None None None resultado,
                     Some competencia)
        | Some anexo_faixa =>
            let aliquota_pis_efetiva :=
              (aliquota_efetiva
               * Dec.or_zero (AnexoAliquota.percentual_pis anexo_faixa))%dec in
            let aliquota_cofins_efetiva :=
              (aliquota_efetiva
               * Dec.or_zero (AnexoAliquota.percentual_cofins anexo_faixa))%dec in
            let pis_indev := (diferenca_base * aliquota_pis_efetiva)%dec in
            let cofins_indev :=
              (diferenca_base * aliquota_cofins_efetiva)%dec in
            let total_indev := (pis_indev + cofins_indev)%dec in
            Retorna (ResultadoAuditoria.set_indev (Some pis_indev)
                       (Some cofins_indev) (Some total_indev) resultado,
                     Some competencia)
        end
  end.

(** [resultado.competencia]: the row with the key the summary refers to. *)
Definition competencia_de (db : BD) (resultado : ResultadoAuditoria.t)
  : option (nat * CompetenciaPGDAS.t) :=
  first_ (fun c =>
            CompetenciaPGDAS.id c =? ResultadoAuditoria.competencia_id resultado)
         (competencias_pgdas db).

(** Runs the estimation on the summary at position [i] and stores the two
    objects back, with the values as assigned: the three impacts with the
    precision of the products (the columns are NUMERIC(16,2)) and a derived
    rate with the precision of the division (NUMERIC(6,4)). *)
Definition calcular_indev_na_posicao (db : BD) (i : nat)
  (resultado : ResultadoAuditoria.t) : py (BD * ResultadoAuditoria.t) :=
  let ligada := competencia_de db resultado in
  '(resultado, competencia) ←
    calcular_indev_para_resultado (anexos_aliquotas db) resultado
      (snd <$> ligada);
  let db := set_resultados_auditoria
              (<[i := resultado]> (resultados_auditoria db)) db in
  let db :=
    match ligada, competencia with
    | Some (j, _), Some competencia =>
        set_competencias_pgdas
          (<[j := competencia]> (competencias_pgdas db)) db
    | _, _ => db
    end in
  Retorna (db, resultado).

Definition calcular_indev_para_competencia (db : BD) (empresa : Empresa.t)
  (ano_mes : string) : py (BD * option ResultadoAuditoria.t) :=
  let resultado :=
    first_ (fun r =>
              (ResultadoAuditoria.empresa_id r =? Empresa.id empresa)
              && existsb
                   (fun c =>
                      (CompetenciaPGDAS.id c
                       =? ResultadoAuditoria.competencia_id r)
                      && String.eqb (CompetenciaPGDAS.ano_mes c) ano_mes)
                   (competencias_pgdas db))
           (resultados_auditoria db) in
  match resultado with
  | None => Retorna (db, None)
  | Some (i, resultado) =>
      '(db, resultado) ← calcular_indev_na_posicao db i resultado;
      Retorna (db, Some resultado)
  end.

(** ** app/routers/uploads.py: the loop of [processar_auditoria] *)

Definition processar_competencia (db : BD) (empresa : Empresa.t)
  (comp : string) : py BD :=
  '(db, _) ← classificar_itens_empresa_competencia db empresa comp;
  '(db, _) ← cruzar_competencia db empresa comp;
  '(db, _) ← calcular_indev_para_competencia db empresa comp;
  Retorna db.

Fixpoint processar_competencias (db : BD) (empresa : Empresa.t)
  (competencias : list string) : py BD :=
  match competencias with
  | [] => Retorna db
  | comp :: resto =>
      db ← processar_competencia db empresa comp;
      processar_competencias db empresa resto
  end.

(** [datetime.strptime(s, "%Y-%m")], as the pair (year, month): four
    digits, a hyphen, and a month written 1..9, 01..09 or 10..12, with
    nothing before or after; the year 0000 is out of range. *)
Definition strptime_Y_m (s : string) : py (Z * Z) :=
  match s with
  | String a (String b (String c (String d (String h r)))) =>
      match digit_of a, digit_of b, digit_of c, digit_of d with
      | Some a, Some b, Some c, Some d =>
          let ano := 1000 * a + 100 * b + 10 * c + d in
          let mes :=
            match r with
            | String m EmptyString =>
                match digit_of m with
                | Some m => if 1 <=? m then Some m else None
                | None => None
                end
            | String m1 (String m2 EmptyString) =>
                match digit_of m1, digit_of m2 with
                | Some 1, Some m2 => if m2 <=? 2 then Some (10 + m2) else None
                | Some 0, Some m2 => if 1 <=? m2 then Some m2 else None
                | _, _ => None
                end
            | _ => None
            end in
          match mes with
          | Some mes =>
              if Ascii.eqb h "-" && (1 <=? ano) then Retorna (ano, mes)
              else Levanta ValueError
          | None => Levanta ValueError
          end
      | _, _, _, _ => Levanta ValueError
      end
  | _ => Levanta ValueError
  end.

(** The character of a decimal digit. *)
Definition digito (d : Z) : ascii := ascii_of_nat (Z.to_nat (48 + d)).

(** The text of a sequence of decimal digits. *)
Fixpoint digitos (ds : list Z) : string :=
  match ds with
  | [] => EmptyString
  | d :: r => String (digito d) (digitos r)
  end.

(** [strftime("%Y-%m")] of a datetime (year 1..9999, month 1..12): the
    month with two digits, the year as the C library prints it, without
    padding. *)
Definition str_ano (ano : Z) : string :=
  digitos
    (if ano <? 10 then [ano]
     else if ano <? 100 then [ano / 10; ano mod 10]
     else if ano <? 1000 then [ano / 100; ano / 10 mod 10; ano mod 10]
     else [ano / 1000; ano / 100 mod 10; ano / 10 mod 10; ano mod 10]).

Definition strftime_Y_m (ano mes : Z) : string :=
  String.append (str_ano ano)
    (String "-" (digitos [mes / 10; mes mod 10])).

(** The [while atual <= fim] loop; [replace(year=...)] raises beyond the
    year 9999.  [fuel] bounds the number of iterations. *)
Fixpoint gerar_loop (fuel : nat) (ano mes ano_fim mes_fim : Z)
  : py (list string) :=
  match fuel with
  | O => Retorna []
  | S f =>
      if (ano <? ano_fim) || ((ano =? ano_fim) && (mes <=? mes_fim)) then
        resto ← (if mes =? 12 then
                   if ano + 1 <=? 9999
                   then gerar_loop f (ano + 1) 1 ano_fim mes_fim
                   else Levanta ValueError
                 else gerar_loop f ano (mes + 1) ano_fim mes_fim);
        Retorna (strftime_Y_m ano mes :: resto)
      else Retorna []
  end.

(** The number of months from one period to another, both included. *)
Definition meses_entre (ano mes ano_fim mes_fim : Z) : nat :=
  Z.to_nat (12 * ano_fim + mes_fim - (12 * ano + mes) + 1).

Definition _gerar_intervalo_competencias
  (competencia_inicial competencia_final : string) : py (list string) :=
  '(ano, mes) ← strptime_Y_m competencia_inicial;
  '(ano_fim, mes_fim) ← strptime_Y_m competencia_final;
  gerar_loop (meses_entre ano mes ano_fim mes_fim) ano mes ano_fim mes_fim.

(** [processar_auditoria], from the generation of the periods to the end of
    the loop over them. *)
Definition processar_auditoria (db : BD) (empresa : Empresa.t)
  (competencia_inicial competencia_final : string) : py BD :=
  competencias ←
    _gerar_intervalo_competencias competencia_inicial competencia_final;
  processar_competencias db empresa competencias.

(** ** app/services/pgdas_importer.py *)

(** The session of an import.  It was created with [autoflush=False]:
    queries see the stored rows only ([persistentes], which carry the
    changes made to loaded objects), not the objects added and not yet
    flushed ([novos]). *)
Record Sessao := mk_Sessao {
  persistentes : list CompetenciaPGDAS.t;
  novos : list CompetenciaPGDAS.t
}.

Section Importador.

(** [float(texto)] as the value the NUMERIC column receives; [None] is the
    [ValueError] of a text that is not a number.  Binary floating point is
    not modelled. *)
Variable float_ : string -> option Dec.t.

Definition _parse_decimal (valor : option string) : py (option Dec.t) :=
  match valor with
  | None => Retorna None
  | Some valor =>
      let texto := PyStr.strip valor in
      if String.eqb texto "" then Retorna None
      else match float_ texto with
           | Some x => Retorna (Some x)
           | None => Levanta ValueError
           end
  end.

Definition upsert_competencia_pgdas (dados : gmap string string)
  (db_sessao : Sessao) (empresa : Empresa.t)
  : py (Sessao * CompetenciaPGDAS.t) :=
  match dados !! "ano_mes"%string with
  | None | Some EmptyString => Levanta ValueError
  | Some ano_mes =>
      let competencia :=
        first_ (fun c =>
                  (CompetenciaPGDAS.empresa_id c =? Empresa.id empresa)
                  && String.eqb (CompetenciaPGDAS.ano_mes c) ano_mes)
               (persistentes db_sessao) in
      (* a new object has no key before the flush: 0 stands for it *)
      let '(id, anexo_atual) :=
        match competencia with
        | Some (_, c) => (CompetenciaPGDAS.id c, CompetenciaPGDAS.anexo c)
        | None => (0, None)
        end in
      let anexo :=
        match dados !! "anexo"%string with
        | None | Some EmptyString => anexo_atual
        | Some a => Some a
        end in
      receita_bruta_total ←
        _parse_decimal (dados !! "receita_bruta_total"%string);
      receita_monofasica_declarada ←
        _parse_decimal (dados !! "receita_monofasica_declarada"%string);
      receita_substituicao_tributaria ←
        _parse_decimal (dados !! "receita_substituicao_tributaria"%string);
      receita_outras_exclusoes ←
        _parse_decimal (dados !! "receita_outras_exclusoes"%string);
      receita_bruta_12m ←
        _parse_decimal (dados !! "receita_bruta_12m"%string);
      aliquota_nominal ← _parse_decimal (dados !! "aliquota_nominal"%string);
      parcela_a_deduzir ←
        _parse_decimal (dados !! "parcela_a_deduzir"%string);
      aliquota_efetiva ← _parse_decimal (dados !! "aliquota_efetiva"%string);
      let nova :=
        CompetenciaPGDAS.mk id (Empresa.id empresa) ano_mes anexo
          (Dec.opt_or_zero receita_bruta_total)
          (Dec.opt_or_zero receita_monofasica_declarada)
          receita_substituicao_tributaria receita_outras_exclusoes
          (Dec.opt_or_zero receita_bruta_12m)
          aliquota_nominal parcela_a_deduzir aliquota_efetiva in
      match competencia with
      | Some (i, _) =>
          Retorna (mk_Sessao (<[i := nova]> (persistentes db_sessao))
                             (novos db_sessao),
                   nova)
      | None =>
          Retorna (mk_Sessao (persistentes db_sessao)
                             (novos db_sessao ++ [nova]),
                   nova)
      end
  end.

(** The loop over the rows of the file. *)
Fixpoint upsert_linhas (linhas : list (gmap string string))
  (db_sessao : Sessao) (empresa : Empresa.t) : py Sessao :=
  match linhas with
  | [] => Retorna db_sessao
  | linha :: resto =>
      '(db_sessao, _) ← upsert_competencia_pgdas linha db_sessao empresa;
      upsert_linhas resto db_sessao empresa
  end.

(** [db_sessao.commit()]: the added objects are inserted with fresh keys
    after the stored rows; the insert of a row without [anexo] violates
    [nullable=False]. *)
Definition inserir (tabela : list CompetenciaPGDAS.t)
  (c : CompetenciaPGDAS.t) : list CompetenciaPGDAS.t :=
  tabela ++
  [CompetenciaPGDAS.mk (proximo_id (CompetenciaPGDAS.id <$> tabela))
     (CompetenciaPGDAS.empresa_id c) (CompetenciaPGDAS.ano_mes c)
     (CompetenciaPGDAS.anexo c) (CompetenciaPGDAS.receita_bruta_total c)
     (CompetenciaPGDAS.receita_monofasica_declarada c)
     (CompetenciaPGDAS.receita_substituicao_tributaria c)
     (CompetenciaPGDAS.receita_outras_exclusoes c)
     (CompetenciaPGDAS.receita_bruta_12m c)
     (CompetenciaPGDAS.aliquota_nominal c)
     (CompetenciaPGDAS.parcela_a_deduzir c)
     (CompetenciaPGDAS.aliquota_efetiva c)].

Definition commit (db_sessao : Sessao) : py (list CompetenciaPGDAS.t) :=
  if forallb (fun c => bool_decide (is_Some (CompetenciaPGDAS.anexo c)))
             (novos db_sessao)
  then Retorna (foldl inserir (persistentes db_sessao) (novos db_sessao))
  else Levanta IntegrityError.

(** [linhas] is what [csv.DictReader] yields for the file.  The result is
    the database as the call leaves it, with the outcome of the call: when
    an exception leaves the function nothing was committed, and the
    session's changes are dropped when the request closes it. *)
Definition importar_pgdas_csv (linhas : list (gmap string string))
  (db : BD) (empresa : Empresa.t) : BD * py unit :=
  let db_sessao := mk_Sessao (competencias_pgdas db) [] in
  match upsert_linhas linhas db_sessao empresa ≫= commit with
  | Retorna tabela => (set_competencias_pgdas tabela db, Retorna tt)
  | Levanta e => (db, Levanta e)
  end.

End Importador.

(** ** Vocabulary of the specification *)

(** [classify(item, invoiceDate)]: the body of the inner loop of
    [classificar_itens_empresa_competencia] for one item. *)
Definition classify (tabela : list NCMMonofasico.t) (item : ItemNota.t)
  (invoiceDate : date) : ItemNota.t :=
  classificar_item item
    (_ncm_esta_em_vigencia tabela (ItemNota.ncm item) invoiceDate).

Inductive Classificacao := Exempt | Inconsistent | Ordinary.

(** The outcome an item's pair of flags stands for; the pair with both flags
    set stands for none. *)
Definition outcome (item : ItemNota.t) : option Classificacao :=
  match ItemNota.eh_monofasico item, ItemNota.eh_inconsistente item with
  | true, false => Some Exempt
  | false, true => Some Inconsistent
  | false, false => Some Ordinary
  | true, true => None
  end.

(** Chronological order of dates, as a proposition. *)
Definition date_le (a b : date) : Prop :=
  year a < year b
  \/ (year a = year b
      /\ (month a < month b \/ (month a = month b /\ day a <= day b))).

(** Specification, 4.1 step 1: an active catalog entry for the product code
    whose validity window contains the date. *)
Definition catalogMatch (tabela : list NCMMonofasico.t) (ncm : string)
  (d : date) : Prop :=
  exists r, r ∈ tabela
    /\ NCMMonofasico.ncm r = ncm
    /\ NCMMonofasico.flag_monofasico r = true
    /\ date_le (NCMMonofasico.data_inicio_vigencia r) d
    /\ (NCMMonofasico.data_fim_vigencia r = None
        \/ exists fim, NCMMonofasico.data_fim_vigencia r = Some fim
                       /\ date_le d fim).

(** Specification, 4.1 step 2: either trimmed tax-situation code is "04";
    an absent code is the empty text. *)
Definition specialCodePresent (item : ItemNota.t) : Prop :=
  PyStr.strip (PyStr.or_empty (ItemNota.cst_pis item)) = "04"%string
  \/ PyStr.strip (PyStr.or_empty (ItemNota.cst_cofins item)) = "04"%string.

(** The condition [possui_cst_04] of [classificar_item]. *)
Definition possui_cst_04 (item : ItemNota.t) : bool :=
  String.eqb (PyStr.strip (PyStr.or_empty (ItemNota.cst_pis item))) "04"
  || String.eqb (PyStr.strip (PyStr.or_empty (ItemNota.cst_cofins item))) "04".

(** The fields of an item other than the two flags. *)
Definition mesmos_dados (a b : ItemNota.t) : Prop :=
  ItemNota.id a = ItemNota.id b
  /\ ItemNota.ncm a = ItemNota.ncm b
  /\ ItemNota.cfop a = ItemNota.cfop b
  /\ ItemNota.quantidade a = ItemNota.quantidade b
  /\ ItemNota.valor_unitario a = ItemNota.valor_unitario b
  /\ ItemNota.valor_total a = ItemNota.valor_total b
  /\ ItemNota.cst_pis a = ItemNota.cst_pis b
  /\ ItemNota.cst_cofins a = ItemNota.cst_cofins b.

(** Specification, 3 (LineItem): at most one of the two flags is true. *)
Definition flags_exclusivos (item : ItemNota.t) : Prop :=
  ~ (ItemNota.eh_monofasico item = true
     /\ ItemNota.eh_inconsistente item = true).

Definition bd_flags_exclusivos (db : BD) : Prop :=
  forall nota item,
    nota ∈ notas_fiscais db -> item ∈ NotaFiscal.itens nota ->
    flags_exclusivos item.

(** Specification, 4.4 step 3: the bracket is of the period's annex and its
    inclusive range contains the trailing-12-month revenue. *)
Definition faixa_contem (c : CompetenciaPGDAS.t) (a : AnexoAliquota.t)
  : Prop :=
  CompetenciaPGDAS.anexo c = Some (AnexoAliquota.anexo a)
  /\ (Dec.to_Q (AnexoAliquota.receita_bruta_min a)
      <= Dec.to_Q (CompetenciaPGDAS.receita_bruta_12m c))%Q
  /\ (Dec.to_Q (CompetenciaPGDAS.receita_bruta_12m c)
      <= Dec.to_Q (AnexoAliquota.receita_bruta_max a))%Q.

(** A declaration period whose three inputs of the rate were overwritten. *)
Definition com_insumos (receita_12m : Dec.t)
  (aliquota_nominal parcela_a_deduzir : option Dec.t)
  (c : CompetenciaPGDAS.t) : CompetenciaPGDAS.t :=
  CompetenciaPGDAS.mk (CompetenciaPGDAS.id c)
    (CompetenciaPGDAS.empresa_id c) (CompetenciaPGDAS.ano_mes c)
    (CompetenciaPGDAS.anexo c) (CompetenciaPGDAS.receita_bruta_total c)
    (CompetenciaPGDAS.receita_monofasica_declarada c)
    (CompetenciaPGDAS.receita_substituicao_tributaria c)
    (CompetenciaPGDAS.receita_outras_exclusoes c)
    receita_12m aliquota_nominal parcela_a_deduzir
    (CompetenciaPGDAS.aliquota_efetiva c).


(** A period token the date arithmetic accepts. *)
Definition token_valido (ano_mes : string) : Prop :=
  exists ini_fim, _intervalo_datas_competencia ano_mes = Retorna ini_fim.

(** A row of the declaration file without its period token. *)
Definition sem_ano_mes (linha : gmap string string) : Prop :=
  linha !! "ano_mes"%string = None
  \/ linha !! "ano_mes"%string = Some ""%string.

(** ** Concrete data: the scenarios of the specification *)

Module Exemplo.

Definition dec2 (centavos : Z) : Dec.t := Dec.mk centavos (-2).
Definition dec4 (n : Z) : Dec.t := Dec.mk n (-4).

Definition empresa : Empresa.t :=
  Empresa.mk 1 "12.345.678/0001-90" "Posto Exemplo Ltda".

(** Catalog entry valid from 2024-01-01, no end. *)
Definition catalogo : list NCMMonofasico.t :=
  [NCMMonofasico.mk 1 "27101259" "Gasolina" "combustiveis"
     (mk_date 2024 1 1) None true].

Definition item (id : Z) (ncm : string) (cst_pis cst_cofins : option string)
  (valor_total : Dec.t) : ItemNota.t :=
  ItemNota.mk id ncm "5656" (dec4 10000) (dec4 (Dec.coef valor_total * 100))
    valor_total cst_pis cst_cofins false false.

Definition nota (id ano mes dia : Z) (itens : list ItemNota.t)
  : NotaFiscal.t :=
  NotaFiscal.mk id 1 "chave" (mk_datetime (mk_date ano mes dia) 36000000000)
    (dec2 0) itens.

Definition notas : list NotaFiscal.t :=
  [nota 1 2024 1 15
     [item 1 "27101259" (Some "04") (Some "04") (dec2 100000);
      item 2 "22021000" (Some "01") (Some "01") (dec2 25000);
      item 3 "27101259" (Some "01") None (dec2 8000)];
   nota 2 2024 2 10
     [item 4 "27101259" (Some "04") (Some "04") (dec2 4000)];
   nota 3 2024 3 15
     [item 5 "27101259" (Some " 04 ") (Some "") (dec2 50000);
      item 6 "22021000" None (Some "04") (dec2 1000)]].

Definition competencia (id : Z) (ano_mes : string) (declarada receita_12m : Dec.t)
  (aliquota_nominal parcela_a_deduzir aliquota_efetiva : option Dec.t)
  : CompetenciaPGDAS.t :=
  CompetenciaPGDAS.mk id 1 ano_mes (Some "I"%string) (dec2 500000) declarada
    None None receita_12m aliquota_nominal parcela_a_deduzir aliquota_efetiva.

(** Scenario D: declared exempt base 700.00, effective rate 0.10. *)
Definition c_2024_01 : CompetenciaPGDAS.t :=
  competencia 1 "2024-01" (dec2 70000) (dec2 10000000) None None
    (Some (dec4 1000)).

(** Scenario C: trailing-12-month revenue zero, no rate yet. *)
Definition c_2024_03 : CompetenciaPGDAS.t :=
  competencia 2 "2024-03" (dec2 20000) (dec2 0) None None None.

Definition faixa (id : Z) (receita_min receita_max pis cofins : Dec.t)
  : AnexoAliquota.t :=
  AnexoAliquota.mk id "I" id receita_min receita_max (dec4 400) (dec2 0)
    pis cofins.

(** Split 40% / 60% for revenues from 0.01 to 180000.00. *)
Definition faixas : list AnexoAliquota.t :=
  [faixa 1 (dec2 1) (dec2 18000000) (dec4 4000) (dec4 6000)].

(** Scenario E: declarations for 2024-01 and 2024-03, none for 2024-02. *)
Definition db : BD :=
  mk_BD catalogo notas [c_2024_01; c_2024_03] faixas [].

Definition resultado (diferenca_base : Dec.t) : ResultadoAuditoria.t :=
  ResultadoAuditoria.mk 1 1 1 (dec2 100000) (dec2 70000) diferenca_base
    None None None.

(** A period whose rate has to be derived: 1100000.00 of revenue, nominal
    rate 0.1070, deduction parcel 22500.00. *)
Definition c_derivada : CompetenciaPGDAS.t :=
  competencia 3 "2024-04" (dec2 70000) (dec2 110000000) (Some (dec4 1070))
    (Some (dec2 2250000)) None.

Definition faixas_derivada : list AnexoAliquota.t :=
  [faixa 4 (dec2 72000001) (dec2 180000000) (dec4 276) (dec4 1274)].



(** A declaration file of three rows, the second without period token. *)
Definition linha (ano_mes declarada : string) : gmap string string :=
  {[ "ano_mes"%string := ano_mes; "anexo"%string := "I"%string;
     "receita_monofasica_declarada"%string := declarada ]}.

Definition linhas : list (gmap string string) :=
  [linha "2024-01" "700.00";
   {[ "anexo"%string := "I"%string ]};
   linha "2024-03" "200.00"].

Definition float_ (texto : string) : option Dec.t :=
  if String.eqb texto "700.00" then Some (dec2 70000)
  else if String.eqb texto "200.00" then Some (dec2 20000)
  else None.

Definition db_vazio : BD := mk_BD catalogo notas [] faixas [].

(** Scenario E with two summaries already stored: the one of 2024-03 and
    one of another company for the declaration of 2024-01. *)
Definition resumos : list ResultadoAuditoria.t :=
  [ResultadoAuditoria.mk 1 1 2 (dec2 0) (dec2 0) (dec2 0) None None None;
   ResultadoAuditoria.mk 2 2 1 (dec2 700) (dec2 0) (dec2 700)
     None None None].

Definition db_com_resumos : BD :=
  mk_BD catalogo notas [c_2024_01; c_2024_03] faixas resumos.

(** Only the declaration of 2024-01, whose rate is stored. *)
Definition db_aliquota_gravada : BD :=
  mk_BD catalogo notas [c_2024_01] faixas [].

End Exemplo.

(** A decimal digit. *)
Definition eh_digito (d : Z) : Prop := 0 <= d <= 9.

(** ** Further functions of the modules *)

(** [competencia_from_date] (rules_engine.py): year with four digits, month
    with two, zero padded ([datetime] years are 1..9999). *)
Definition competencia_from_date (data : date) : string :=
  String.append
    (digitos [year data / 1000; year data / 100 mod 10;
              year data / 10 mod 10; year data mod 10])
    (String "-" (digitos [month data / 10; month data mod 10])).

(** Order of Python [str] values, also the order in which the storage
    engine compares period tokens: by code points, a prefix first. *)
Definition str_leb (a b : string) : bool := String.leb a b.

(** The loop of [cruzar_intervalo] over the period tokens selected by its
    query. *)
Fixpoint cruzar_lista (db : BD) (empresa : Empresa.t)
  (competencias : list string)
  : py (BD * list ResultadoAuditoria.t) :=
  match competencias with
  | [] => Retorna (db, [])
  | ano_mes :: resto =>
      '(db, resultado) ← cruzar_competencia db empresa ano_mes;
      '(db, resultados) ← cruzar_lista db empresa resto;
      Retorna (db, match resultado with
                   | Some r => r :: resultados
                   | None => resultados
                   end)
  end.

Definition no_intervalo (empresa : Empresa.t)
  (ano_mes_inicial ano_mes_final : string) (c : CompetenciaPGDAS.t) : bool :=
  (CompetenciaPGDAS.empresa_id c =? Empresa.id empresa)
  && str_leb ano_mes_inicial (CompetenciaPGDAS.ano_mes c)
  && str_leb (CompetenciaPGDAS.ano_mes c) ano_mes_final.

(** [cruzar_intervalo] (comparison.py). *)
Definition cruzar_intervalo (db : BD) (empresa : Empresa.t)
  (ano_mes_inicial ano_mes_final : string)
  : py (BD * list ResultadoAuditoria.t) :=
  let competencias :=
    filter (fun c => Is_true (no_intervalo empresa ano_mes_inicial
                                ano_mes_final c))
           (competencias_pgdas db) in
  cruzar_lista db empresa (CompetenciaPGDAS.ano_mes <$> competencias).




(** [_get_or_create_empresa] (uploads.py) on the table of companies.  The
    result is the table the call leaves behind and its outcome; the insert
    of a company without [razao_social] violates [nullable=False]. *)
Definition _get_or_create_empresa (tabela : list Empresa.t) (cnpj : string)
  (razao_social : option string) : list Empresa.t * py Empresa.t :=
  match first_ (fun e => String.eqb (Empresa.cnpj e) cnpj) tabela with
  | Some (i, empresa) =>
      match razao_social with
      | Some (String c r as nome) =>
          if String.eqb (Empresa.razao_social empresa) "" then
            let empresa := Empresa.mk (Empresa.id empresa)
                             (Empresa.cnpj empresa) nome in
            (<[i := empresa]> tabela, Retorna empresa)
          else (tabela, Retorna empresa)
      | _ => (tabela, Retorna empresa)
      end
  | None =>
      match razao_social with
      | Some nome =>
          let nova := Empresa.mk (proximo_id (Empresa.id <$> tabela))
                        cnpj nome in
          (tabela ++ [nova], Retorna nova)
      | None => (tabela, Levanta IntegrityError)
      end
  end.

(** ** Vocabulary of the further properties *)

(** Strict chronological order of two instants, field by field. *)
Definition datetime_lt_lex (a b : datetime) : Prop :=
  year (dt_date a) < year (dt_date b)
  \/ (year (dt_date a) = year (dt_date b)
      /\ (month (dt_date a) < month (dt_date b)
          \/ (month (dt_date a) = month (dt_date b)
              /\ (day (dt_date a) < day (dt_date b)
                  \/ (day (dt_date a) = day (dt_date b)
                      /\ dt_micro a < dt_micro b))))).

(** The exact sum of a list of decimals, as a rational number. *)
Definition soma_Q (l : list Dec.t) : Q :=
  foldr (fun d q => (Dec.to_Q d + q)%Q) 0%Q l.

(** A string of white space only. *)
Fixpoint so_espacos (s : string) : bool :=
  match s with
  | String c r => PyStr.isspace c && so_espacos r
  | EmptyString => true
  end.

(** No two summaries for the same company and declaration period. *)
Definition chaves_unicas (t : list ResultadoAuditoria.t) : Prop :=
  forall i j r1 r2,
    t !! i = Some r1 -> t !! j = Some r2 ->
    ResultadoAuditoria.empresa_id r1 = ResultadoAuditoria.empresa_id r2 ->
    ResultadoAuditoria.competencia_id r1
    = ResultadoAuditoria.competencia_id r2 ->
    i = j.

(** Two summaries that agree on every field but the three impacts. *)
Definition mesmas_bases (a b : ResultadoAuditoria.t) : Prop :=
  ResultadoAuditoria.id a = ResultadoAuditoria.id b
  /\ ResultadoAuditoria.empresa_id a = ResultadoAuditoria.empresa_id b
  /\ ResultadoAuditoria.competencia_id a
     = ResultadoAuditoria.competencia_id b
  /\ ResultadoAuditoria.base_monofasica_xml a
     = ResultadoAuditoria.base_monofasica_xml b
  /\ ResultadoAuditoria.base_monofasica_pgdas a
     = ResultadoAuditoria.base_monofasica_pgdas b
  /\ ResultadoAuditoria.diferenca_base a
     = ResultadoAuditoria.diferenca_base b.

(** The key of the importer's lookup: company and period token. *)
Definition chave_pgdas (empresa : Empresa.t) (ano_mes : string)
  (c : CompetenciaPGDAS.t) : bool :=
  (CompetenciaPGDAS.empresa_id c =? Empresa.id empresa)
  && String.eqb (CompetenciaPGDAS.ano_mes c) ano_mes.

(** [dados.get("anexo") or anexo_atual]. *)
Definition anexo_da_linha (dados : gmap string string)
  (anexo_atual : option string) : option string :=
  match dados !! "anexo"%string with
  | None | Some EmptyString => anexo_atual
  | Some a => Some a
  end.

(** Two declaration rows with the same key, company and period. *)
Definition mesma_competencia (a b : CompetenciaPGDAS.t) : Prop :=
  CompetenciaPGDAS.id a = CompetenciaPGDAS.id b
  /\ CompetenciaPGDAS.empresa_id a = CompetenciaPGDAS.empresa_id b
  /\ CompetenciaPGDAS.ano_mes a = CompetenciaPGDAS.ano_mes b.

(** A staged declaration as [commit] stores it, with the key [id]. *)
Definition com_id (id : Z) (c : CompetenciaPGDAS.t) : CompetenciaPGDAS.t :=
  CompetenciaPGDAS.mk id
    (CompetenciaPGDAS.empresa_id c) (CompetenciaPGDAS.ano_mes c)
    (CompetenciaPGDAS.anexo c) (CompetenciaPGDAS.receita_bruta_total c)
    (CompetenciaPGDAS.receita_monofasica_declarada c)
    (CompetenciaPGDAS.receita_substituicao_tributaria c)
    (CompetenciaPGDAS.receita_outras_exclusoes c)
    (CompetenciaPGDAS.receita_bruta_12m c)
    (CompetenciaPGDAS.aliquota_nominal c)
    (CompetenciaPGDAS.parcela_a_deduzir c)
    (CompetenciaPGDAS.aliquota_efetiva c).

(** Two declaration rows that differ at most in the memoized rate. *)
Definition so_aliquota (a b : CompetenciaPGDAS.t) : Prop :=
  exists v, a = CompetenciaPGDAS.set_aliquota_efetiva v b.

(** The filter of the query of [calcular_indev_para_competencia]. *)
Definition resultado_da_competencia (competencias : list CompetenciaPGDAS.t)
  (empresa : Empresa.t) (ano_mes : string) (r : ResultadoAuditoria.t)
  : bool :=
  (ResultadoAuditoria.empresa_id r =? Empresa.id empresa)
  && existsb
       (fun c =>
          (CompetenciaPGDAS.id c =? ResultadoAuditoria.competencia_id r)
          && String.eqb (CompetenciaPGDAS.ano_mes c) ano_mes)
       competencias.

(** Two invoices with the same header and, item by item, the same data
    (the flags of the items apart). *)
Definition mesma_nota (a b : NotaFiscal.t) : Prop :=
  NotaFiscal.id a = NotaFiscal.id b
  /\ NotaFiscal.empresa_id a = NotaFiscal.empresa_id b
  /\ NotaFiscal.chave a = NotaFiscal.chave b
  /\ NotaFiscal.data_emissao a = NotaFiscal.data_emissao b
  /\ NotaFiscal.valor_total a = NotaFiscal.valor_total b
  /\ Forall2 mesmos_dados (NotaFiscal.itens a) (NotaFiscal.itens b).

(** Two summaries with the same key, company and declaration period. *)
Definition mesmo_resultado (a b : ResultadoAuditoria.t) : Prop :=
  ResultadoAuditoria.id a = ResultadoAuditoria.id b
  /\ ResultadoAuditoria.empresa_id a = ResultadoAuditoria.empresa_id b
  /\ ResultadoAuditoria.competencia_id a
     = ResultadoAuditoria.competencia_id b.

(** What the processing loop may change between two databases: the flags
    of items, the memoized rate of declarations, and the summaries, which
    are updated in place or added at the end. *)
Definition so_processamento (db db' : BD) : Prop :=
  ncm_monofasicos db' = ncm_monofasicos db
  /\ anexos_aliquotas db' = anexos_aliquotas db
  /\ Forall2 mesma_nota (notas_fiscais db') (notas_fiscais db)
  /\ Forall2 so_aliquota (competencias_pgdas db') (competencias_pgdas db)
  /\ forall i r, resultados_auditoria db !! i = Some r ->
       exists r', resultados_auditoria db' !! i = Some r'
                  /\ mesmo_resultado r' r.

(** * Properties *)

(** ** Queries *)

Lemma first_Some_elem {A : Type} (p : A -> bool) (l : list A) i x :
  first_ p l = Some (i, x) -> l !! i = Some x /\ p x = true.
Proof.
  unfold first_. intros H. apply list_find_Some in H as (Hl & Hp & _).
  split; [done | by apply Is_true_true].
Qed.

Lemma first_None {A : Type} (p : A -> bool) (l : list A) :
  first_ p l = None <-> forall x, x ∈ l -> p x = false.
Proof.
  unfold first_. rewrite list_find_None, Forall_forall.
  split; intros H x Hx.
  - apply Is_true_false_1. by apply H.
  - apply Is_true_false_2. by apply H.
Qed.

Lemma first_is_Some {A : Type} (p : A -> bool) (l : list A) :
  is_Some (first_ p l) <-> exists x, x ∈ l /\ p x = true.
Proof.
  split.
  - intros [[i x] H]. apply first_Some_elem in H as [Hl Hp].
    exists x. split; [by eapply list_elem_of_lookup_2 | done].
  - intros (x & Hx & Hp). destruct (first_ p l) eqn:E; [by eexists |].
    rewrite first_None in E. specialize (E x Hx). congruence.
Qed.

(** ** Item classifier *)

Lemma date_leb_le a b : date_leb a b = true <-> date_le a b.
Proof. unfold date_leb, date_le. lia. Qed.

Lemma vigente_spec ncm d r :
  vigente ncm d r = true <->
  NCMMonofasico.ncm r = ncm
  /\ NCMMonofasico.flag_monofasico r = true
  /\ date_le (NCMMonofasico.data_inicio_vigencia r) d
  /\ (NCMMonofasico.data_fim_vigencia r = None
      \/ exists fim, NCMMonofasico.data_fim_vigencia r = Some fim
                     /\ date_le d fim).
Proof.
  unfold vigente. rewrite !andb_true_iff, String.eqb_eq, date_leb_le.
  destruct (NCMMonofasico.data_fim_vigencia r) as [fim|].
  - rewrite date_leb_le. split.
    + intros [[[? ?] ?] ?]. repeat split; try done. right. by exists fim.
    + intros (? & ? & ? & [? | (f & [= <-] & ?)]); [done | tauto].
  - split; [intros [[[? ?] ?] _]; repeat split; auto | tauto].
Qed.

Lemma _ncm_esta_em_vigencia_spec tabela ncm d :
  _ncm_esta_em_vigencia tabela ncm d = true <-> catalogMatch tabela ncm d.
Proof.
  unfold _ncm_esta_em_vigencia, catalogMatch.
  pose proof (first_is_Some (vigente ncm d) tabela) as H.
  destruct (first_ (vigente ncm d) tabela) as [ix|].
  - split; [intros _ | done].
    destruct H as [H _]. destruct (H (mk_is_Some _ _ eq_refl)) as (r & Hr & Hv).
    exists r. split; [done | by apply vigente_spec].
  - split; [done | intros (r & Hr & Hv)].
    destruct H as [_ H]. destruct H as [? H]; [|done].
    exists r. split; [done | by apply vigente_spec].
Qed.

Lemma possui_cst_04_spec item :
  possui_cst_04 item = true <-> specialCodePresent item.
Proof.
  unfold possui_cst_04, specialCodePresent.
  by rewrite orb_true_iff, !String.eqb_eq.
Qed.

(** The flags after [classificar_item], by cases on the two conditions. *)
Lemma classificar_item_flags item b :
  let r := classificar_item item b in
  ItemNota.eh_monofasico r = b && possui_cst_04 item
  /\ ItemNota.eh_inconsistente r = xorb b (possui_cst_04 item)
  /\ mesmos_dados r item.
Proof.
  unfold classificar_item, possui_cst_04, mesmos_dados.
  destruct b,
    (String.eqb (PyStr.strip (PyStr.or_empty (ItemNota.cst_pis item))) "04"),
    (String.eqb (PyStr.strip (PyStr.or_empty (ItemNota.cst_cofins item))) "04");
    cbn; repeat split; reflexivity.
Qed.

(** C1. For every line item and invoice date, the classifier yields Exempt
    exactly when an active catalog entry for the item's product code has a
    validity window containing the date and one of the trimmed
    tax-situation codes is "04"; Inconsistent exactly when one of the two
    conditions holds without the other; Ordinary exactly when neither holds.
    The two flags are the pair of the outcome, absent or empty codes are not
    "04", and no other field of the item changes. *)
Theorem classify_decision_table (tabela : list NCMMonofasico.t)
  (item : ItemNota.t) (invoiceDate : date) :
  let r := classify tabela item invoiceDate in
  let cm := catalogMatch tabela (ItemNota.ncm item) invoiceDate in
  let sc := specialCodePresent item in
  (outcome r = Some Exempt <-> cm /\ sc)
  /\ (outcome r = Some Inconsistent <-> (cm /\ ~ sc) \/ (~ cm /\ sc))
  /\ (outcome r = Some Ordinary <-> ~ cm /\ ~ sc)
  /\ (outcome r = Some Exempt ->
      ItemNota.eh_monofasico r = true /\ ItemNota.eh_inconsistente r = false)
  /\ (outcome r = Some Inconsistent ->
      ItemNota.eh_monofasico r = false /\ ItemNota.eh_inconsistente r = true)
  /\ (outcome r = Some Ordinary ->
      ItemNota.eh_monofasico r = false /\ ItemNota.eh_inconsistente r = false)
  /\ ((ItemNota.cst_pis item = None \/ ItemNota.cst_pis item = Some ""%string) ->
      (ItemNota.cst_cofins item = None
       \/ ItemNota.cst_cofins item = Some ""%string) ->
      ~ sc)
  /\ mesmos_dados r item.
Proof.
  intros r cm sc. subst r cm sc. unfold classify.
  pose proof (_ncm_esta_em_vigencia_spec tabela (ItemNota.ncm item) invoiceDate)
    as Hcm.
  pose proof (possui_cst_04_spec item) as Hsc.
  destruct (classificar_item_flags item
              (_ncm_esta_em_vigencia tabela (ItemNota.ncm item) invoiceDate))
    as (Hm & Hi & Hd).
  unfold outcome. rewrite Hm, Hi.
  destruct (_ncm_esta_em_vigencia tabela (ItemNota.ncm item) invoiceDate),
    (possui_cst_04 item); cbn.
  all: assert (forall P : Prop, (true = true <-> P) -> P) as T by (intros P [X _]; auto).
  all: assert (forall P : Prop, (false = true <-> P) -> ~ P) as F
    by (intros P [_ X] HP; specialize (X HP); discriminate).
  all: repeat match goal with
         | H : true = true <-> _ |- _ => apply T in H
         | H : false = true <-> _ |- _ => apply F in H
         end.
  all: repeat match goal with |- _ /\ _ => split | |- _ <-> _ => split end.
  all: try exact Hd; try done; try tauto.
  all: try (intros [Hp | Hp] [Hc | Hc] [Hs | Hs];
            rewrite ?Hp, ?Hc in Hs; cbn in Hs; discriminate).
  all: try (intros ? ? ?; tauto).
Qed.

(** ** Exceptions: inversion of a bind *)

Lemma py_bind_Retorna {A B : Type} (m : py A) (k : A -> py B) b :
  m ≫= k = Retorna b -> exists a, m = Retorna a /\ k a = Retorna b.
Proof. destruct m as [a|e]; cbn; [eauto | discriminate]. Qed.

Ltac inv_bind H :=
  let a := fresh "a" in
  let Ha := fresh "Ha" in
  apply py_bind_Retorna in H as (a & Ha & H).

(** ** The flags are written by the classifier only *)

Lemma classificar_item_exclusivo item b :
  flags_exclusivos (classificar_item item b).
Proof.
  destruct (classificar_item_flags item b) as (Hm & Hi & _).
  unfold flags_exclusivos. rewrite Hm, Hi.
  destruct b, (possui_cst_04 item); cbn; intros [? ?]; discriminate.
Qed.

Lemma classificar_itens_empresa_competencia_notas db empresa ano_mes db' n :
  classificar_itens_empresa_competencia db empresa ano_mes = Retorna (db', n) ->
  exists ini fim,
    _intervalo_datas_competencia ano_mes = Retorna (ini, fim)
    /\ db' = set_notas_fiscais
               (map (fun nota =>
                       if nota_na_competencia empresa ini fim nota
                       then classificar_itens_nota (ncm_monofasicos db) nota
                       else nota)
                    (notas_fiscais db)) db.
Proof.
  unfold classificar_itens_empresa_competencia. intros H.
  inv_bind H. destruct a as [ini fim]. cbn in H. injection H as <- _.
  by exists ini, fim.
Qed.

Lemma cruzar_competencia_notas db empresa ano_mes db' r :
  cruzar_competencia db empresa ano_mes = Retorna (db', r) ->
  notas_fiscais db' = notas_fiscais db
  /\ competencias_pgdas db' = competencias_pgdas db
  /\ ncm_monofasicos db' = ncm_monofasicos db
  /\ anexos_aliquotas db' = anexos_aliquotas db.
Proof.
  unfold cruzar_competencia. intros H.
  destruct (first_ _ (competencias_pgdas db)) as [[j c]|].
  - inv_bind H.
    destruct (get_or_create_resultado_auditoria _ _ _) as [tab [i res]].
    by injection H as <- _.
  - by injection H as <- _.
Qed.

Lemma calcular_indev_na_posicao_notas db i res db' r :
  calcular_indev_na_posicao db i res = Retorna (db', r) ->
  notas_fiscais db' = notas_fiscais db
  /\ ncm_monofasicos db' = ncm_monofasicos db
  /\ anexos_aliquotas db' = anexos_aliquotas db.
Proof.
  unfold calcular_indev_na_posicao. intros H. inv_bind H.
  destruct a as [res' comp']. cbn in H. injection H as <- _.
  by destruct (competencia_de db res) as [[j c]|], comp'.
Qed.

Lemma calcular_indev_para_competencia_notas db empresa ano_mes db' r :
  calcular_indev_para_competencia db empresa ano_mes = Retorna (db', r) ->
  notas_fiscais db' = notas_fiscais db.
Proof.
  unfold calcular_indev_para_competencia. intros H.
  destruct (first_ _ (resultados_auditoria db)) as [[i res]|].
  - inv_bind H. destruct a as [db1 res1]. cbn in H. injection H as <- _.
    by apply calcular_indev_na_posicao_notas in Ha as (? & _).
  - by injection H as <- _.
Qed.

Lemma importar_pgdas_csv_notas float_ linhas db empresa :
  notas_fiscais (importar_pgdas_csv float_ linhas db empresa).1
  = notas_fiscais db.
Proof.
  unfold importar_pgdas_csv.
  by destruct (upsert_linhas float_ linhas _ empresa ≫= commit).
Qed.

Lemma classificacao_preserva_exclusao db empresa ano_mes db' n :
  classificar_itens_empresa_competencia db empresa ano_mes = Retorna (db', n) ->
  bd_flags_exclusivos db -> bd_flags_exclusivos db'.
Proof.
  intros H Hinv.
  apply classificar_itens_empresa_competencia_notas in H as (ini & fim & _ & ->).
  intros nota' item'. cbn. rewrite list_elem_of_fmap.
  intros (nota & -> & Hnota).
  destruct (nota_na_competencia empresa ini fim nota).
  - cbn. rewrite list_elem_of_fmap. intros (item & -> & _).
    apply classificar_item_exclusivo.
  - by apply Hinv.
Qed.

Lemma processar_competencia_preserva_exclusao db empresa comp db' :
  processar_competencia db empresa comp = Retorna db' ->
  bd_flags_exclusivos db -> bd_flags_exclusivos db'.
Proof.
  unfold processar_competencia. intros H Hinv.
  inv_bind H. destruct a as [db1 n1]. cbn in H.
  inv_bind H. destruct a as [db2 r2]. cbn in H.
  inv_bind H. destruct a as [db3 r3]. cbn in H. injection H as <-.
  apply classificacao_preserva_exclusao in Ha; [|done].
  apply cruzar_competencia_notas in Ha0 as (E2 & _).
  apply calcular_indev_para_competencia_notas in Ha1 as E3.
  unfold bd_flags_exclusivos in *. rewrite E3, E2. exact Ha.
Qed.

(** C5. After any classification the two flags of an item are never both
    true; the classification pass leaves every item of the invoices it
    selects with at most one flag set; reconciliation, estimation and
    declaration ingestion do not touch the invoices' items; hence a database
    whose items have at most one flag set keeps that property through the
    processing of any list of periods. *)
Theorem flags_never_both_true (db : BD) (empresa : Empresa.t) :
  (forall item b, flags_exclusivos (classificar_item item b))
  /\ (forall ano_mes db' n ini fim,
        classificar_itens_empresa_competencia db empresa ano_mes
        = Retorna (db', n) ->
        _intervalo_datas_competencia ano_mes = Retorna (ini, fim) ->
        forall nota item,
          nota ∈ notas_fiscais db' ->
          nota_na_competencia empresa ini fim nota = true ->
          item ∈ NotaFiscal.itens nota -> flags_exclusivos item)
  /\ (forall ano_mes db' r,
        cruzar_competencia db empresa ano_mes = Retorna (db', r) ->
        notas_fiscais db' = notas_fiscais db)
  /\ (forall ano_mes db' r,
        calcular_indev_para_competencia db empresa ano_mes = Retorna (db', r) ->
        notas_fiscais db' = notas_fiscais db)
  /\ (forall float_ linhas,
        notas_fiscais (importar_pgdas_csv float_ linhas db empresa).1
        = notas_fiscais db)
  /\ (bd_flags_exclusivos db ->
      forall competencias db',
        processar_competencias db empresa competencias = Retorna db' ->
        bd_flags_exclusivos db').
Proof.
  split; [apply classificar_item_exclusivo |].
  split.
  { intros ano_mes db' n ini fim H Hint nota' item' Hn Hsel Hi.
    apply classificar_itens_empresa_competencia_notas in H
      as (ini' & fim' & Hint' & ->).
    rewrite Hint in Hint'. injection Hint' as <- <-.
    cbn in Hn. apply list_elem_of_fmap in Hn as (nota & -> & Hnota).
    destruct (nota_na_competencia empresa ini fim nota) eqn:E.
    - cbn in Hi. apply list_elem_of_fmap in Hi as (item & -> & _).
      apply classificar_item_exclusivo.
    - congruence. }
  split; [intros ? ? ? H; by apply cruzar_competencia_notas in H as (? & _) |].
  split; [intros ? ? ? H; by apply calcular_indev_para_competencia_notas in H |].
  split; [intros; apply importar_pgdas_csv_notas |].
  intros Hinv competencias. revert db Hinv.
  induction competencias as [|comp resto IH]; intros db Hinv db' H.
  - cbn in H. by injection H as <-.
  - cbn in H. inv_bind H.
    eapply IH; [|exact H].
    by eapply processar_competencia_preserva_exclusao.
Qed.

(** ** Facts on the decimal arithmetic *)

Module DecFacts.
Import Dec.

Lemma ndigits_aux_spec fuel : forall n,
  0 < n < 2 ^ Z.of_nat fuel ->
  10 ^ (ndigits_aux fuel n - 1) <= n < 10 ^ ndigits_aux fuel n /\ 1 <= ndigits_aux fuel n.
Proof.
  induction fuel as [|f IH]; intros n Hn.
  - cbn in Hn. lia.
  - cbn [ndigits_aux]. destruct (Z.ltb_spec n 10) as [Hlt|Hge].
    + cbn. lia.
    + assert (0 < n / 10 < 2 ^ Z.of_nat f) as Hq.
      { split.
        - apply Z.div_str_pos. lia.
        - apply Z.div_lt_upper_bound; [lia|].
          rewrite Nat2Z.inj_succ, Z.pow_succ_r in Hn by lia. lia. }
      destruct (IH _ Hq) as [[Hlo Hhi] H1].
      replace (1 + ndigits_aux f (n / 10) - 1) with (Z.succ (ndigits_aux f (n / 10) - 1)) by lia.
      replace (1 + ndigits_aux f (n / 10)) with (Z.succ (ndigits_aux f (n / 10))) by lia.
      rewrite !Z.pow_succ_r by lia.
      pose proof (Z.div_mod n 10 ltac:(lia)). pose proof (Z.mod_pos_bound n 10 ltac:(lia)).
      lia.
Qed.

Lemma ndigits_spec n :
  n <> 0 -> 10 ^ (ndigits n - 1) <= Z.abs n < 10 ^ ndigits n /\ 1 <= ndigits n.
Proof.
  intros Hn. unfold ndigits. apply ndigits_aux_spec.
  split; [lia|].
  rewrite Nat2Z.inj_succ, Z2Nat.id by apply Z.log2_nonneg.
  apply Z.log2_spec. lia.
Qed.

Lemma ndigits_zero : ndigits 0 = 1.
Proof. reflexivity. Qed.

Lemma ndigits_pos n : 1 <= ndigits n.
Proof.
  destruct (Z.eq_dec n 0) as [->|H]; [by rewrite ndigits_zero|].
  by apply ndigits_spec.
Qed.

Lemma ndigits_le n k : 0 <= k -> Z.abs n < 10 ^ k -> n <> 0 -> ndigits n <= k.
Proof.
  intros Hk Hn H0. destruct (ndigits_spec n H0) as [[Hlo _] H1].
  destruct (Z.le_gt_cases (ndigits n) k) as [|Hgt]; [done|].
  assert (10 ^ k <= 10 ^ (ndigits n - 1)) by (apply Z.pow_le_mono_r; lia).
  lia.
Qed.

Lemma fix_small d : ndigits (coef d) <= prec -> fix_ d = d.
Proof. unfold fix_. intros H. apply Z.leb_le in H. by rewrite H. Qed.

Lemma fix_sgn d : Z.sgn (coef (fix_ d)) = Z.sgn (coef d).
Proof.
  unfold fix_. destruct (Z.leb_spec (ndigits (coef d)) prec) as [|Hgt]; [done|].
  assert (coef d <> 0) as H0.
  { intros E. rewrite E, ndigits_zero in Hgt. unfold prec in Hgt. lia. }
  destruct (ndigits_spec _ H0) as [[Hlo Hhi] _].
  set (drop := ndigits (coef d) - prec) in *.
  set (a := Z.abs (coef d)) in *.
  assert (10 ^ 27 <= a / 10 ^ drop) as Hq.
  { apply Z.div_le_lower_bound; [apply Z.pow_pos_nonneg; lia|].
    rewrite <- Z.pow_add_r by (unfold prec in *; lia).
    replace (drop + 27) with (ndigits (coef d) - 1) by (unfold drop, prec; lia).
    done. }
  set (q1 := if orb _ _ then _ + 1 else _).
  assert (10 ^ 27 <= q1) as Hq1 by (unfold q1; destruct (_ || _); lia).
  assert (0 < q1 / 10) by (apply Z.div_str_pos; lia).
  destruct (prec <? ndigits q1); cbn [coef]; nia.
Qed.

Lemma ten_pow_pos e : (0 < 10 ^ e)%Q.
Proof. by apply Qpower_0_lt. Qed.

Lemma to_Q_scale c k e :
  0 <= k -> (to_Q (mk (c * 10 ^ k) e) == to_Q (mk c (e + k)))%Q.
Proof.
  intros Hk. unfold to_Q. cbn [coef exp].
  rewrite inject_Z_mult, Zpower_Qpower by done.
  change (inject_Z 10) with 10%Q.
  rewrite (Qpower_plus 10 e k) by done.
  ring.
Qed.

Lemma to_Q_align a b :
  let '(ca, cb, e) := align a b in
  (to_Q a == inject_Z ca * 10 ^ e)%Q /\ (to_Q b == inject_Z cb * 10 ^ e)%Q.
Proof.
  unfold align. set (e := Z.min (exp a) (exp b)).
  split.
  - change (inject_Z (coef a * 10 ^ (exp a - e)) * 10 ^ e)%Q
      with (to_Q (mk (coef a * 10 ^ (exp a - e)) e)).
    rewrite to_Q_scale by lia. replace (e + (exp a - e)) with (exp a) by lia.
    by destruct a.
  - change (inject_Z (coef b * 10 ^ (exp b - e)) * 10 ^ e)%Q
      with (to_Q (mk (coef b * 10 ^ (exp b - e)) e)).
    rewrite to_Q_scale by lia. replace (e + (exp b - e)) with (exp b) by lia.
    by destruct b.
Qed.

Lemma to_Q_mul_exact a b : (to_Q (mul_exact a b) == to_Q a * to_Q b)%Q.
Proof.
  unfold to_Q, mul_exact. cbn [coef exp].
  rewrite inject_Z_mult, (Qpower_plus 10 (exp a) (exp b)) by done. ring.
Qed.

Lemma to_Q_add_exact a b : (to_Q (add_exact a b) == to_Q a + to_Q b)%Q.
Proof.
  pose proof (to_Q_align a b) as H. unfold add_exact.
  destruct (align a b) as [[ca cb] e]. destruct H as [Ha Hb].
  rewrite Ha, Hb. unfold to_Q. cbn [coef exp]. rewrite inject_Z_plus. ring.
Qed.

Lemma to_Q_neg a : (to_Q (neg a) == - to_Q a)%Q.
Proof. unfold to_Q, neg. cbn [coef exp]. rewrite inject_Z_opp. ring. Qed.

Lemma to_Q_lt_0 a : (to_Q a < 0)%Q <-> coef a < 0.
Proof.
  unfold to_Q.
  pose proof (Qmult_lt_r (inject_Z (coef a)) 0 _ (ten_pow_pos (exp a))) as X.
  rewrite Qmult_0_l in X. rewrite X.
  change 0%Q with (inject_Z 0). by rewrite <- Zlt_Qlt.
Qed.

Lemma to_Q_gt_0 a : (0 < to_Q a)%Q <-> 0 < coef a.
Proof.
  unfold to_Q.
  pose proof (Qmult_lt_r 0 (inject_Z (coef a)) _ (ten_pow_pos (exp a))) as X.
  rewrite Qmult_0_l in X. rewrite X.
  change 0%Q with (inject_Z 0). by rewrite <- Zlt_Qlt.
Qed.

Lemma to_Q_eq_0 a : (to_Q a == 0)%Q <-> coef a = 0.
Proof.
  pose proof (to_Q_lt_0 a) as HL. pose proof (to_Q_gt_0 a) as HG.
  split.
  - intros E.
    destruct (Z.lt_trichotomy (coef a) 0) as [L|[Z|G]]; [|done|].
    + apply HL in L. rewrite E in L. by apply Qlt_irrefl in L.
    + apply HG in G. rewrite E in G. by apply Qlt_irrefl in G.
  - intros E. unfold to_Q. rewrite E. apply Qmult_0_l.
Qed.

Lemma compare_to_Q a b : compare a b = (to_Q a ?= to_Q b)%Q.
Proof.
  pose proof (to_Q_align a b) as H. unfold compare.
  destruct (align a b) as [[ca cb] e]. destruct H as [Ha Hb].
  pose proof (ten_pow_pos e) as Hp.
  destruct (Z.compare_spec ca cb) as [E|L|G]; symmetry.
  - apply Qeq_alt. rewrite Ha, Hb. by rewrite E.
  - apply Qlt_alt. rewrite Ha, Hb. apply (proj2 (Qmult_lt_r _ _ _ Hp)).
    by rewrite <- Zlt_Qlt.
  - apply Qgt_alt. rewrite Ha, Hb. apply (proj2 (Qmult_lt_r _ _ _ Hp)).
    by rewrite <- Zlt_Qlt.
Qed.

Lemma leb_to_Q a b : leb a b = true <-> (to_Q a <= to_Q b)%Q.
Proof.
  unfold leb. rewrite compare_to_Q, Qle_alt.
  destruct (to_Q a ?= to_Q b)%Q; split; done.
Qed.

Lemma ltb_to_Q a b : ltb a b = true <-> (to_Q a < to_Q b)%Q.
Proof.
  unfold ltb. rewrite compare_to_Q, Qlt_alt.
  by destruct (to_Q a ?= to_Q b)%Q.
Qed.

Lemma eqb_to_Q a b : eqb a b = true <-> (to_Q a == to_Q b)%Q.
Proof.
  unfold eqb. rewrite compare_to_Q, Qeq_alt.
  by destruct (to_Q a ?= to_Q b)%Q.
Qed.

Lemma to_Q_zero : (to_Q zero == 0)%Q.
Proof. reflexivity. Qed.

Lemma coef_or_zero x : coef (or_zero x) = coef x.
Proof.
  unfold or_zero, truthy. destruct (Z.eqb_spec (coef x) 0) as [E|E]; cbn; [by rewrite E | done].
Qed.

Lemma to_Q_or_zero x : (to_Q (or_zero x) == to_Q x)%Q.
Proof.
  unfold or_zero, truthy. destruct (Z.eqb_spec (coef x) 0) as [E|E]; cbn; [|done].
  symmetry. rewrite to_Q_zero. by apply to_Q_eq_0.
Qed.

Lemma mul_sgn a b :
  Z.sgn (coef (mul a b)) = Z.sgn (coef a) * Z.sgn (coef b).
Proof. unfold mul. rewrite fix_sgn. apply Z.sgn_mul. Qed.

Lemma add_sgn a b : Z.sgn (coef (add a b)) = Z.sgn (coef (add_exact a b)).
Proof. apply fix_sgn. Qed.

Lemma eqb_zero a : eqb a zero = true <-> coef a = 0.
Proof. by rewrite eqb_to_Q, to_Q_zero, to_Q_eq_0. Qed.

Lemma leb_zero a : leb a zero = true <-> coef a <= 0.
Proof.
  rewrite leb_to_Q, to_Q_zero. pose proof (to_Q_gt_0 a) as H.
  split.
  - intros Hle. destruct (Z.le_gt_cases (coef a) 0) as [|G]; [done|].
    apply H in G. by apply Qlt_not_le in G.
  - intros Hle. apply Qnot_lt_le. rewrite H. lia.
Qed.

Lemma strip_zeros_pos fuel : forall c e ideal,
  0 < c -> 0 < (strip_zeros fuel c e ideal).1.
Proof.
  induction fuel as [|f IH]; intros c e ideal Hc; cbn; [done|].
  destruct (e <? ideal); cbn; [|done].
  destruct (Z.eqb_spec (c mod 10) 0) as [E|E]; cbn; [|done].
  apply IH. apply Z.div_str_pos.
  pose proof (Z.div_mod c 10 ltac:(lia)). lia.
Qed.

Lemma div_sgn a b :
  coef a <> 0 -> coef b <> 0 ->
  exists r, div a b = Some r
            /\ Z.sgn (coef r) = Z.sgn (coef a) * Z.sgn (coef b).
Proof.
  intros Ha Hb. unfold div.
  destruct (Z.eqb_spec (coef b) 0) as [|_]; [done|].
  destruct (Z.eqb_spec (coef a) 0) as [|_]; [done|].
  destruct (ndigits_spec _ Ha) as [[Halo Hahi] Ha1].
  destruct (ndigits_spec _ Hb) as [[Hblo Hbhi] Hb1].
  set (la := ndigits (coef a)) in *. set (lb := ndigits (coef b)) in *.
  set (shift := lb - la + prec + 1).
  set (x := Z.abs (coef a)) in *. set (y := Z.abs (coef b)) in *.
  assert (0 < y) as Hy by (unfold y; lia).
  set (qr := if 0 <=? shift then _ else _).
  assert (0 < qr.1) as Hq.
  { unfold qr. destruct (Z.leb_spec 0 shift) as [Hs|Hs]; cbn [fst].
    - apply Z.div_str_pos. split; [done|].
      assert (10 ^ lb <= 10 ^ (la - 1) * 10 ^ shift).
      { rewrite <- Z.pow_add_r by lia. apply Z.pow_le_mono_r; unfold shift, prec; lia. }
      assert (0 < 10 ^ shift) by (apply Z.pow_pos_nonneg; lia).
      nia.
    - assert (0 < 10 ^ (- shift)) by (apply Z.pow_pos_nonneg; lia).
      apply Z.div_str_pos. split; [nia|].
      assert (10 ^ lb * 10 ^ (- shift) <= 10 ^ (la - 1)).
      { rewrite <- Z.pow_add_r by lia. apply Z.pow_le_mono_r; unfold shift, prec; lia. }
      nia. }
  destruct qr as [q r]. cbn [fst] in Hq.
  set (ce := if negb (r =? 0) then _ else _).
  assert (0 < ce.1) as Hc.
  { unfold ce. destruct (negb (r =? 0)); cbn [fst].
    - destruct (q mod 5 =? 0); lia.
    - by apply strip_zeros_pos. }
  destruct ce as [c e']. cbn [fst] in Hc.
  eexists. split; [done|].
  rewrite fix_sgn. cbn [coef]. rewrite Z.sgn_mul, (Z.sgn_pos c) by done.
  rewrite Z.sgn_mul, !Z.sgn_sgn. lia.
Qed.

Lemma div_is_Some a b : coef b <> 0 -> is_Some (div a b).
Proof.
  intros Hb. destruct (Z.eq_dec (coef a) 0) as [E|E].
  - unfold div. destruct (Z.eqb_spec (coef b) 0); [done|].
    destruct (Z.eqb_spec (coef a) 0); [by eexists | done].
  - destruct (div_sgn a b E Hb) as (r & -> & _). by eexists.
Qed.
Lemma ndigits_mono a b : Z.abs a <= Z.abs b -> ndigits a <= ndigits b.
Proof.
  intros H. destruct (Z.eq_dec a 0) as [->|Ha].
  - rewrite ndigits_zero. apply ndigits_pos.
  - assert (b <> 0) as Hb by lia.
    destruct (ndigits_spec a Ha) as [[Hlo _] _].
    destruct (ndigits_spec b Hb) as [[_ Hhi] H1].
    assert (10 ^ (ndigits a - 1) < 10 ^ ndigits b) as Hlt by lia.
    apply Z.pow_lt_mono_r_iff in Hlt; lia.
Qed.

Lemma mul_exact_when_short a b :
  ndigits (coef a * coef b) <= prec -> mul a b = mul_exact a b.
Proof. intros H. unfold mul. by apply fix_small. Qed.

Lemma to_Q_mul_short a b :
  ndigits (coef a * coef b) <= prec ->
  (to_Q (mul a b) == to_Q a * to_Q b)%Q.
Proof.
  intros H. rewrite mul_exact_when_short by done. apply to_Q_mul_exact.
Qed.

(** Values within the precision of two NUMERIC columns multiply exactly
    when the precisions add up to at most 28. *)
Lemma mul_short_columns a b p q :
  0 <= p -> 0 <= q -> p + q <= prec ->
  Z.abs (coef a) < 10 ^ p -> Z.abs (coef b) < 10 ^ q ->
  ndigits (coef a * coef b) <= prec.
Proof.
  intros Hp Hq Hpq Ha Hb.
  destruct (Z.eq_dec (coef a * coef b) 0) as [->|Hnz].
  - rewrite ndigits_zero. unfold prec. lia.
  - etransitivity; [|exact Hpq].
    apply ndigits_le; [lia| |done].
    rewrite Z.abs_mul, Z.pow_add_r by done.
    assert (0 < Z.abs (coef a)) by lia. assert (0 < Z.abs (coef b)) by lia.
    nia.
Qed.



End DecFacts.

(** ** Rate resolution *)

Lemma set_aliquota_efetiva_id c v :
  CompetenciaPGDAS.aliquota_efetiva c = Some v ->
  CompetenciaPGDAS.set_aliquota_efetiva (Some v) c = c.
Proof. destruct c. cbn. by intros ->. Qed.

(** Rate resolution always returns: the division is guarded. *)
Lemma garantir_aliquota_efetiva_total c :
  exists v,
    garantir_aliquota_efetiva c
    = Retorna (CompetenciaPGDAS.set_aliquota_efetiva (Some v) c, v).
Proof.
  unfold garantir_aliquota_efetiva.
  destruct (CompetenciaPGDAS.aliquota_efetiva c) as [v|] eqn:E.
  - exists v. by rewrite set_aliquota_efetiva_id.
  - destruct (Dec.eqb _ Dec.zero) eqn:Ez; [by eexists|].
    assert (Dec.coef (Dec.or_zero (CompetenciaPGDAS.receita_bruta_12m c)) <> 0)
      as Hnz.
    { intros H. apply DecFacts.eqb_zero in H. congruence. }
    destruct (DecFacts.div_is_Some
                (Dec.or_zero (CompetenciaPGDAS.receita_bruta_12m c)
                 * Dec.opt_or_zero (CompetenciaPGDAS.aliquota_nominal c)
                 - Dec.opt_or_zero (CompetenciaPGDAS.parcela_a_deduzir c))%dec
                _ Hnz) as [v ->].
    by eexists.
Qed.

Lemma na_faixa_spec c a :
  na_faixa c (Dec.or_zero (CompetenciaPGDAS.receita_bruta_12m c)) a = true
  <-> faixa_contem c a.
Proof.
  unfold na_faixa, faixa_contem.
  rewrite !andb_true_iff, !DecFacts.leb_to_Q, !DecFacts.to_Q_or_zero.
  destruct (CompetenciaPGDAS.anexo c) as [x|].
  - rewrite String.eqb_eq. split.
    + intros [[-> ?] ?]. done.
    + intros ([= ->] & ? & ?). done.
  - split; [intros [[? _] _]; done | intros [? _]; done].
Qed.

Lemma obter_anexo_None tabela c :
  obter_anexo_aliquota_para_competencia tabela c = None
  <-> forall a, a ∈ tabela -> ~ faixa_contem c a.
Proof.
  unfold obter_anexo_aliquota_para_competencia.
  destruct (first_ _ tabela) as [[i a]|] eqn:E; cbn.
  - split; [done|]. intros H. apply first_Some_elem in E as [Hl Hp].
    apply na_faixa_spec in Hp. exfalso. eapply H; [|exact Hp].
    by eapply list_elem_of_lookup_2.
  - split; [|done]. intros _ a Ha Hf. rewrite first_None in E.
    apply na_faixa_spec in Hf. specialize (E a Ha). congruence.
Qed.

Lemma obter_anexo_Some tabela c a :
  obter_anexo_aliquota_para_competencia tabela c = Some a ->
  a ∈ tabela /\ faixa_contem c a.
Proof.
  unfold obter_anexo_aliquota_para_competencia.
  destruct (first_ _ tabela) as [[i a']|] eqn:E; cbn; [|done].
  intros [= ->]. apply first_Some_elem in E as [Hl Hp].
  split; [by eapply list_elem_of_lookup_2 | by apply na_faixa_spec].
Qed.

Lemma diferenca_positiva r :
  (0 < Dec.to_Q (ResultadoAuditoria.diferenca_base r))%Q ->
  (Dec.or_zero (ResultadoAuditoria.diferenca_base r) <=? Dec.zero)%dec = false.
Proof.
  intros H. apply not_true_is_false. intros Hle.
  apply DecFacts.leb_to_Q in Hle.
  rewrite DecFacts.to_Q_or_zero, DecFacts.to_Q_zero in Hle.
  by apply Qlt_not_le in H.
Qed.

(** C7. Once the effective rate of a declaration period is set, resolving
    it returns the stored value and leaves the object as it is, whatever the
    trailing-12-month revenue, nominal rate and deduction parcel are; in
    particular a resolution after these inputs were overwritten still
    returns the stored value. *)
Theorem garantir_aliquota_efetiva_memoizada (c : CompetenciaPGDAS.t) :
  forall v,
    CompetenciaPGDAS.aliquota_efetiva c = Some v ->
    garantir_aliquota_efetiva c = Retorna (c, v)
    /\ forall receita_12m aliquota_nominal parcela_a_deduzir,
         garantir_aliquota_efetiva
           (com_insumos receita_12m aliquota_nominal parcela_a_deduzir c)
         = Retorna
             (com_insumos receita_12m aliquota_nominal parcela_a_deduzir c, v).
Proof.
  assert (forall c v, CompetenciaPGDAS.aliquota_efetiva c = Some v ->
            garantir_aliquota_efetiva c = Retorna (c, v)) as Hmemo.
  { intros c0 v H. unfold garantir_aliquota_efetiva. by rewrite H. }
  intros v H. split; [by apply Hmemo|]. intros. by apply Hmemo.
Qed.

Lemma calcular_indev_nao_positiva tabela resultado competencia :
  (Dec.to_Q (ResultadoAuditoria.diferenca_base resultado) <= 0)%Q ->
  calcular_indev_para_resultado tabela resultado (Some competencia)
  = Retorna (ResultadoAuditoria.set_indev (Some Dec.zero) (Some Dec.zero)
               (Some Dec.zero) resultado,
             Some competencia).
Proof.
  intros H. unfold calcular_indev_para_resultado.
  assert ((Dec.or_zero (ResultadoAuditoria.diferenca_base resultado)
           <=? Dec.zero)%dec = true) as ->; [|done].
  apply DecFacts.leb_to_Q.
  by rewrite DecFacts.to_Q_or_zero, DecFacts.to_Q_zero.
Qed.

(** The estimation writes the three impact fields only. *)
Lemma calcular_indev_para_resultado_bases tabela resultado competencia r c :
  calcular_indev_para_resultado tabela resultado competencia = Retorna (r, c) ->
  ResultadoAuditoria.diferenca_base r
  = ResultadoAuditoria.diferenca_base resultado
  /\ ResultadoAuditoria.base_monofasica_xml r
     = ResultadoAuditoria.base_monofasica_xml resultado
  /\ ResultadoAuditoria.base_monofasica_pgdas r
     = ResultadoAuditoria.base_monofasica_pgdas resultado.
Proof.
  unfold calcular_indev_para_resultado.
  destruct competencia as [comp|]; [|by intros [= <- _]].
  destruct (Dec.leb _ Dec.zero); [by intros [= <- _]|].
  destruct (garantir_aliquota_efetiva_total comp) as [v ->]. cbn.
  destruct (obter_anexo_aliquota_para_competencia _ _); by intros [= <- _].
Qed.

(** C4. When the difference of an audit summary is not positive, the
    estimation sets the three impact fields to zero (a value, not null, and
    not negative) and returns: the result does not depend on the bracket
    table, the linked declaration period is returned as it was (no rate is
    resolved or memoized), and in the database only the summary changes.
    The same holds for every summary that the estimation of a period finds
    and returns: its query joins the declaration periods, so the link
    exists. *)
Theorem diferenca_nao_positiva_impacto_zero
  (tabela : list AnexoAliquota.t) (resultado : ResultadoAuditoria.t)
  (competencia : CompetenciaPGDAS.t) :
  (Dec.to_Q (ResultadoAuditoria.diferenca_base resultado) <= 0)%Q ->
  let r := ResultadoAuditoria.set_indev (Some Dec.zero) (Some Dec.zero)
             (Some Dec.zero) resultado in
  calcular_indev_para_resultado tabela resultado (Some competencia)
  = Retorna (r, Some competencia)
  /\ ResultadoAuditoria.pis_indev r = Some Dec.zero
  /\ ResultadoAuditoria.cofins_indev r = Some Dec.zero
  /\ ResultadoAuditoria.total_indev r = Some Dec.zero
  /\ (Dec.to_Q Dec.zero == 0)%Q
  /\ (forall db i j,
        anexos_aliquotas db = tabela ->
        competencia_de db resultado = Some (j, competencia) ->
        calcular_indev_na_posicao db i resultado
        = Retorna (set_resultados_auditoria
                     (<[i := r]> (resultados_auditoria db)) db,
                   r))
  /\ (forall db empresa ano_mes db' r',
        calcular_indev_para_competencia db empresa ano_mes
        = Retorna (db', Some r') ->
        (Dec.to_Q (ResultadoAuditoria.diferenca_base r') <= 0)%Q ->
        ResultadoAuditoria.pis_indev r' = Some Dec.zero
        /\ ResultadoAuditoria.cofins_indev r' = Some Dec.zero
        /\ ResultadoAuditoria.total_indev r' = Some Dec.zero
        /\ competencias_pgdas db' = competencias_pgdas db).
Proof.
  intros H r.
  split; [by apply calcular_indev_nao_positiva|].
  repeat (split; [reflexivity|]).
  split.
  - intros db i j _ Hj. unfold calcular_indev_na_posicao.
    rewrite Hj. cbn [fmap option_fmap option_map snd].
    rewrite (calcular_indev_nao_positiva _ _ _ H). cbn.
    apply first_Some_elem in Hj as [Hl _].
    destruct db as [n nf cs an rs]. cbn in *.
    unfold set_competencias_pgdas, set_resultados_auditoria. cbn.
    by rewrite list_insert_id.
  - clear. intros db empresa ano_mes db' r' Hc Hle.
    unfold calcular_indev_para_competencia in Hc.
    destruct (first_ _ (resultados_auditoria db)) as [[i r0]|] eqn:E;
      [|discriminate].
    inv_bind Hc. destruct a as [db1 r1]. cbn in Hc. injection Hc as <- <-.
    apply first_Some_elem in E as [_ Hp].
    apply andb_true_iff in Hp as [_ Hex].
    apply existsb_exists in Hex as (c & Hc & Hcp).
    apply andb_true_iff in Hcp as [Hid _].
    unfold calcular_indev_na_posicao in Ha.
    destruct (competencia_de db r0) as [[j c0]|] eqn:Ec.
    + cbn [fmap option_fmap option_map snd] in Ha.
      inv_bind Ha. destruct a as [r2 c2]. cbn in Ha. injection Ha as <- <-.
      pose proof (calcular_indev_para_resultado_bases _ _ _ _ _ Ha0)
        as (Hd & _).
      rewrite Hd in Hle.
      rewrite (calcular_indev_nao_positiva _ _ _ Hle) in Ha0.
      injection Ha0 as <- <-.
      repeat (split; [reflexivity|]).
      apply first_Some_elem in Ec as [Hl _].
      destruct db as [n nf cs an rs]. cbn in *. by rewrite list_insert_id.
    + exfalso. unfold competencia_de in Ec. rewrite first_None in Ec.
      apply list_elem_of_In in Hc. specialize (Ec c Hc). congruence.
Qed.

Lemma obter_anexo_set_aliquota tabela c v :
  obter_anexo_aliquota_para_competencia tabela
    (CompetenciaPGDAS.set_aliquota_efetiva v c)
  = obter_anexo_aliquota_para_competencia tabela c.
Proof. reflexivity. Qed.

(** The estimation for a positive difference, in one equation. *)
Lemma calcular_indev_diferenca_positiva tabela resultado c :
  (0 < Dec.to_Q (ResultadoAuditoria.diferenca_base resultado))%Q ->
  exists v,
    garantir_aliquota_efetiva c
    = Retorna (CompetenciaPGDAS.set_aliquota_efetiva (Some v) c, v)
    /\ calcular_indev_para_resultado tabela resultado (Some c)
       = Retorna
           (match obter_anexo_aliquota_para_competencia tabela c with
            | None => ResultadoAuditoria.set_indev None None None resultado
            | Some af =>
                let dif :=
                  Dec.or_zero (ResultadoAuditoria.diferenca_base resultado) in
                let pis :=
                  (dif * (v * Dec.or_zero (AnexoAliquota.percentual_pis af)))%dec in
                let cofins :=
                  (dif * (v * Dec.or_zero (AnexoAliquota.percentual_cofins af)))%dec in
                ResultadoAuditoria.set_indev (Some pis) (Some cofins)
                  (Some (pis + cofins)%dec) resultado
            end,
            Some (CompetenciaPGDAS.set_aliquota_efetiva (Some v) c)).
Proof.
  intros Hpos. destruct (garantir_aliquota_efetiva_total c) as [v Hv].
  exists v. split; [done|].
  unfold calcular_indev_para_resultado.
  rewrite (diferenca_positiva _ Hpos), Hv. cbn.
  rewrite obter_anexo_set_aliquota.
  by destruct (obter_anexo_aliquota_para_competencia tabela c).
Qed.

(** C6. With no memoized rate and a trailing-12-month revenue of zero, rate
    resolution stores and returns the rate zero, without error.  With a
    positive difference and no bracket of the period's annex whose inclusive
    range contains the trailing-12-month revenue, the estimation sets the
    three impact fields to null and returns. *)
Theorem receita_zero_e_faixa_ausente (c : CompetenciaPGDAS.t) :
  (CompetenciaPGDAS.aliquota_efetiva c = None ->
   (Dec.to_Q (CompetenciaPGDAS.receita_bruta_12m c) == 0)%Q ->
   garantir_aliquota_efetiva c
   = Retorna (CompetenciaPGDAS.set_aliquota_efetiva (Some Dec.zero) c,
              Dec.zero))
  /\ (forall tabela resultado,
        (0 < Dec.to_Q (ResultadoAuditoria.diferenca_base resultado))%Q ->
        (forall a, a ∈ tabela -> ~ faixa_contem c a) ->
        exists r c',
          calcular_indev_para_resultado tabela resultado (Some c)
          = Retorna (r, Some c')
          /\ r = ResultadoAuditoria.set_indev None None None resultado
          /\ ResultadoAuditoria.pis_indev r = None
          /\ ResultadoAuditoria.cofins_indev r = None
          /\ ResultadoAuditoria.total_indev r = None).
Proof.
  split.
  - intros E Hz. unfold garantir_aliquota_efetiva. rewrite E.
    assert ((Dec.or_zero (CompetenciaPGDAS.receita_bruta_12m c)
             =? Dec.zero)%dec = true) as ->; [|done].
    apply DecFacts.eqb_to_Q.
    by rewrite DecFacts.to_Q_or_zero, DecFacts.to_Q_zero.
  - intros tabela resultado Hpos Hnone.
    destruct (calcular_indev_diferenca_positiva tabela resultado c Hpos)
      as (v & _ & ->).
    apply obter_anexo_None in Hnone. rewrite Hnone.
    by eexists _, _.
Qed.

(** C2 (amended).  For an audit summary with positive difference and a
    matching rate bracket the estimation works on decimals only, with the
    precision of Python's default decimal context: each product and the sum
    are rounded to 28 significant digits (ties to even).  The stored PIS
    impact is round28(difference x round28(effectiveRate x splitPIS)),
    likewise COFINS, and the total is round28(PIS + COFINS).  Whenever the
    exact product difference x effectiveRate x split has at most 28
    significant digits the impact equals it, and whenever the exact sum has
    at most 28 digits the total equals the sum of the two impacts (as for
    difference 300.00, rate 0.10, split 40%/60%: 12, 18 and 30, see
    [cenario_D]). *)
Theorem impactos_em_decimal (tabela : list AnexoAliquota.t)
  (resultado : ResultadoAuditoria.t) (c : CompetenciaPGDAS.t)
  (af : AnexoAliquota.t) :
  (0 < Dec.to_Q (ResultadoAuditoria.diferenca_base resultado))%Q ->
  obter_anexo_aliquota_para_competencia tabela c = Some af ->
  exists aliquota pis cofins total,
    garantir_aliquota_efetiva c
    = Retorna (CompetenciaPGDAS.set_aliquota_efetiva (Some aliquota) c,
               aliquota)
    /\ calcular_indev_para_resultado tabela resultado (Some c)
       = Retorna
           (ResultadoAuditoria.set_indev (Some pis) (Some cofins) (Some total)
              resultado,
            Some (CompetenciaPGDAS.set_aliquota_efetiva (Some aliquota) c))
    /\ let dif := Dec.or_zero (ResultadoAuditoria.diferenca_base resultado) in
       let p_pis := Dec.or_zero (AnexoAliquota.percentual_pis af) in
       let p_cofins := Dec.or_zero (AnexoAliquota.percentual_cofins af) in
       pis = Dec.fix_ (Dec.mul_exact dif (Dec.fix_ (Dec.mul_exact aliquota p_pis)))
       /\ cofins
          = Dec.fix_ (Dec.mul_exact dif
                        (Dec.fix_ (Dec.mul_exact aliquota p_cofins)))
       /\ total = Dec.fix_ (Dec.add_exact pis cofins)
       /\ (Dec.ndigits (Dec.coef dif * (Dec.coef aliquota * Dec.coef p_pis))
           <= Dec.prec ->
           (Dec.to_Q pis
            == Dec.to_Q (ResultadoAuditoria.diferenca_base resultado)
               * Dec.to_Q aliquota
               * Dec.to_Q (AnexoAliquota.percentual_pis af))%Q)
       /\ (Dec.ndigits (Dec.coef dif * (Dec.coef aliquota * Dec.coef p_cofins))
           <= Dec.prec ->
           (Dec.to_Q cofins
            == Dec.to_Q (ResultadoAuditoria.diferenca_base resultado)
               * Dec.to_Q aliquota
               * Dec.to_Q (AnexoAliquota.percentual_cofins af))%Q)
       /\ (Dec.ndigits (Dec.coef (Dec.add_exact pis cofins)) <= Dec.prec ->
           (Dec.to_Q total == Dec.to_Q pis + Dec.to_Q cofins)%Q).
Proof.
  intros Hpos Haf.
  destruct (calcular_indev_diferenca_positiva tabela resultado c Hpos)
    as (v & Hv & Hcalc).
  rewrite Haf in Hcalc. cbv zeta in Hcalc.
  eexists v, _, _, _. split; [exact Hv|]. split; [exact Hcalc|].
  cbv zeta. split; [reflexivity|]. split; [reflexivity|].
  split; [reflexivity|].
  assert (Dec.coef (Dec.or_zero (ResultadoAuditoria.diferenca_base resultado))
          <> 0) as Hd.
  { rewrite DecFacts.coef_or_zero. apply DecFacts.to_Q_gt_0 in Hpos. lia. }
  assert (forall p,
            Dec.ndigits
              (Dec.coef (Dec.or_zero (ResultadoAuditoria.diferenca_base resultado))
               * (Dec.coef v * Dec.coef (Dec.or_zero p))) <= Dec.prec ->
            (Dec.to_Q
               (Dec.or_zero (ResultadoAuditoria.diferenca_base resultado)
                * (v * Dec.or_zero p))%dec
             == Dec.to_Q (ResultadoAuditoria.diferenca_base resultado)
                * Dec.to_Q v * Dec.to_Q p)%Q) as Hex.
  { intros p Hn.
    assert (Dec.ndigits (Dec.coef v * Dec.coef (Dec.or_zero p)) <= Dec.prec)
      as Hin.
    { etransitivity; [|exact Hn]. apply DecFacts.ndigits_mono.
      rewrite (Z.abs_mul (Dec.coef (Dec.or_zero _))).
      assert (1 <= Z.abs (Dec.coef
                (Dec.or_zero (ResultadoAuditoria.diferenca_base resultado))))
        by lia.
      nia. }
    rewrite (DecFacts.mul_exact_when_short v) by done.
    rewrite DecFacts.to_Q_mul_short by done.
    rewrite DecFacts.to_Q_mul_exact, !DecFacts.to_Q_or_zero. ring. }
  split; [apply Hex|]. split; [apply Hex|].
  intros Hn. unfold Dec.add. rewrite DecFacts.fix_small by done.
  apply DecFacts.to_Q_add_exact.
Qed.


(** ** The periods of a run *)

Lemma digit_of_range c d : digit_of c = Some d -> eh_digito d.
Proof.
  unfold digit_of, eh_digito.
  destruct (Z.leb_spec 48 (Z.of_nat (nat_of_ascii c)));
    destruct (Z.leb_spec (Z.of_nat (nat_of_ascii c)) 57); cbn;
    intros [= <-]; lia.
Qed.

Lemma digito_facts d :
  eh_digito d ->
  digit_of (digito d) = Some d
  /\ int_isspace (digito d) = false
  /\ Ascii.eqb (digito d) "-" = false
  /\ Ascii.eqb (digito d) "+" = false.
Proof.
  unfold eh_digito. intros H.
  assert (d = 0 \/ d = 1 \/ d = 2 \/ d = 3 \/ d = 4 \/ d = 5 \/ d = 6
          \/ d = 7 \/ d = 8 \/ d = 9) as Hd by lia.
  repeat destruct Hd as [-> | Hd]; try subst d; by vm_compute.
Qed.

Lemma int_digits_digitos ds : forall acc,
  Forall eh_digito ds ->
  int_digits (digitos ds) acc true
  = Some (foldl (fun a d => 10 * a + d) acc ds).
Proof.
  induction ds as [|d r IH]; intros acc Hds; [done|].
  apply Forall_cons in Hds as [Hd Hr]. cbn [digitos int_digits foldl].
  destruct (digito_facts d Hd) as (-> & _). by apply IH.
Qed.

Lemma rstrip_digitos ds :
  Forall eh_digito ds -> int_rstrip (digitos ds) = digitos ds.
Proof.
  induction ds as [|d r IH]; intros Hds; [done|].
  apply Forall_cons in Hds as [Hd Hr]. cbn [digitos int_rstrip].
  rewrite (IH Hr). destruct (digito_facts d Hd) as (_ & -> & _).
  by destruct (digitos r).
Qed.

Lemma strip_digitos ds :
  Forall eh_digito ds -> int_strip (digitos ds) = digitos ds.
Proof.
  intros Hds. unfold int_strip.
  destruct ds as [|d r]; [done|].
  cbn [digitos int_lstrip].
  destruct (digito_facts d) as (_ & -> & _);
    [by apply Forall_cons in Hds as [? _]|].
  by apply (rstrip_digitos (d :: r)).
Qed.

Lemma conta_digitos_digitos ds :
  Forall eh_digito ds -> conta_digitos (digitos ds) = Z.of_nat (length ds).
Proof.
  induction ds as [|d r IH]; intros Hds; [done|].
  apply Forall_cons in Hds as [Hd Hr]. cbn [digitos conta_digitos length].
  destruct (digito_facts d Hd) as (-> & _). rewrite (IH Hr). lia.
Qed.

Lemma int_digitos d r :
  Forall eh_digito (d :: r) ->
  Z.of_nat (length (d :: r)) <= int_max_str_digits ->
  int (digitos (d :: r)) = Retorna (foldl (fun a d => 10 * a + d) 0 (d :: r)).
Proof.
  intros Hds Hlen. unfold int. rewrite strip_digitos by done.
  rewrite conta_digitos_digitos by done.
  destruct (Z.leb_spec (Z.of_nat (length (d :: r))) int_max_str_digits);
    [|lia].
  pose proof Hds as Hds'. apply Forall_cons in Hds' as [Hd Hr].
  cbn [digitos]. destruct (digito_facts d Hd) as (Hdig & _ & -> & ->).
  cbn [int_digits]. rewrite Hdig, int_digits_digitos by done.
  reflexivity.
Qed.

Lemma split_cons sep c r :
  PyStr.split sep (String c r)
  = if Ascii.eqb c sep then EmptyString :: PyStr.split sep r
    else match PyStr.split sep r with
         | h :: t => String c h :: t
         | [] => [String c EmptyString]
         end.
Proof. reflexivity. Qed.

Lemma split_digitos ds :
  Forall eh_digito ds -> PyStr.split "-" (digitos ds) = [digitos ds].
Proof.
  induction ds as [|d r IH]; intros Hds; [done|].
  apply Forall_cons in Hds as [Hd Hr]. cbn [digitos]. rewrite split_cons.
  destruct (digito_facts d Hd) as (_ & _ & -> & _). by rewrite IH.
Qed.

Lemma split_token ds1 ds2 :
  Forall eh_digito ds1 -> Forall eh_digito ds2 ->
  PyStr.split "-" (String.append (digitos ds1) (String "-" (digitos ds2)))
  = [digitos ds1; digitos ds2].
Proof.
  intros H1 H2. induction ds1 as [|d r IH].
  - change (PyStr.split "-" (String "-" (digitos ds2))
            = [EmptyString; digitos ds2]).
    rewrite split_cons. change (Ascii.eqb "-" "-") with true. cbn iota.
    by rewrite split_digitos.
  - apply Forall_cons in H1 as [Hd Hr].
    change (PyStr.split "-"
              (String (digito d)
                 (String.append (digitos r) (String "-" (digitos ds2))))
            = [String (digito d) (digitos r); digitos ds2]).
    rewrite split_cons.
    destruct (digito_facts d Hd) as (_ & _ & -> & _). by rewrite IH.
Qed.

Ltac digitos_ok :=
  repeat (apply List.Forall_cons;
          [unfold eh_digito; Z.div_mod_to_equations; lia|]);
  apply List.Forall_nil.

Lemma datetime_dia1_ok ano mes :
  1 <= ano <= 9999 -> 1 <= mes <= 12 ->
  datetime_dia1 ano mes = Retorna (mk_datetime (mk_date ano mes 1) 0).
Proof.
  intros Ha Hm. unfold datetime_dia1, c_int.
  assert (negb ((-2147483648 <=? ano) && (ano <=? 2147483647)
                && ((-2147483648 <=? mes) && (mes <=? 2147483647))) = false)
    as -> by lia.
  destruct (Z.leb_spec 1 ano); [|lia]. destruct (Z.leb_spec ano 9999); [|lia].
  destruct (Z.leb_spec 1 mes); [|lia]. destruct (Z.leb_spec mes 12); [|lia].
  reflexivity.
Qed.


Lemma strptime_Y_m_range s ano mes :
  strptime_Y_m s = Retorna (ano, mes) -> 1 <= ano <= 9999 /\ 1 <= mes <= 12.
Proof.
  unfold strptime_Y_m.
  destruct s as [|a [|b [|c [|d [|h r]]]]]; try done.
  destruct (digit_of a) as [da|] eqn:Ea; [|done].
  destruct (digit_of b) as [db|] eqn:Eb; [|done].
  destruct (digit_of c) as [dc|] eqn:Ec; [|done].
  destruct (digit_of d) as [dd|] eqn:Ed; [|done].
  apply digit_of_range in Ea, Eb, Ec, Ed. unfold eh_digito in *.
  set (m := match r with String _ _ => _ | _ => None end).
  assert (forall x, m = Some x -> 1 <= x <= 12) as Hm.
  { subst m. intros x. destruct r as [|m1 [|m2 [|? ?]]]; try done.
    - destruct (digit_of m1) as [d1|] eqn:E1; [|done].
      apply digit_of_range in E1. unfold eh_digito in E1.
      destruct (Z.leb_spec 1 d1); intros [= <-]; lia.
    - destruct (digit_of m1) as [d1|] eqn:E1; [|done].
      destruct (digit_of m2) as [d2|] eqn:E2;
        [|by destruct d1 as [|[| |]|]].
      apply digit_of_range in E2. unfold eh_digito in E2.
      destruct d1 as [|[| |]|]; try done.
      + destruct (Z.leb_spec 1 d2); intros [= <-]; lia.
      + destruct (Z.leb_spec d2 2); intros [= <-]; lia. }
  destruct m as [x|]; [|done].
  destruct (Ascii.eqb h "-"); [|done].
  destruct (Z.leb_spec 1 (1000 * da + 100 * db + 10 * dc + dd)); [|done].
  cbn. intros [= <- <-]. specialize (Hm x eq_refl). lia.
Qed.

(** The loop ends by its own condition: fuel beyond the number of months
    of the range changes nothing. *)
Lemma gerar_loop_fuel ano_fim mes_fim fuel : forall ano mes,
  1 <= mes <= 12 -> 1 <= mes_fim <= 12 ->
  (meses_entre ano mes ano_fim mes_fim <= fuel)%nat ->
  gerar_loop fuel ano mes ano_fim mes_fim
  = gerar_loop (meses_entre ano mes ano_fim mes_fim) ano mes ano_fim mes_fim.
Proof.
  induction fuel as [|f IH]; intros ano mes Hm Hmf Hle.
  - by replace (meses_entre ano mes ano_fim mes_fim) with 0%nat by lia.
  - destruct ((ano <? ano_fim) || ((ano =? ano_fim) && (mes <=? mes_fim)))
      eqn:G.
    + assert (meses_entre ano mes ano_fim mes_fim
              = S (meses_entre (if mes =? 12 then ano + 1 else ano)
                     (if mes =? 12 then 1 else mes + 1) ano_fim mes_fim))
        as E.
      { unfold meses_entre. destruct (Z.eqb_spec mes 12); lia. }
      rewrite E. cbn [gerar_loop]. rewrite G.
      destruct (Z.eqb_spec mes 12) as [E12|E12].
      * destruct (ano + 1 <=? 9999); [|done].
        rewrite IH; [done | lia | lia | ].
        rewrite E in Hle. lia.
      * rewrite IH; [done | lia | lia |].
        rewrite E in Hle. lia.
    + replace (meses_entre ano mes ano_fim mes_fim) with 0%nat
        by (unfold meses_entre; lia).
      cbn [gerar_loop]. by rewrite G.
Qed.



(** ** Reconciliation and the loop over the periods *)










(** The two ways [cruzar_competencia] ends when the declaration exists:
    the summary of the key is rewritten in place, or a new one is
    appended. *)
Lemma cruzar_competencia_Some db empresa ano_mes db' r :
  cruzar_competencia db empresa ano_mes = Retorna (db', Some r) ->
  exists j c base,
    first_ (fun c =>
              (CompetenciaPGDAS.empresa_id c =? Empresa.id empresa)
              && String.eqb (CompetenciaPGDAS.ano_mes c) ano_mes)
           (competencias_pgdas db) = Some (j, c)
    /\ calcular_base_monofasica_xml db empresa ano_mes = Retorna base
    /\ ((exists i r0,
           first_ (fun r =>
                     (ResultadoAuditoria.empresa_id r =? Empresa.id empresa)
                     && (ResultadoAuditoria.competencia_id r
                         =? CompetenciaPGDAS.id c))
                  (resultados_auditoria db) = Some (i, r0)
           /\ r = ResultadoAuditoria.set_bases base
                    (Dec.or_zero
                       (CompetenciaPGDAS.receita_monofasica_declarada c))
                    (base - Dec.or_zero
                              (CompetenciaPGDAS.receita_monofasica_declarada c))%dec
                    r0
           /\ db' = set_resultados_auditoria
                      (<[i := r]> (resultados_auditoria db)) db)
        \/ (first_ (fun r =>
                      (ResultadoAuditoria.empresa_id r =? Empresa.id empresa)
                      && (ResultadoAuditoria.competencia_id r
                          =? CompetenciaPGDAS.id c))
                   (resultados_auditoria db) = None
            /\ r = ResultadoAuditoria.mk
                     (proximo_id
                        (ResultadoAuditoria.id <$> resultados_auditoria db))
                     (Empresa.id empresa) (CompetenciaPGDAS.id c) base
                     (Dec.or_zero
                        (CompetenciaPGDAS.receita_monofasica_declarada c))
                     (base - Dec.or_zero
                               (CompetenciaPGDAS.receita_monofasica_declarada c))%dec
                     None None None
            /\ db' = set_resultados_auditoria
                       (resultados_auditoria db ++ [r]) db)).
Proof.
  unfold cruzar_competencia. intros H.
  destruct (first_ _ (competencias_pgdas db)) as [[j c]|] eqn:Ec; [|done].
  inv_bind H. rename a into base. exists j, c, base.
  split; [done|]. split; [done|].
  unfold get_or_create_resultado_auditoria in H.
  destruct (first_ _ (resultados_auditoria db)) as [[i r0]|] eqn:Er.
  - left. exists i, r0. injection H as <- <-. done.
  - right. injection H as <- <-. split; [done|]. split; [reflexivity|].
    f_equal. rewrite insert_app_r_alt, Nat.sub_diag by lia. reflexivity.
Qed.

Lemma cruzar_competencia_None db empresa ano_mes db' :
  cruzar_competencia db empresa ano_mes = Retorna (db', None) ->
  db' = db
  /\ first_ (fun c =>
               (CompetenciaPGDAS.empresa_id c =? Empresa.id empresa)
               && String.eqb (CompetenciaPGDAS.ano_mes c) ano_mes)
            (competencias_pgdas db) = None.
Proof.
  unfold cruzar_competencia. intros H.
  destruct (first_ _ (competencias_pgdas db)) as [[j c]|] eqn:Ec.
  - inv_bind H.
    destruct (get_or_create_resultado_auditoria _ _ _) as [t [i r0]].
    discriminate.
  - by injection H as <-.
Qed.

Lemma importar_pgdas_csv_resultados float_ linhas db empresa :
  resultados_auditoria (importar_pgdas_csv float_ linhas db empresa).1
  = resultados_auditoria db.
Proof.
  unfold importar_pgdas_csv.
  by destruct (upsert_linhas float_ linhas _ empresa ≫= commit).
Qed.

(** C8 (amended).  When no audit summary exists for (entity, declaration
    period), the record created by the lookup-or-create is appended to the
    table with the two base fields and the difference at zero and the three
    impact fields null.  The impact fields receive a value only in the
    estimation stage: reconciliation leaves the three impact fields of
    every summary it finds as they were and creates a summary with the
    three of them null, and classification and the import of a declaration
    file do not touch the summaries. *)
Theorem novo_resultado_auditoria_campos
  (tabela : list ResultadoAuditoria.t) (empresa : Empresa.t)
  (competencia : CompetenciaPGDAS.t) :
  (forall r, r ∈ tabela ->
     ~ (ResultadoAuditoria.empresa_id r = Empresa.id empresa
        /\ ResultadoAuditoria.competencia_id r
           = CompetenciaPGDAS.id competencia)) ->
  (exists novo,
     get_or_create_resultado_auditoria tabela empresa competencia
     = (tabela ++ [novo], (length tabela, novo))
     /\ ResultadoAuditoria.empresa_id novo = Empresa.id empresa
     /\ ResultadoAuditoria.competencia_id novo
        = CompetenciaPGDAS.id competencia
     /\ ResultadoAuditoria.base_monofasica_xml novo = Dec.zero
     /\ ResultadoAuditoria.base_monofasica_pgdas novo = Dec.zero
     /\ ResultadoAuditoria.diferenca_base novo = Dec.zero
     /\ ResultadoAuditoria.pis_indev novo = None
     /\ ResultadoAuditoria.cofins_indev novo = None
     /\ ResultadoAuditoria.total_indev novo = None)
  /\ (forall db ano_mes db' x,
        cruzar_competencia db empresa ano_mes = Retorna (db', x) ->
        forall i r',
          resultados_auditoria db' !! i = Some r' ->
          (exists r,
             resultados_auditoria db !! i = Some r
             /\ ResultadoAuditoria.pis_indev r'
                = ResultadoAuditoria.pis_indev r
             /\ ResultadoAuditoria.cofins_indev r'
                = ResultadoAuditoria.cofins_indev r
             /\ ResultadoAuditoria.total_indev r'
                = ResultadoAuditoria.total_indev r)
          \/ (resultados_auditoria db !! i = None
              /\ ResultadoAuditoria.pis_indev r' = None
              /\ ResultadoAuditoria.cofins_indev r' = None
              /\ ResultadoAuditoria.total_indev r' = None))
  /\ (forall db ano_mes db' n,
        classificar_itens_empresa_competencia db empresa ano_mes
        = Retorna (db', n) ->
        resultados_auditoria db' = resultados_auditoria db)
  /\ (forall float_ linhas db,
        resultados_auditoria
          (importar_pgdas_csv float_ linhas db empresa).1
        = resultados_auditoria db).
Proof.
  intros H. split; [|split; [|split]].
  - unfold get_or_create_resultado_auditoria.
    destruct (first_ _ tabela) as [[i r]|] eqn:E.
    + apply first_Some_elem in E as [Hl Hp].
      apply andb_true_iff in Hp as [H1 H2].
      apply Z.eqb_eq in H1, H2.
      exfalso. eapply H; [by eapply list_elem_of_lookup_2 | done].
    + eexists. split; [reflexivity|]. by cbn.
  - intros db ano_mes db' x Hx i r' Hi. destruct x as [r|].
    + apply cruzar_competencia_Some in Hx
        as (j & c & base & _ & _ & Hr).
      destruct Hr as [(k & r0 & Hf & -> & ->)|(_ & -> & ->)];
        cbn [resultados_auditoria set_resultados_auditoria] in Hi.
      * apply first_Some_elem in Hf as [Hk _]. left.
        destruct (decide (i = k)) as [->|Hne].
        -- rewrite list_lookup_insert_eq in Hi by (by eapply lookup_lt_Some).
           injection Hi as <-. by exists r0.
        -- rewrite list_lookup_insert_ne in Hi by done. by exists r'.
      * apply lookup_app_Some in Hi as [Hi|[Hlen Hi]].
        -- left. by exists r'.
        -- right. apply list_lookup_singleton_Some in Hi as [_ <-].
           split; [by apply lookup_ge_None|]. by cbn.
    + apply cruzar_competencia_None in Hx as [-> _]. left. by exists r'.
  - intros db ano_mes db' n Hn.
    by apply classificar_itens_empresa_competencia_notas in Hn
      as (ini & fim & _ & ->).
  - intros float_ linhas db. apply importar_pgdas_csv_resultados.
Qed.

(** ** Declaration ingestion *)

Lemma _parse_decimal_excecao float_ valor e :
  _parse_decimal float_ valor = Levanta e -> e = ValueError.
Proof.
  unfold _parse_decimal. destruct valor as [v|]; [|done].
  destruct (String.eqb _ _); [done|].
  destruct (float_ _); [done | by intros [= <-]].
Qed.

Lemma py_bind_Levanta {A B : Type} (m : py A) (k : A -> py B) e :
  m ≫= k = Levanta e ->
  m = Levanta e \/ exists a, m = Retorna a /\ k a = Levanta e.
Proof. destruct m as [a|e']; cbn; [eauto | intros [= ->]; by left]. Qed.

Lemma upsert_competencia_pgdas_excecao float_ dados s empresa e :
  upsert_competencia_pgdas float_ dados s empresa = Levanta e ->
  e = ValueError.
Proof.
  unfold upsert_competencia_pgdas.
  destruct (dados !! "ano_mes"%string) as [[|ch am]|];
    [by intros [= <-] | | by intros [= <-]].
  destruct (first_ _ (persistentes s)) as [[i c]|].
  all: intros H.
  all: repeat (apply py_bind_Levanta in H as [H | (? & _ & H)];
               [by apply _parse_decimal_excecao in H |]).
  all: discriminate.
Qed.

Lemma upsert_competencia_pgdas_sem_ano_mes float_ dados s empresa :
  sem_ano_mes dados ->
  upsert_competencia_pgdas float_ dados s empresa = Levanta ValueError.
Proof.
  unfold upsert_competencia_pgdas. by intros [-> | ->].
Qed.

Lemma upsert_linhas_sem_ano_mes float_ linhas : forall s empresa,
  (exists l, l ∈ linhas /\ sem_ano_mes l) ->
  upsert_linhas float_ linhas s empresa = Levanta ValueError.
Proof.
  induction linhas as [|l0 resto IH]; intros s empresa (l & Hl & Hs).
  - by apply elem_of_nil in Hl.
  - cbn [upsert_linhas].
    destruct (upsert_competencia_pgdas float_ l0 s empresa) as [[s' c]|e] eqn:E.
    + cbn. apply IH. apply elem_of_cons in Hl as [-> | Hl].
      * rewrite upsert_competencia_pgdas_sem_ano_mes in E by done. discriminate.
      * by exists l.
    + cbn. by apply upsert_competencia_pgdas_excecao in E as ->.
Qed.

(** C9 (amended).  A row without the period token makes the import of the
    file raise ValueError, and the database is left as it was before the
    call: no row of the file is ingested and the declaration periods
    committed before are unchanged. *)
Theorem linha_sem_ano_mes_aborta_arquivo (float_ : string -> option Dec.t)
  (linhas : list (gmap string string)) (db : BD) (empresa : Empresa.t) :
  (exists l, l ∈ linhas /\ sem_ano_mes l) ->
  importar_pgdas_csv float_ linhas db empresa = (db, Levanta ValueError).
Proof.
  intros H. unfold importar_pgdas_csv.
  by rewrite upsert_linhas_sem_ano_mes.
Qed.

(** ** The scenarios of the specification, evaluated *)

Ltac elem_cases H :=
  repeat (apply elem_of_cons in H as [-> | H]);
  try (by apply elem_of_nil in H).

(** Scenario A: catalog entry valid from 2024-01-01 with no end, invoice of
    2024-03-15, tax-situation code "04": Exempt. *)
Example cenario_A :
  outcome (classify Exemplo.catalogo
             (Exemplo.item 1 "27101259" (Some "04") (Some "01")
                (Exemplo.dec2 100000))
             (mk_date 2024 3 15))
  = Some Exempt.
Proof. reflexivity. Qed.

(** Scenario B: the same entry, invoice of 2023-12-31: the catalog does not
    match.  The item is Ordinary without the code "04"; with it the
    classifier marks the item Inconsistent. *)
Example cenario_B :
  _ncm_esta_em_vigencia Exemplo.catalogo "27101259" (mk_date 2023 12 31)
  = false
  /\ outcome (classify Exemplo.catalogo
                (Exemplo.item 1 "27101259" (Some "01") (Some "01")
                   (Exemplo.dec2 100000))
                (mk_date 2023 12 31))
     = Some Ordinary
  /\ outcome (classify Exemplo.catalogo
                (Exemplo.item 1 "27101259" (Some "04") (Some "04")
                   (Exemplo.dec2 100000))
                (mk_date 2023 12 31))
     = Some Inconsistent.
Proof. repeat split; reflexivity. Qed.

(** Scenario D: difference 300.00, effective rate 0.10, split 40%/60%:
    PIS 12, COFINS 18, total 30. *)
Example cenario_D :
  exists r c,
    calcular_indev_para_resultado Exemplo.faixas
      (Exemplo.resultado (Exemplo.dec2 30000)) (Some Exemplo.c_2024_01)
    = Retorna (r, c)
    /\ ResultadoAuditoria.pis_indev r = Some (Dec.mk 120000000000 (-10))
    /\ ResultadoAuditoria.cofins_indev r = Some (Dec.mk 180000000000 (-10))
    /\ ResultadoAuditoria.total_indev r = Some (Dec.mk 300000000000 (-10))
    /\ (Dec.to_Q (Dec.mk 120000000000 (-10)) == 12)%Q
    /\ (Dec.to_Q (Dec.mk 180000000000 (-10)) == 18)%Q
    /\ (Dec.to_Q (Dec.mk 300000000000 (-10)) == 30)%Q.
Proof. eexists _, _. split; [by vm_compute|]. by vm_compute. Qed.

(** Scenario E, with scenarios C and D on the way: periods 2024-01 to
    2024-03 with no declaration for 2024-02.  The run ends, and summaries
    exist for the declaration periods 1 (2024-01) and 2 (2024-03) only; the
    first holds the impacts of scenario D, the second (revenue zero, no
    bracket) null impacts. *)
Example cenario_E :
  _gerar_intervalo_competencias "2024-01" "2024-03"
  = Retorna ["2024-01"; "2024-02"; "2024-03"]%string
  /\ exists db',
    processar_auditoria Exemplo.db Exemplo.empresa "2024-01" "2024-03"
    = Retorna db'
    /\ (fun r => (ResultadoAuditoria.competencia_id r,
                  ResultadoAuditoria.diferenca_base r,
                  ResultadoAuditoria.total_indev r))
       <$> resultados_auditoria db'
       = [(1, Exemplo.dec2 30000, Some (Dec.mk 300000000000 (-10)));
          (2, Exemplo.dec2 30000, None)]
    /\ CompetenciaPGDAS.aliquota_efetiva <$> competencias_pgdas db'
       = [Some (Exemplo.dec4 1000); Some Dec.zero].
Proof.
  split; [by vm_compute|]. eexists. split; [by vm_compute|]. by vm_compute.
Qed.

(** ** Instances of the theorems on the scenarios *)

Lemma flags_never_both_true_witness :
  bd_flags_exclusivos Exemplo.db
  /\ forall db',
       processar_competencias Exemplo.db Exemplo.empresa
         ["2024-01"; "2024-02"; "2024-03"]%string = Retorna db' ->
       bd_flags_exclusivos db'.
Proof.
  assert (bd_flags_exclusivos Exemplo.db) as H.
  { intros nota item Hn Hi. cbn in Hn. elem_cases Hn.
    all: cbn in Hi; elem_cases Hi.
    all: intros [? ?]; discriminate. }
  split; [exact H|].
  intros db'.
  exact (proj2 (proj2 (proj2 (proj2 (proj2
           (flags_never_both_true Exemplo.db Exemplo.empresa))))) H
           ["2024-01"; "2024-02"; "2024-03"]%string db').
Defined.

Lemma garantir_aliquota_efetiva_memoizada_witness :
  CompetenciaPGDAS.aliquota_efetiva Exemplo.c_2024_01
  = Some (Exemplo.dec4 1000)
  /\ garantir_aliquota_efetiva Exemplo.c_2024_01
     = Retorna (Exemplo.c_2024_01, Exemplo.dec4 1000)
  /\ garantir_aliquota_efetiva
       (com_insumos (Exemplo.dec2 99900) (Some (Exemplo.dec4 1900)) None
          Exemplo.c_2024_01)
     = Retorna
         (com_insumos (Exemplo.dec2 99900) (Some (Exemplo.dec4 1900)) None
            Exemplo.c_2024_01,
          Exemplo.dec4 1000).
Proof.
  split; [reflexivity|].
  destruct (garantir_aliquota_efetiva_memoizada Exemplo.c_2024_01
              (Exemplo.dec4 1000) eq_refl) as [H1 H2].
  split; [exact H1 | apply H2].
Defined.

Lemma diferenca_nao_positiva_impacto_zero_witness :
  (Dec.to_Q (ResultadoAuditoria.diferenca_base
               (Exemplo.resultado (Exemplo.dec2 (-5000)))) <= 0)%Q
  /\ calcular_indev_para_resultado Exemplo.faixas
       (Exemplo.resultado (Exemplo.dec2 (-5000))) (Some Exemplo.c_2024_03)
     = Retorna
         (ResultadoAuditoria.set_indev (Some Dec.zero) (Some Dec.zero)
            (Some Dec.zero) (Exemplo.resultado (Exemplo.dec2 (-5000))),
          Some Exemplo.c_2024_03).
Proof.
  assert (Dec.to_Q (ResultadoAuditoria.diferenca_base
                      (Exemplo.resultado (Exemplo.dec2 (-5000)))) <= 0)%Q
    as H by (vm_compute; discriminate).
  split; [exact H|].
  exact (proj1 (diferenca_nao_positiva_impacto_zero Exemplo.faixas
                  (Exemplo.resultado (Exemplo.dec2 (-5000)))
                  Exemplo.c_2024_03 H)).
Defined.

Lemma receita_zero_e_faixa_ausente_witness :
  CompetenciaPGDAS.aliquota_efetiva Exemplo.c_2024_03 = None
  /\ (Dec.to_Q (CompetenciaPGDAS.receita_bruta_12m Exemplo.c_2024_03) == 0)%Q
  /\ (0 < Dec.to_Q (ResultadoAuditoria.diferenca_base
                      (Exemplo.resultado (Exemplo.dec2 30000))))%Q
  /\ (forall a, a ∈ Exemplo.faixas -> ~ faixa_contem Exemplo.c_2024_03 a)
  /\ garantir_aliquota_efetiva Exemplo.c_2024_03
     = Retorna (CompetenciaPGDAS.set_aliquota_efetiva (Some Dec.zero)
                  Exemplo.c_2024_03,
                Dec.zero)
  /\ exists r c',
       calcular_indev_para_resultado Exemplo.faixas
         (Exemplo.resultado (Exemplo.dec2 30000)) (Some Exemplo.c_2024_03)
       = Retorna (r, Some c')
       /\ ResultadoAuditoria.pis_indev r = None
       /\ ResultadoAuditoria.cofins_indev r = None
       /\ ResultadoAuditoria.total_indev r = None.
Proof.
  assert (forall a, a ∈ Exemplo.faixas -> ~ faixa_contem Exemplo.c_2024_03 a)
    as Hf.
  { intros a Ha. cbn in Ha. elem_cases Ha.
    intros (_ & Hmin & _). vm_compute in Hmin. by apply Hmin. }
  assert (0 < Dec.to_Q (ResultadoAuditoria.diferenca_base
                          (Exemplo.resultado (Exemplo.dec2 30000))))%Q
    as Hd by reflexivity.
  destruct (receita_zero_e_faixa_ausente Exemplo.c_2024_03) as [H1 H2].
  split; [reflexivity|]. split; [reflexivity|].
  split; [exact Hd|]. split; [exact Hf|].
  split; [apply H1; reflexivity|].
  destruct (H2 Exemplo.faixas _ Hd Hf) as (r & c' & E & _ & Hp & Hc & Ht).
  by exists r, c'.
Defined.


Lemma novo_resultado_auditoria_campos_witness :
  (forall r, r ∈ ([] : list ResultadoAuditoria.t) ->
     ~ (ResultadoAuditoria.empresa_id r = Empresa.id Exemplo.empresa
        /\ ResultadoAuditoria.competencia_id r
           = CompetenciaPGDAS.id Exemplo.c_2024_01))
  /\ exists novo,
       get_or_create_resultado_auditoria [] Exemplo.empresa Exemplo.c_2024_01
       = ([novo], (0%nat, novo))
       /\ ResultadoAuditoria.diferenca_base novo = Dec.zero
       /\ ResultadoAuditoria.total_indev novo = None.
Proof.
  assert (forall r, r ∈ ([] : list ResultadoAuditoria.t) ->
            ~ (ResultadoAuditoria.empresa_id r = Empresa.id Exemplo.empresa
               /\ ResultadoAuditoria.competencia_id r
                  = CompetenciaPGDAS.id Exemplo.c_2024_01)) as H.
  { intros r Hr. by apply elem_of_nil in Hr. }
  split; [exact H|].
  destruct (proj1 (novo_resultado_auditoria_campos [] Exemplo.empresa
                     Exemplo.c_2024_01 H))
    as (novo & E & _ & _ & _ & _ & Hd & _ & _ & Ht).
  exists novo. split; [exact E|]. by split.
Defined.

Lemma linha_sem_ano_mes_aborta_arquivo_witness :
  (exists l, l ∈ Exemplo.linhas /\ sem_ano_mes l)
  /\ importar_pgdas_csv Exemplo.float_ Exemplo.linhas Exemplo.db_vazio
       Exemplo.empresa
     = (Exemplo.db_vazio, Levanta ValueError).
Proof.
  assert (exists l, l ∈ Exemplo.linhas /\ sem_ano_mes l) as H.
  { exists ({[ "anexo"%string := "I"%string ]}). split.
    - apply (list_elem_of_lookup_2 _ 1%nat). reflexivity.
    - left. by vm_compute. }
  split; [exact H|].
  exact (linha_sem_ano_mes_aborta_arquivo Exemplo.float_ Exemplo.linhas
           Exemplo.db_vazio Exemplo.empresa H).
Defined.

Lemma impactos_em_decimal_witness :
  (0 < Dec.to_Q (ResultadoAuditoria.diferenca_base
                   (Exemplo.resultado (Exemplo.dec2 30000))))%Q
  /\ obter_anexo_aliquota_para_competencia Exemplo.faixas Exemplo.c_2024_01
     = Some (Exemplo.faixa 1 (Exemplo.dec2 1) (Exemplo.dec2 18000000)
               (Exemplo.dec4 4000) (Exemplo.dec4 6000))
  /\ exists aliquota pis cofins total,
       calcular_indev_para_resultado Exemplo.faixas
         (Exemplo.resultado (Exemplo.dec2 30000)) (Some Exemplo.c_2024_01)
       = Retorna
           (ResultadoAuditoria.set_indev (Some pis) (Some cofins) (Some total)
              (Exemplo.resultado (Exemplo.dec2 30000)),
            Some (CompetenciaPGDAS.set_aliquota_efetiva (Some aliquota)
                    Exemplo.c_2024_01))
       /\ (Dec.to_Q pis
           == Dec.to_Q (Exemplo.dec2 30000) * Dec.to_Q aliquota
              * Dec.to_Q (Exemplo.dec4 4000))%Q
       /\ (Dec.to_Q cofins
           == Dec.to_Q (Exemplo.dec2 30000) * Dec.to_Q aliquota
              * Dec.to_Q (Exemplo.dec4 6000))%Q
       /\ (Dec.to_Q total == Dec.to_Q pis + Dec.to_Q cofins)%Q.
Proof.
  assert (0 < Dec.to_Q (ResultadoAuditoria.diferenca_base
                          (Exemplo.resultado (Exemplo.dec2 30000))))%Q
    as Hd by reflexivity.
  split; [exact Hd|]. split; [reflexivity|].
  destruct (impactos_em_decimal Exemplo.faixas
              (Exemplo.resultado (Exemplo.dec2 30000)) Exemplo.c_2024_01
              _ Hd eq_refl)
    as (aliquota & pis & cofins & total & Hg & Hc & Hpis & Hcof & Htot
        & Xpis & Xcof & Xtot).
  assert (aliquota = Exemplo.dec4 1000) as Ea.
  { vm_compute in Hg. by injection Hg as <-. }
  exists aliquota, pis, cofins, total.
  split; [exact Hc|].
  subst aliquota.
  split; [apply Xpis; vm_compute; discriminate|].
  split; [apply Xcof; vm_compute; discriminate|].
  apply Xtot. rewrite Hpis, Hcof. vm_compute. discriminate.
Defined.


(** ** Where the specification says more than the code does *)

(** C2 as stated fails: with a derived rate of 28 digits the stored PIS
    impact is not the exact product difference x rate x split; the products
    are rounded to 28 significant digits on the way. *)
Lemma produto_exato_cex :
  exists aliquota pis r c',
    garantir_aliquota_efetiva Exemplo.c_derivada = Retorna (c', aliquota)
    /\ (0 < Dec.to_Q (ResultadoAuditoria.diferenca_base
                        (Exemplo.resultado (Exemplo.dec2 30000))))%Q
    /\ obter_anexo_aliquota_para_competencia Exemplo.faixas_derivada
         Exemplo.c_derivada
       = Some (Exemplo.faixa 4 (Exemplo.dec2 72000001)
                 (Exemplo.dec2 180000000) (Exemplo.dec4 276)
                 (Exemplo.dec4 1274))
    /\ calcular_indev_para_resultado Exemplo.faixas_derivada
         (Exemplo.resultado (Exemplo.dec2 30000)) (Some Exemplo.c_derivada)
       = Retorna (r, Some c')
    /\ ResultadoAuditoria.pis_indev r = Some pis
    /\ ~ (Dec.to_Q pis
          == Dec.to_Q (Exemplo.dec2 30000) * Dec.to_Q aliquota
             * Dec.to_Q (Exemplo.dec4 276))%Q.
Proof.
  eexists _, _, _, _.
  split; [by vm_compute|]. split; [reflexivity|]. split; [reflexivity|].
  split; [by vm_compute|]. split; [reflexivity|].
  vm_compute. discriminate.
Qed.

(** C8 as stated fails: the three impact fields of a new summary are null,
    not zero. *)
Lemma novo_resultado_impactos_cex :
  exists novo,
    get_or_create_resultado_auditoria [] Exemplo.empresa Exemplo.c_2024_01
    = ([novo], (0%nat, novo))
    /\ ResultadoAuditoria.pis_indev novo = None
    /\ ResultadoAuditoria.cofins_indev novo = None
    /\ ResultadoAuditoria.total_indev novo = None
    /\ ResultadoAuditoria.pis_indev novo <> Some Dec.zero.
Proof. eexists. split; [reflexivity|]. by repeat split. Qed.

(** C9 as stated fails: the row without period token aborts the whole file.
    The rows for 2024-01 and 2024-03 are ingested when they are alone in
    the file, and none of them is when the faulty row is among them. *)
Lemma linha_sem_ano_mes_cex :
  sem_ano_mes ({[ "anexo"%string := "I"%string ]})
  /\ CompetenciaPGDAS.ano_mes
     <$> competencias_pgdas
           (importar_pgdas_csv Exemplo.float_
              [Exemplo.linha "2024-01" "700.00";
               Exemplo.linha "2024-03" "200.00"]
              Exemplo.db_vazio Exemplo.empresa).1
     = ["2024-01"; "2024-03"]%string
  /\ importar_pgdas_csv Exemplo.float_
       [Exemplo.linha "2024-01" "700.00";
        {[ "anexo"%string := "I"%string ]};
        Exemplo.linha "2024-03" "200.00"]
       Exemplo.db_vazio Exemplo.empresa
     = (Exemplo.db_vazio, Levanta ValueError)
  /\ competencias_pgdas Exemplo.db_vazio = [].
Proof.
  split; [left; by vm_compute|]. split; [by vm_compute|].
  split; [by vm_compute | reflexivity].
Qed.


(** * Further properties of the code *)

(** ** Periods: tokens, intervals and order *)

Lemma _intervalo_datas_competencia_digitos ds ano mes :
  ds <> [] -> Forall eh_digito ds ->
  Z.of_nat (length ds) <= int_max_str_digits ->
  foldl (fun a d => 10 * a + d) 0 ds = ano ->
  0 <= mes <= 99 ->
  _intervalo_datas_competencia
    (String.append (digitos ds)
       (String "-" (digitos [mes / 10; mes mod 10])))
  = (inicio ← datetime_dia1 ano mes;
     fim ← (if mes =? 12 then datetime_dia1 (ano + 1) 1
            else datetime_dia1 ano (mes + 1));
     Retorna (inicio, fim)).
Proof.
  intros Hne Hds Hlen Hval Hm. unfold _intervalo_datas_competencia.
  rewrite split_token by (done || digitos_ok).
  destruct ds as [|d r]; [done|].
  rewrite (int_digitos d r) by done. rewrite Hval. cbn [mbind py_bind].
  rewrite int_digitos
    by (digitos_ok || (unfold int_max_str_digits; cbn; lia)).
  cbn [foldl mbind py_bind].
  replace (10 * (10 * 0 + mes / 10) + mes mod 10) with mes
    by (Z.div_mod_to_equations; lia).
  reflexivity.
Qed.

Lemma _intervalo_competencia_from_date (d : date) :
  0 <= year d <= 9999 -> 0 <= month d <= 99 ->
  _intervalo_datas_competencia (competencia_from_date d)
  = (inicio ← datetime_dia1 (year d) (month d);
     fim ← (if month d =? 12 then datetime_dia1 (year d + 1) 1
            else datetime_dia1 (year d) (month d + 1));
     Retorna (inicio, fim)).
Proof.
  intros Hy Hm. unfold competencia_from_date.
  apply _intervalo_datas_competencia_digitos;
    [done | digitos_ok | unfold int_max_str_digits; cbn; lia | | done].
  cbn [foldl]. Z.div_mod_to_equations; lia.
Qed.

(** What an accepted token denotes: the first instant of a month and the
    first instant of the next one. *)
Lemma _intervalo_datas_competencia_forma ano_mes ini fim :
  _intervalo_datas_competencia ano_mes = Retorna (ini, fim) ->
  exists ano mes,
    1 <= ano <= 9999 /\ 1 <= mes <= 12 /\ (mes = 12 -> ano < 9999)
    /\ ini = mk_datetime (mk_date ano mes 1) 0
    /\ fim = (if mes =? 12 then mk_datetime (mk_date (ano + 1) 1 1) 0
              else mk_datetime (mk_date ano (mes + 1) 1) 0).
Proof.
  unfold _intervalo_datas_competencia.
  destruct (PyStr.split "-" ano_mes) as [|a [|m [|x l]]]; try done.
  - intros H. inv_bind H. discriminate.
  - intros H. inv_bind H. rename a0 into ano. inv_bind H. rename a0 into mes.
    inv_bind H. inv_bind H. injection H as <- <-.
    assert (forall y m0 dt, datetime_dia1 y m0 = Retorna dt ->
              1 <= y <= 9999 /\ 1 <= m0 <= 12
              /\ dt = mk_datetime (mk_date y m0 1) 0) as Hd.
    { intros y m0 dt. unfold datetime_dia1.
      destruct (negb (c_int y && c_int m0)); [done|].
      destruct (Z.leb_spec 1 y); [|done]. destruct (Z.leb_spec y 9999); [|done].
      destruct (Z.leb_spec 1 m0); [|done]. destruct (Z.leb_spec m0 12); [|done].
      cbn. intros [= <-]. repeat split; lia. }
    apply Hd in Ha1 as (Hy & Hm & ->).
    exists ano, mes. destruct (Z.eqb_spec mes 12) as [E|E].
    + apply Hd in Ha2 as (Hy2 & _ & ->). repeat split; try lia.
    + apply Hd in Ha2 as (_ & _ & ->). repeat split; try lia.
  - intros H. inv_bind H. discriminate.
Qed.

Lemma datetime_ltb_lex a b : datetime_ltb a b = true <-> datetime_lt_lex a b.
Proof.
  unfold datetime_ltb, datetime_leb, datetime_lt_lex, date_eqb, date_leb.
  destruct ((year (dt_date b) =? year (dt_date a))
            && (month (dt_date b) =? month (dt_date a))
            && (day (dt_date b) =? day (dt_date a))) eqn:E; lia.
Qed.

Lemma datetime_leb_lex a b :
  datetime_leb a b = true <->
  datetime_lt_lex a b
  \/ (year (dt_date a) = year (dt_date b)
      /\ month (dt_date a) = month (dt_date b)
      /\ day (dt_date a) = day (dt_date b) /\ dt_micro a <= dt_micro b).
Proof.
  unfold datetime_leb, datetime_lt_lex, date_eqb, date_leb.
  destruct ((year (dt_date a) =? year (dt_date b))
            && (month (dt_date a) =? month (dt_date b))
            && (day (dt_date a) =? day (dt_date b))) eqn:E; lia.
Qed.

(** X1. A date falls in the half-open interval of its own period: for a
    valid date other than one of December 9999, the period token of the
    date is accepted, its interval starts at the first instant of the
    date's month, and the date (at any time of day) lies in it.  For
    December 9999 the end of the interval cannot be built and ValueError
    is raised. *)
Theorem data_na_propria_competencia (dt : datetime) :
  1 <= year (dt_date dt) <= 9999 -> 1 <= month (dt_date dt) <= 12 ->
  1 <= day (dt_date dt) -> 0 <= dt_micro dt ->
  (if (year (dt_date dt) =? 9999) && (month (dt_date dt) =? 12)
   then _intervalo_datas_competencia (competencia_from_date (dt_date dt))
        = Levanta ValueError
   else exists ini fim,
          _intervalo_datas_competencia (competencia_from_date (dt_date dt))
          = Retorna (ini, fim)
          /\ ini = mk_datetime
                     (mk_date (year (dt_date dt)) (month (dt_date dt)) 1) 0
          /\ datetime_leb ini dt = true
          /\ datetime_ltb dt fim = true).
Proof.
  destruct dt as [[y m d] us]. cbn [dt_date dt_micro year month day].
  intros Hy Hm Hd Hus.
  rewrite _intervalo_competencia_from_date by (cbn; lia).
  cbn [year month]. rewrite (datetime_dia1_ok y m) by lia. cbn [mbind py_bind].
  destruct (Z.eqb_spec m 12) as [Em|Em].
  - destruct (Z.eqb_spec y 9999) as [Ey|Ey]; cbn [andb].
    + subst. reflexivity.
    + rewrite (datetime_dia1_ok (y + 1) 1) by lia. cbn [mbind py_bind].
      eexists _, _. split; [reflexivity|]. split; [reflexivity|].
      rewrite datetime_leb_lex, datetime_ltb_lex. unfold datetime_lt_lex.
      cbn [dt_date dt_micro year month day]. lia.
  - rewrite andb_false_r.
    rewrite (datetime_dia1_ok y (m + 1)) by lia. cbn [mbind py_bind].
    eexists _, _. split; [reflexivity|]. split; [reflexivity|].
    rewrite datetime_leb_lex, datetime_ltb_lex. unfold datetime_lt_lex.
    cbn [dt_date dt_micro year month day]. lia.
Qed.

Lemma data_na_propria_competencia_witness :
  exists ini fim,
    _intervalo_datas_competencia
      (competencia_from_date (mk_date 2024 2 29)) = Retorna (ini, fim)
    /\ ini = mk_datetime (mk_date 2024 2 1) 0
    /\ datetime_leb ini (mk_datetime (mk_date 2024 2 29) 86399999999) = true
    /\ datetime_ltb (mk_datetime (mk_date 2024 2 29) 86399999999) fim = true.
Proof.
  apply (data_na_propria_competencia
           (mk_datetime (mk_date 2024 2 29) 86399999999)); cbn; lia.
Defined.

(** X2. For every accepted period token the invoices selected by the
    queries of the classification and reconciliation stages are exactly the
    invoices of the company issued in the year and month the token
    denotes, whatever the day and the time of day. *)
Theorem nota_na_competencia_mesmo_mes ano_mes ini fim empresa nota :
  _intervalo_datas_competencia ano_mes = Retorna (ini, fim) ->
  1 <= month (dt_date (NotaFiscal.data_emissao nota)) <= 12 ->
  1 <= day (dt_date (NotaFiscal.data_emissao nota)) ->
  0 <= dt_micro (NotaFiscal.data_emissao nota) ->
  nota_na_competencia empresa ini fim nota = true
  <-> NotaFiscal.empresa_id nota = Empresa.id empresa
      /\ year (dt_date (NotaFiscal.data_emissao nota)) = year (dt_date ini)
      /\ month (dt_date (NotaFiscal.data_emissao nota)) = month (dt_date ini).
Proof.
  intros H Hm Hd Hus.
  apply _intervalo_datas_competencia_forma in H
    as (ano & mes & Hano & Hmes & H12 & -> & ->).
  unfold nota_na_competencia.
  rewrite !andb_true_iff, Z.eqb_eq, datetime_leb_lex, datetime_ltb_lex.
  unfold datetime_lt_lex.
  destruct (Z.eqb_spec mes 12); cbn [dt_date dt_micro year month day]; lia.
Qed.

Lemma nota_na_competencia_mesmo_mes_witness :
  nota_na_competencia Exemplo.empresa
    (mk_datetime (mk_date 2024 1 1) 0) (mk_datetime (mk_date 2024 2 1) 0)
    (Exemplo.nota 1 2024 1 31 []) = true
  <-> NotaFiscal.empresa_id (Exemplo.nota 1 2024 1 31 [])
      = Empresa.id Exemplo.empresa
      /\ year (dt_date (NotaFiscal.data_emissao (Exemplo.nota 1 2024 1 31 [])))
         = 2024
      /\ month (dt_date (NotaFiscal.data_emissao (Exemplo.nota 1 2024 1 31 [])))
         = 1.
Proof.
  apply (nota_na_competencia_mesmo_mes "2024-01"
           (mk_datetime (mk_date 2024 1 1) 0)
           (mk_datetime (mk_date 2024 2 1) 0)
           Exemplo.empresa (Exemplo.nota 1 2024 1 31 []));
    [vm_compute; reflexivity | cbn; lia | cbn; lia | cbn; lia].
Defined.

Lemma compare_digito a b :
  0 <= a <= 9 -> 0 <= b <= 9 ->
  Ascii.compare (digito a) (digito b) = (a ?= b).
Proof.
  intros Ha Hb.
  assert (a = 0 \/ a = 1 \/ a = 2 \/ a = 3 \/ a = 4 \/ a = 5 \/ a = 6
          \/ a = 7 \/ a = 8 \/ a = 9) as Ha' by lia.
  assert (b = 0 \/ b = 1 \/ b = 2 \/ b = 3 \/ b = 4 \/ b = 5 \/ b = 6
          \/ b = 7 \/ b = 8 \/ b = 9) as Hb' by lia.
  repeat (destruct Ha' as [->|Ha']); try subst a;
    repeat (destruct Hb' as [->|Hb']); try subst b; reflexivity.
Qed.

(** X3. The storage engine compares period tokens as text; on the tokens
    [competencia_from_date] writes, the order of the text is the
    chronological order of the months. *)
Theorem ordem_das_competencias (d1 d2 : date) :
  0 <= year d1 <= 9999 -> 0 <= month d1 <= 99 ->
  0 <= year d2 <= 9999 -> 0 <= month d2 <= 99 ->
  str_leb (competencia_from_date d1) (competencia_from_date d2) = true
  <-> year d1 < year d2 \/ (year d1 = year d2 /\ month d1 <= month d2).
Proof.
  intros Hy1 Hm1 Hy2 Hm2.
  unfold str_leb, String.leb, competencia_from_date, digitos.
  cbv [digitos String.append String.compare].
  rewrite !compare_digito by (Z.div_mod_to_equations; lia).
  change (Ascii.compare "-" "-") with Eq.
  repeat match goal with
         | |- context [?x ?= ?y] =>
             destruct (Z.compare_spec x y)
         end;
    (split; [intros Hc; try discriminate Hc | intros Hc; try reflexivity]);
    Z.div_mod_to_equations; lia.
Qed.

Lemma ordem_das_competencias_witness :
  str_leb (competencia_from_date (mk_date 999 12 1))
          (competencia_from_date (mk_date 1000 1 1)) = true
  <-> 999 < 1000 \/ (999 = 1000 /\ 12 <= 1).
Proof.
  apply (ordem_das_competencias (mk_date 999 12 1) (mk_date 1000 1 1));
    cbn; lia.
Defined.

(** ** The classification pass *)

Lemma classificar_item_forma item b :
  classificar_item item b
  = ItemNota.mk (ItemNota.id item) (ItemNota.ncm item) (ItemNota.cfop item)
      (ItemNota.quantidade item) (ItemNota.valor_unitario item)
      (ItemNota.valor_total item) (ItemNota.cst_pis item)
      (ItemNota.cst_cofins item)
      (b && possui_cst_04 item) (xorb b (possui_cst_04 item)).
Proof.
  destruct item as [id ncm cfop q vu vt pis cofins m i].
  unfold classificar_item, possui_cst_04. cbn.
  destruct b,
    (String.eqb (PyStr.strip (PyStr.or_empty pis)) "04"),
    (String.eqb (PyStr.strip (PyStr.or_empty cofins)) "04"); reflexivity.
Qed.

Lemma classificar_item_idem item b b' :
  classificar_item (classificar_item item b') b = classificar_item item b.
Proof.
  rewrite (classificar_item_forma (classificar_item item b') b).
  rewrite (classificar_item_forma item b').
  by rewrite (classificar_item_forma item b).
Qed.

Lemma classificar_item_ncm item b :
  ItemNota.ncm (classificar_item item b) = ItemNota.ncm item.
Proof. by destruct (classificar_item_flags item b) as (_ & _ & _ & ? & _). Qed.

Lemma classificar_itens_nota_idem tabela nota :
  classificar_itens_nota tabela (classificar_itens_nota tabela nota)
  = classificar_itens_nota tabela nota.
Proof.
  unfold classificar_itens_nota. cbn. unfold NotaFiscal.set_itens. cbn.
  f_equal. rewrite map_map. apply map_ext. intros item.
  by rewrite classificar_item_ncm, classificar_item_idem.
Qed.

Lemma classificar_itens_nota_length tabela nota :
  length (NotaFiscal.itens (classificar_itens_nota tabela nota))
  = length (NotaFiscal.itens nota).
Proof. unfold classificar_itens_nota. cbn. apply length_map. Qed.


Lemma classificar_itens_empresa_competencia_idem db empresa ano_mes db1 n :
  classificar_itens_empresa_competencia db empresa ano_mes
  = Retorna (db1, n) ->
  classificar_itens_empresa_competencia db1 empresa ano_mes
  = Retorna (db1, n).
Proof.
  intros H. unfold classificar_itens_empresa_competencia in *.
  inv_bind H. destruct a as [ini fim]. cbn in H. injection H as <- <-.
  rewrite Ha. cbn. unfold set_notas_fiscais. cbn. do 2 f_equal.
  + f_equal. rewrite map_map. apply map_ext. intros nota.
    destruct (nota_na_competencia empresa ini fim nota) eqn:E.
    * change (nota_na_competencia empresa ini fim
                (classificar_itens_nota (ncm_monofasicos db) nota))
        with (nota_na_competencia empresa ini fim nota).
      rewrite E. apply classificar_itens_nota_idem.
    * by rewrite E.
  + induction (notas_fiscais db) as [|nota l IH]; [done|].
    cbn [map foldr]. rewrite IH.
    destruct (nota_na_competencia empresa ini fim nota) eqn:E.
    * change (nota_na_competencia empresa ini fim
                (classificar_itens_nota (ncm_monofasicos db) nota))
        with (nota_na_competencia empresa ini fim nota).
      rewrite E. by rewrite classificar_itens_nota_length.
    * by rewrite E.
Qed.

(** X4. Classifying a period a second time changes nothing: the second
    pass returns the same count and leaves the database as the first pass
    left it.  The flags an item had before do not influence the flags it
    gets. *)
Theorem classificacao_idempotente db empresa ano_mes db1 n :
  classificar_itens_empresa_competencia db empresa ano_mes
  = Retorna (db1, n) ->
  classificar_itens_empresa_competencia db1 empresa ano_mes
  = Retorna (db1, n)
  /\ forall item m i b,
       classificar_item
         (ItemNota.set_eh_monofasico m
            (ItemNota.set_eh_inconsistente i item)) b
       = classificar_item item b.
Proof.
  intros H. split.
  - by apply (classificar_itens_empresa_competencia_idem db).
  - intros [id ncm cfop q vu vt pis cofins m0 i0] m i b. reflexivity.
Qed.

Lemma classificacao_idempotente_witness :
  exists db1 n,
    classificar_itens_empresa_competencia Exemplo.db Exemplo.empresa
      "2024-01" = Retorna (db1, n)
    /\ classificar_itens_empresa_competencia db1 Exemplo.empresa
         "2024-01" = Retorna (db1, n).
Proof.
  eexists _, _. split; [vm_compute; reflexivity|].
  refine (proj1 (classificacao_idempotente Exemplo.db Exemplo.empresa
                   "2024-01" _ _ _)).
  vm_compute. reflexivity.
Defined.

Lemma Forall2_map_diag {A} (R : A -> A -> Prop) (f : A -> A) l :
  (forall x, R (f x) x) -> Forall2 R (map f l) l.
Proof. intros H. induction l; cbn; constructor; auto. Qed.

(** X5. The classification pass writes flags and nothing else: the other
    tables are untouched, the invoices keep their positions and header
    fields, every item keeps its data, an invoice outside the period (or of
    another company) is left exactly as it was, and the number returned is
    the number of items of the selected invoices. *)
Theorem classificacao_so_altera_flags db empresa ano_mes db' n :
  classificar_itens_empresa_competencia db empresa ano_mes
  = Retorna (db', n) ->
  exists ini fim,
    _intervalo_datas_competencia ano_mes = Retorna (ini, fim)
    /\ ncm_monofasicos db' = ncm_monofasicos db
    /\ competencias_pgdas db' = competencias_pgdas db
    /\ anexos_aliquotas db' = anexos_aliquotas db
    /\ resultados_auditoria db' = resultados_auditoria db
    /\ length (notas_fiscais db') = length (notas_fiscais db)
    /\ (forall i nota,
          notas_fiscais db !! i = Some nota ->
          exists nota',
            notas_fiscais db' !! i = Some nota'
            /\ NotaFiscal.id nota' = NotaFiscal.id nota
            /\ NotaFiscal.empresa_id nota' = NotaFiscal.empresa_id nota
            /\ NotaFiscal.chave nota' = NotaFiscal.chave nota
            /\ NotaFiscal.data_emissao nota' = NotaFiscal.data_emissao nota
            /\ NotaFiscal.valor_total nota' = NotaFiscal.valor_total nota
            /\ Forall2 mesmos_dados (NotaFiscal.itens nota')
                 (NotaFiscal.itens nota)
            /\ (nota_na_competencia empresa ini fim nota = false ->
                nota' = nota))
    /\ n = Z.of_nat
             (length
                (flat_map NotaFiscal.itens
                   (filter (fun nota =>
                              Is_true (nota_na_competencia empresa ini fim
                                         nota))
                           (notas_fiscais db)))).
Proof.
  unfold classificar_itens_empresa_competencia. intros H.
  inv_bind H. destruct a as [ini fim]. cbn in H. injection H as <- <-.
  exists ini, fim. cbn.
  split; [done|]. do 4 (split; [reflexivity|]).
  split; [apply length_map|]. split.
  - intros i nota Hi. rewrite list_lookup_fmap, Hi. cbn.
    eexists. split; [reflexivity|].
    destruct (nota_na_competencia empresa ini fim nota).
    + cbn. do 5 (split; [reflexivity|]). split; [|done].
      apply Forall2_map_diag. intros item.
      by destruct (classificar_item_flags item
                     (_ncm_esta_em_vigencia (ncm_monofasicos db)
                        (ItemNota.ncm item)
                        (dt_date (NotaFiscal.data_emissao nota))))
        as (_ & _ & ?).
    + do 5 (split; [reflexivity|]). split; [|done].
      rewrite <- (map_id (NotaFiscal.itens nota)) at 1.
      apply Forall2_map_diag. intros item. by repeat split.
  - induction (notas_fiscais db) as [|nota l IH]; [done|].
    cbn [foldr]. rewrite IH, filter_cons.
    destruct (nota_na_competencia empresa ini fim nota) eqn:E.
    + rewrite decide_True by done. cbn [flat_map].
      rewrite length_app. lia.
    + rewrite decide_False by (by intros ?). done.
Qed.

Lemma classificacao_so_altera_flags_witness :
  exists ini fim,
    _intervalo_datas_competencia "2024-01" = Retorna (ini, fim)
    /\ 3 = Z.of_nat
             (length
                (flat_map NotaFiscal.itens
                   (filter (fun nota =>
                              Is_true (nota_na_competencia Exemplo.empresa
                                         ini fim nota))
                           (notas_fiscais Exemplo.db)))).
Proof.
  destruct (classificacao_so_altera_flags Exemplo.db Exemplo.empresa
              "2024-01" _ 3 eq_refl)
    as (ini & fim & H & _ & _ & _ & _ & _ & _ & Hn).
  exists ini, fim. exact (conj H Hn).
Defined.

(** ** White space around the tax-situation codes *)

Lemma lstrip_so_espacos e : so_espacos e = true -> PyStr.lstrip e = EmptyString.
Proof.
  induction e as [|c r IH]; [done|]. cbn.
  destruct (PyStr.isspace c); [exact IH | discriminate].
Qed.

Lemma rstrip_so_espacos e : so_espacos e = true -> PyStr.rstrip e = EmptyString.
Proof.
  induction e as [|c r IH]; [done|]. cbn.
  destruct (PyStr.isspace c) eqn:E; [|discriminate].
  intros H. by rewrite (IH H).
Qed.

Lemma lstrip_prefixo e s :
  so_espacos e = true -> PyStr.lstrip (String.append e s) = PyStr.lstrip s.
Proof.
  induction e as [|c r IH]; [done|]. cbn [so_espacos].
  destruct (PyStr.isspace c) eqn:E; [|discriminate].
  intros H. change (String.append (String c r) s)
    with (String c (String.append r s)).
  cbn [PyStr.lstrip]. rewrite E. by apply IH.
Qed.

Lemma rstrip_sufixo s e :
  so_espacos e = true -> PyStr.rstrip (String.append s e) = PyStr.rstrip s.
Proof.
  intros H. induction s as [|c r IH].
  - by apply rstrip_so_espacos.
  - change (String.append (String c r) e)
      with (String c (String.append r e)).
    cbn [PyStr.rstrip]. by rewrite IH.
Qed.

Lemma strip_sufixo s e :
  so_espacos e = true -> PyStr.strip (String.append s e) = PyStr.strip s.
Proof.
  intros H. unfold PyStr.strip. induction s as [|c r IH].
  - change (String.append EmptyString e) with e.
    by rewrite (lstrip_so_espacos e H).
  - change (String.append (String c r) e)
      with (String c (String.append r e)).
    cbn [PyStr.lstrip]. destruct (PyStr.isspace c); [exact IH|].
    change (String c (String.append r e))
      with (String.append (String c r) e).
    by apply rstrip_sufixo.
Qed.

Lemma strip_entre_espacos e1 s e2 :
  so_espacos e1 = true -> so_espacos e2 = true ->
  PyStr.strip (String.append e1 (String.append s e2)) = PyStr.strip s.
Proof.
  intros H1 H2. unfold PyStr.strip.
  rewrite lstrip_prefixo by done. by apply strip_sufixo.
Qed.

(** X6. White space around the tax-situation codes does not change the
    classification: an item whose two codes are padded on either side with
    white space gets the same flags as the item with the bare codes, and a
    code of white space only counts as an absent code. *)
Theorem classificacao_ignora_espacos
  (id : Z) (ncm cfop : string) (q vu vt : Dec.t) (pis cofins : string)
  (m i : bool) (e1 e2 e3 e4 : string) (b : bool) :
  so_espacos e1 = true -> so_espacos e2 = true ->
  so_espacos e3 = true -> so_espacos e4 = true ->
  classificar_item
    (ItemNota.mk id ncm cfop q vu vt
       (Some (String.append e1 (String.append pis e2)))
       (Some (String.append e3 (String.append cofins e4))) m i) b
  = ItemNota.mk id ncm cfop q vu vt
      (Some (String.append e1 (String.append pis e2)))
      (Some (String.append e3 (String.append cofins e4)))
      (ItemNota.eh_monofasico
         (classificar_item
            (ItemNota.mk id ncm cfop q vu vt (Some pis) (Some cofins) m i) b))
      (ItemNota.eh_inconsistente
         (classificar_item
            (ItemNota.mk id ncm cfop q vu vt (Some pis) (Some cofins) m i) b))
  /\ classificar_item
       (ItemNota.mk id ncm cfop q vu vt (Some e1) (Some e3) m i) b
     = ItemNota.mk id ncm cfop q vu vt (Some e1) (Some e3)
         (ItemNota.eh_monofasico
            (classificar_item
               (ItemNota.mk id ncm cfop q vu vt None None m i) b))
         (ItemNota.eh_inconsistente
            (classificar_item
               (ItemNota.mk id ncm cfop q vu vt None None m i) b)).
Proof.
  intros H1 H2 H3 H4.
  rewrite !classificar_item_forma. unfold possui_cst_04.
  cbn [ItemNota.id ItemNota.ncm ItemNota.cfop ItemNota.quantidade
       ItemNota.valor_unitario ItemNota.valor_total ItemNota.cst_pis
       ItemNota.cst_cofins ItemNota.eh_monofasico ItemNota.eh_inconsistente
       PyStr.or_empty].
  rewrite !strip_entre_espacos by done.
  split; [reflexivity|].
  unfold PyStr.strip.
  by rewrite (lstrip_so_espacos e1 H1), (lstrip_so_espacos e3 H3).
Qed.

Lemma classificacao_ignora_espacos_witness :
  ItemNota.eh_monofasico
    (classificar_item
       (ItemNota.mk 1 "27101259" "5656" (Exemplo.dec2 100) (Exemplo.dec2 100)
          (Exemplo.dec2 100)
          (Some (String.append " " (String.append "04" "  ")))
          (Some (String.append "" (String.append "01" "")))
          false false) true)
  = true.
Proof.
  pose proof (classificacao_ignora_espacos 1 "27101259" "5656"
                (Exemplo.dec2 100) (Exemplo.dec2 100) (Exemplo.dec2 100)
                "04" "01" false false " " "  " "" "" true
                eq_refl eq_refl eq_refl eq_refl) as [H _].
  rewrite H. reflexivity.
Defined.

(** ** The catalog lookup *)

Lemma _ncm_esta_em_vigencia_existe tabela ncm d :
  _ncm_esta_em_vigencia tabela ncm d = true
  <-> exists r, r ∈ tabela /\ vigente ncm d r = true.
Proof.
  unfold _ncm_esta_em_vigencia.
  rewrite <- (first_is_Some (vigente ncm d) tabela).
  destruct (first_ (vigente ncm d) tabela); split; try done;
    try (intros _; by eexists); by intros [? ?].
Qed.

(** X7. The catalog lookup takes the first matching row of a query
    without ORDER BY, yet its answer does not depend on the order of the
    rows.  The answer over two sets of rows together is the disjunction of
    the answers, and rows with the flag off never count. *)
Theorem vigencia_independe_da_ordem (t1 t2 : list NCMMonofasico.t)
  (ncm : string) (d : date) :
  (t1 ≡ₚ t2 ->
   _ncm_esta_em_vigencia t1 ncm d = _ncm_esta_em_vigencia t2 ncm d)
  /\ _ncm_esta_em_vigencia (t1 ++ t2) ncm d
     = _ncm_esta_em_vigencia t1 ncm d || _ncm_esta_em_vigencia t2 ncm d
  /\ _ncm_esta_em_vigencia
       (filter (fun r => Is_true (NCMMonofasico.flag_monofasico r)) t1) ncm d
     = _ncm_esta_em_vigencia t1 ncm d.
Proof.
  repeat split.
  - intros Hp. apply eq_true_iff_eq.
    rewrite !_ncm_esta_em_vigencia_existe.
    split; intros (r & Hr & Hv); exists r; split; try done.
    + by rewrite <- Hp.
    + by rewrite Hp.
  - apply eq_true_iff_eq.
    rewrite orb_true_iff, !_ncm_esta_em_vigencia_existe. split.
    + intros (r & Hr & Hv). apply elem_of_app in Hr as [Hr|Hr];
        [left | right]; by exists r.
    + intros [(r & Hr & Hv)|(r & Hr & Hv)]; exists r;
        (split; [apply elem_of_app; auto | done]).
  - apply eq_true_iff_eq.
    rewrite !_ncm_esta_em_vigencia_existe. split.
    + intros (r & Hr & Hv). apply list_elem_of_filter in Hr as [_ Hr].
      by exists r.
    + intros (r & Hr & Hv). exists r. split; [|done].
      apply list_elem_of_filter. split; [|done].
      apply Is_true_true. unfold vigente in Hv.
      rewrite !andb_true_iff in Hv. tauto.
Qed.

Lemma vigencia_independe_da_ordem_witness :
  _ncm_esta_em_vigencia
    (NCMMonofasico.mk 2 "22021000" "Refrigerante" "bebidas"
       (mk_date 2020 1 1) (Some (mk_date 2023 12 31)) true
     :: Exemplo.catalogo)
    "27101259" (mk_date 2024 1 1)
  = _ncm_esta_em_vigencia
      (Exemplo.catalogo
       ++ [NCMMonofasico.mk 2 "22021000" "Refrigerante" "bebidas"
             (mk_date 2020 1 1) (Some (mk_date 2023 12 31)) true])
      "27101259" (mk_date 2024 1 1).
Proof.
  exact (proj1 (vigencia_independe_da_ordem
                  (NCMMonofasico.mk 2 "22021000" "Refrigerante" "bebidas"
                     (mk_date 2020 1 1) (Some (mk_date 2023 12 31)) true
                   :: Exemplo.catalogo)
                  (Exemplo.catalogo
                   ++ [NCMMonofasico.mk 2 "22021000" "Refrigerante"
                         "bebidas" (mk_date 2020 1 1)
                         (Some (mk_date 2023 12 31)) true])
                  "27101259" (mk_date 2024 1 1))
           (Permutation_cons_append _ _)).
Defined.

(** ** The base taken from the invoices *)

Lemma soma_Q_app l1 l2 : (soma_Q (l1 ++ l2) == soma_Q l1 + soma_Q l2)%Q.
Proof.
  induction l1 as [|x l1 IH].
  - change (soma_Q l2 == 0 + soma_Q l2)%Q. ring.
  - change (Dec.to_Q x + soma_Q (l1 ++ l2)
            == (Dec.to_Q x + soma_Q l1) + soma_Q l2)%Q.
    rewrite IH. ring.
Qed.

Lemma to_Q_soma (l : list ItemNota.t) (acc : Dec.t) :
  (Dec.to_Q (foldl (fun s i => Dec.add_exact s (ItemNota.valor_total i))
               acc l)
   == Dec.to_Q acc + soma_Q (ItemNota.valor_total <$> l))%Q.
Proof.
  revert acc. induction l as [|i l IH]; intros acc.
  - cbn. ring.
  - cbn [foldl]. rewrite IH, DecFacts.to_Q_add_exact.
    change (soma_Q (ItemNota.valor_total <$> i :: l))
      with (Dec.to_Q (ItemNota.valor_total i)
            + soma_Q (ItemNota.valor_total <$> l))%Q.
    ring.
Qed.

Lemma valores_monofasicos tabela d (itens : list ItemNota.t) :
  ItemNota.valor_total
    <$> filter (fun i => Is_true (ItemNota.eh_monofasico i))
          (map (fun item =>
                  classificar_item item
                    (_ncm_esta_em_vigencia tabela (ItemNota.ncm item) d))
               itens)
  = ItemNota.valor_total
      <$> filter (fun item =>
                    Is_true (_ncm_esta_em_vigencia tabela (ItemNota.ncm item) d
                             && possui_cst_04 item))
            itens.
Proof.
  induction itens as [|item l IH]; [done|].
  cbn [map]. rewrite !filter_cons.
  rewrite (classificar_item_forma item). cbn [ItemNota.eh_monofasico].
  destruct (_ncm_esta_em_vigencia tabela (ItemNota.ncm item) d
            && possui_cst_04 item) eqn:E.
  - rewrite !decide_True by done. cbn. by rewrite IH.
  - rewrite !decide_False by (by intros ?). exact IH.
Qed.

(** X8. Classification followed by the computation of the base, as the
    reconciliation stage runs them: the base is the sum of [valor_total]
    over the items of the company's invoices of the period whose product
    code is in force in the catalog at the invoice date and which carry the
    code "04", whatever flags the items had before. *)
Theorem base_apos_classificacao db empresa ano_mes db1 n :
  classificar_itens_empresa_competencia db empresa ano_mes
  = Retorna (db1, n) ->
  exists ini fim base,
    _intervalo_datas_competencia ano_mes = Retorna (ini, fim)
    /\ calcular_base_monofasica_xml db1 empresa ano_mes = Retorna base
    /\ (Dec.to_Q base
        == soma_Q
             (ItemNota.valor_total
                <$> flat_map
                      (fun nota =>
                         filter
                           (fun item =>
                              Is_true
                                (_ncm_esta_em_vigencia (ncm_monofasicos db)
                                   (ItemNota.ncm item)
                                   (dt_date (NotaFiscal.data_emissao nota))
                                 && possui_cst_04 item))
                           (NotaFiscal.itens nota))
                      (filter
                         (fun nota =>
                            Is_true (nota_na_competencia empresa ini fim nota))
                         (notas_fiscais db))))%Q.
Proof.
  unfold classificar_itens_empresa_competencia, calcular_base_monofasica_xml.
  intros H. inv_bind H. destruct a as [ini fim]. cbn in H.
  injection H as <- <-. rewrite Ha. cbn [mbind py_bind].
  eexists ini, fim, _. split; [done|]. split; [reflexivity|].
  rewrite to_Q_soma, DecFacts.to_Q_zero, Qplus_0_l.
  cbn [notas_fiscais set_notas_fiscais].
  induction (notas_fiscais db) as [|nota l IH]; [reflexivity|].
  cbn [map flat_map]. rewrite filter_cons, fmap_app.
  pose proof soma_Q_app as Happ.
  rewrite Happ, IH.
  destruct (nota_na_competencia empresa ini fim nota) eqn:E.
  - change (nota_na_competencia empresa ini fim
              (classificar_itens_nota (ncm_monofasicos db) nota))
      with (nota_na_competencia empresa ini fim nota).
    rewrite E, decide_True by done. cbn [flat_map].
    rewrite fmap_app, Happ.
    unfold classificar_itens_nota. cbn [NotaFiscal.itens NotaFiscal.set_itens].
    by rewrite valores_monofasicos.
  - rewrite E, decide_False by (by intros ?). apply Qplus_0_l.
Qed.

Lemma base_apos_classificacao_witness :
  exists ini fim base,
    _intervalo_datas_competencia "2024-03" = Retorna (ini, fim)
    /\ calcular_base_monofasica_xml
         (set_notas_fiscais
            (map (fun nota =>
                    if nota_na_competencia Exemplo.empresa ini fim nota
                    then classificar_itens_nota Exemplo.catalogo nota
                    else nota) Exemplo.notas) Exemplo.db)
         Exemplo.empresa "2024-03" = Retorna base
    /\ (Dec.to_Q base == 500)%Q.
Proof.
  destruct (base_apos_classificacao Exemplo.db Exemplo.empresa "2024-03"
              _ _ eq_refl) as (ini & fim & base & H1 & H2 & H3).
  exists ini, fim, base. vm_compute in H1. injection H1 as <- <-.
  split; [reflexivity|]. split; [exact H2|].
  rewrite H3. vm_compute. reflexivity.
Defined.

(** ** Reconciliation *)

Lemma first_Some_iff {A : Type} (p : A -> bool) (l : list A) i x :
  first_ p l = Some (i, x)
  <-> l !! i = Some x /\ p x = true
      /\ forall j y, l !! j = Some y -> (j < i)%nat -> p y = false.
Proof.
  unfold first_. rewrite list_find_Some. split.
  - intros (Hl & Hp & Hj). split; [done|]. split; [by apply Is_true_true|].
    intros j y Hy Hlt. apply Is_true_false_1. by eapply Hj.
  - intros (Hl & Hp & Hj). split; [done|]. split; [by apply Is_true_true|].
    intros j y Hy Hlt. apply Is_true_false_2. by eapply Hj.
Qed.

Lemma first_insert {A : Type} (p : A -> bool) (l : list A) i x y :
  first_ p l = Some (i, x) -> p y = true ->
  first_ p (<[i := y]> l) = Some (i, y).
Proof.
  rewrite !first_Some_iff. intros (Hl & Hp & Hj) Hy.
  split; [|split; [done|]].
  - apply list_lookup_insert_eq. by eapply lookup_lt_Some.
  - intros j z Hz Hlt. rewrite list_lookup_insert_ne in Hz by lia.
    by eapply Hj.
Qed.

Lemma first_app_novo {A : Type} (p : A -> bool) (l : list A) y :
  first_ p l = None -> p y = true ->
  first_ p (l ++ [y]) = Some (length l, y).
Proof.
  rewrite first_None, first_Some_iff. intros Hn Hy.
  split; [|split; [done|]].
  - by rewrite lookup_app_r, Nat.sub_diag by lia.
  - intros j z Hz Hlt. rewrite lookup_app_l in Hz by done.
    apply Hn. by eapply list_elem_of_lookup_2.
Qed.

Lemma sub_sinal a b :
  (0 < Dec.coef (a - b)%dec <-> (Dec.to_Q b < Dec.to_Q a)%Q)
  /\ (Dec.coef (a - b)%dec < 0 <-> (Dec.to_Q a < Dec.to_Q b)%Q)
  /\ (Dec.coef (a - b)%dec = 0 <-> (Dec.to_Q a == Dec.to_Q b)%Q).
Proof.
  unfold Dec.sub.
  pose proof (DecFacts.add_sgn a (Dec.neg b)) as Hs.
  pose proof (DecFacts.to_Q_gt_0 (Dec.add_exact a (Dec.neg b))) as Hp.
  pose proof (DecFacts.to_Q_lt_0 (Dec.add_exact a (Dec.neg b))) as Hn.
  pose proof (DecFacts.to_Q_eq_0 (Dec.add_exact a (Dec.neg b))) as Hz.
  rewrite DecFacts.to_Q_add_exact, DecFacts.to_Q_neg in Hp, Hn, Hz.
  repeat split; intros H.
  - assert (0 < Dec.coef (Dec.add_exact a (Dec.neg b))) as H' by lia.
    apply Hp in H'. lra.
  - assert (0 < Dec.coef (Dec.add_exact a (Dec.neg b))) as H'
      by (apply Hp; lra). lia.
  - assert (Dec.coef (Dec.add_exact a (Dec.neg b)) < 0) as H' by lia.
    apply Hn in H'. lra.
  - assert (Dec.coef (Dec.add_exact a (Dec.neg b)) < 0) as H'
      by (apply Hn; lra). lia.
  - assert (Dec.coef (Dec.add_exact a (Dec.neg b)) = 0) as H' by lia.
    apply Hz in H'. lra.
  - assert (Dec.coef (Dec.add_exact a (Dec.neg b)) = 0) as H'
      by (apply Hz; lra). lia.
Qed.

(** X9. What reconciliation writes when the declaration exists: the
    summary returned is stored, belongs to the company and to the first
    declaration row of the company and period in storage order (the row
    the query's first() yields), carries the base found in the invoices
    and the declared base, and its difference has the sign of (invoice
    base - declared base): the rounding of the subtraction never turns a
    positive difference into zero or a negative one.  Every other summary
    is untouched; a summary that existed keeps its key and its three
    impact fields, which therefore may be stale until the estimation runs
    again; at most one row is added. *)
Theorem cruzar_competencia_campos db empresa ano_mes db' r :
  cruzar_competencia db empresa ano_mes = Retorna (db', Some r) ->
  exists j c base,
    first_ (fun c =>
              (CompetenciaPGDAS.empresa_id c =? Empresa.id empresa)
              && String.eqb (CompetenciaPGDAS.ano_mes c) ano_mes)
           (competencias_pgdas db) = Some (j, c)
    /\ competencias_pgdas db !! j = Some c
    /\ (forall k c0,
          competencias_pgdas db !! k = Some c0 -> (k < j)%nat ->
          ~ (CompetenciaPGDAS.empresa_id c0 = Empresa.id empresa
             /\ CompetenciaPGDAS.ano_mes c0 = ano_mes))
    /\ CompetenciaPGDAS.empresa_id c = Empresa.id empresa
    /\ CompetenciaPGDAS.ano_mes c = ano_mes
    /\ calcular_base_monofasica_xml db empresa ano_mes = Retorna base
    /\ ResultadoAuditoria.empresa_id r = Empresa.id empresa
    /\ ResultadoAuditoria.competencia_id r = CompetenciaPGDAS.id c
    /\ ResultadoAuditoria.base_monofasica_xml r = base
    /\ (Dec.to_Q (ResultadoAuditoria.base_monofasica_pgdas r)
        == Dec.to_Q (CompetenciaPGDAS.receita_monofasica_declarada c))%Q
    /\ (0 < Dec.coef (ResultadoAuditoria.diferenca_base r)
        <-> (Dec.to_Q (CompetenciaPGDAS.receita_monofasica_declarada c)
             < Dec.to_Q base)%Q)
    /\ (Dec.coef (ResultadoAuditoria.diferenca_base r) < 0
        <-> (Dec.to_Q base
             < Dec.to_Q (CompetenciaPGDAS.receita_monofasica_declarada c))%Q)
    /\ r ∈ resultados_auditoria db'
    /\ (length (resultados_auditoria db')
        <= S (length (resultados_auditoria db)))%nat
    /\ (forall i r0,
          resultados_auditoria db !! i = Some r0 ->
          resultados_auditoria db' !! i = Some r0
          \/ (resultados_auditoria db' !! i = Some r
              /\ ResultadoAuditoria.id r = ResultadoAuditoria.id r0
              /\ ResultadoAuditoria.empresa_id r0 = Empresa.id empresa
              /\ ResultadoAuditoria.competencia_id r0 = CompetenciaPGDAS.id c
              /\ ResultadoAuditoria.pis_indev r
                 = ResultadoAuditoria.pis_indev r0
              /\ ResultadoAuditoria.cofins_indev r
                 = ResultadoAuditoria.cofins_indev r0
              /\ ResultadoAuditoria.total_indev r
                 = ResultadoAuditoria.total_indev r0)).
Proof.
  intros H. apply cruzar_competencia_Some in H
    as (j & c & base & Hc & Hbase & Hr).
  pose proof Hc as Hprimeira.
  apply first_Some_iff in Hc as (Hcj & Hcp & Hantes).
  apply andb_true_iff in Hcp as [He Ha].
  apply Z.eqb_eq in He. apply String.eqb_eq in Ha.
  exists j, c, base.
  do 2 (split; [done|]).
  split.
  { intros k c0 Hk Hlt [He0 Ha0].
    specialize (Hantes k c0 Hk Hlt). cbn in Hantes.
    apply andb_false_iff in Hantes as [Hn|Hn].
    - apply Z.eqb_neq in Hn. done.
    - apply String.eqb_neq in Hn. done. }
  do 3 (split; [done|]).
  pose proof (sub_sinal base
                (Dec.or_zero (CompetenciaPGDAS.receita_monofasica_declarada c)))
    as (Hpos & Hneg & _).
  rewrite DecFacts.to_Q_or_zero in Hpos, Hneg.
  destruct Hr as [(i & r0 & Hf & -> & ->)|(Hf & -> & ->)].
  - apply first_Some_elem in Hf as [Hi Hp].
    apply andb_true_iff in Hp as [Hp1 Hp2].
    apply Z.eqb_eq in Hp1. apply Z.eqb_eq in Hp2.
    cbn. do 3 (split; [done|]).
    split; [apply DecFacts.to_Q_or_zero|]. do 2 (split; [done|]).
    split; [eapply list_elem_of_lookup_2, list_lookup_insert_eq;
            by eapply lookup_lt_Some|].
    split; [rewrite length_insert; lia|].
    intros i' r' Hi'. destruct (decide (i' = i)) as [->|Hne].
    + right. rewrite Hi in Hi'. injection Hi' as <-.
      split; [apply list_lookup_insert_eq; by eapply lookup_lt_Some|].
      done.
    + left. by rewrite list_lookup_insert_ne.
  - cbn. do 3 (split; [done|]).
    split; [apply DecFacts.to_Q_or_zero|]. do 2 (split; [done|]).
    split; [apply elem_of_app; right; apply list_elem_of_singleton;
            reflexivity|].
    split; [rewrite length_app; cbn; lia|].
    intros i' r' Hi'. left. rewrite lookup_app_l; [done|].
    by eapply lookup_lt_Some.
Qed.

Lemma cruzar_competencia_campos_witness :
  exists j c base,
    competencias_pgdas Exemplo.db !! j = Some c
    /\ (forall k c0,
          competencias_pgdas Exemplo.db !! k = Some c0 -> (k < j)%nat ->
          ~ (CompetenciaPGDAS.empresa_id c0 = Empresa.id Exemplo.empresa
             /\ CompetenciaPGDAS.ano_mes c0 = "2024-03"%string))
    /\ CompetenciaPGDAS.ano_mes c = "2024-03"%string
    /\ calcular_base_monofasica_xml Exemplo.db Exemplo.empresa "2024-03"
       = Retorna base.
Proof.
  destruct (cruzar_competencia_campos Exemplo.db Exemplo.empresa "2024-03"
              _ _ eq_refl)
    as (j & c & base & _ & H1 & H2 & _ & H3 & H4 & _).
  exists j, c, base. exact (conj H1 (conj H2 (conj H3 H4))).
Defined.

(** A summary written by reconciliation is found again by its key and
    rewritten with the same values. *)
Lemma cruzar_competencia_idem_Some db empresa ano_mes db' r :
  cruzar_competencia db empresa ano_mes = Retorna (db', Some r) ->
  cruzar_competencia db' empresa ano_mes = Retorna (db', Some r).
Proof.
  intros H. apply cruzar_competencia_Some in H
    as (j & c & base & Hc & Hbase & Hr).
  assert (calcular_base_monofasica_xml db' empresa ano_mes = Retorna base
          /\ competencias_pgdas db' = competencias_pgdas db) as [Hb' Hc'].
  { destruct Hr as [(i & r0 & _ & _ & ->)|(_ & _ & ->)]; by split. }
  unfold cruzar_competencia. rewrite Hc', Hc, Hb'. cbn [mbind py_bind].
  unfold get_or_create_resultado_auditoria.
  destruct Hr as [(i & r0 & Hf & -> & ->)|(Hf & -> & ->)].
  - cbn [resultados_auditoria set_resultados_auditoria].
    erewrite first_insert; [| exact Hf |].
    + cbn. unfold set_resultados_auditoria. cbn.
      by rewrite list_insert_insert_eq.
    + apply first_Some_elem in Hf as [_ Hp]. exact Hp.
  - cbn [resultados_auditoria set_resultados_auditoria].
    erewrite first_app_novo; [| exact Hf |].
    + cbn. unfold set_resultados_auditoria. cbn. do 3 f_equal.
      by rewrite insert_app_r_alt, Nat.sub_diag by lia.
    + cbn. by rewrite !Z.eqb_refl.
Qed.

(** X10. Reconciling a period twice is the same as reconciling it once:
    the second call returns the same summary and leaves the database as
    the first call left it; no second summary is created. *)
Theorem cruzar_competencia_idempotente db empresa ano_mes db' r :
  cruzar_competencia db empresa ano_mes = Retorna (db', r) ->
  cruzar_competencia db' empresa ano_mes = Retorna (db', r).
Proof.
  intros H. destruct r as [r|].
  - by apply (cruzar_competencia_idem_Some db).
  - apply cruzar_competencia_None in H as [-> Hn].
    unfold cruzar_competencia. by rewrite Hn.
Qed.

Lemma cruzar_competencia_idempotente_witness :
  exists db' r,
    cruzar_competencia Exemplo.db Exemplo.empresa "2024-01"
    = Retorna (db', Some r)
    /\ cruzar_competencia db' Exemplo.empresa "2024-01"
       = Retorna (db', Some r).
Proof.
  eexists _, _. split; [vm_compute; reflexivity|].
  apply (cruzar_competencia_idempotente Exemplo.db Exemplo.empresa "2024-01").
  vm_compute. reflexivity.
Defined.

Lemma proximo_id_maior ids x : x ∈ ids -> x < proximo_id ids.
Proof.
  unfold proximo_id. induction ids as [|y l IH]; [by intros ?%elem_of_nil|].
  intros [->|H]%elem_of_cons; cbn; [lia|]. specialize (IH H). lia.
Qed.

(** X11. Reconciliation keeps the table of summaries well keyed: when the
    primary keys are distinct and no two summaries share a (company,
    declaration period) pair, the same holds after the call. *)
Theorem cruzar_competencia_chaves_unicas db empresa ano_mes db' r :
  cruzar_competencia db empresa ano_mes = Retorna (db', r) ->
  NoDup (ResultadoAuditoria.id <$> resultados_auditoria db) ->
  chaves_unicas (resultados_auditoria db) ->
  NoDup (ResultadoAuditoria.id <$> resultados_auditoria db')
  /\ chaves_unicas (resultados_auditoria db').
Proof.
  intros H Hid Hk. destruct r as [r|].
  - apply cruzar_competencia_Some in H
      as (j & c & base & Hc & Hbase & Hr).
    destruct Hr as [(i & r0 & Hf & -> & ->)|(Hf & -> & ->)];
      cbn [resultados_auditoria set_resultados_auditoria].
    + apply first_Some_elem in Hf as [Hi _]. split.
      * rewrite list_fmap_insert. cbn.
        rewrite list_insert_id; [done|].
        by rewrite list_lookup_fmap, Hi.
      * intros i1 i2 r1 r2 H1 H2 He Hcid.
        assert (forall k x,
                  <[i := ResultadoAuditoria.set_bases base
                           (Dec.or_zero
                              (CompetenciaPGDAS.receita_monofasica_declarada c))
                           (base - Dec.or_zero
                                     (CompetenciaPGDAS.receita_monofasica_declarada c))%dec
                           r0]> (resultados_auditoria db) !! k = Some x ->
                  exists y, resultados_auditoria db !! k = Some y
                            /\ ResultadoAuditoria.empresa_id y
                               = ResultadoAuditoria.empresa_id x
                            /\ ResultadoAuditoria.competencia_id y
                               = ResultadoAuditoria.competencia_id x) as Hy.
        { intros k x Hx. destruct (decide (k = i)) as [->|Hne].
          - rewrite list_lookup_insert_eq in Hx by (by eapply lookup_lt_Some).
            injection Hx as <-. by exists r0.
          - rewrite list_lookup_insert_ne in Hx by done. by exists x. }
        apply Hy in H1 as (y1 & H1 & E1 & C1).
        apply Hy in H2 as (y2 & H2 & E2 & C2).
        eapply Hk; [exact H1 | exact H2 | congruence | congruence].
    + split.
      * rewrite fmap_app. cbn. apply NoDup_app. split; [done|].
        split; [|apply NoDup_singleton].
        intros x Hx Hx'. apply list_elem_of_singleton in Hx'. subst x.
        apply proximo_id_maior in Hx. lia.
      * rewrite first_None in Hf.
        intros i1 i2 r1 r2 H1 H2 He Hcid.
        apply lookup_app_Some in H1 as [H1|[Hl1 H1]];
          apply lookup_app_Some in H2 as [H2|[Hl2 H2]].
        -- by eapply Hk.
        -- apply list_lookup_singleton_Some in H2 as [_ <-].
           cbn in He, Hcid.
           apply list_elem_of_lookup_2 in H1. apply Hf in H1.
           rewrite He, Hcid, !Z.eqb_refl in H1. discriminate.
        -- apply list_lookup_singleton_Some in H1 as [_ <-].
           cbn in He, Hcid.
           apply list_elem_of_lookup_2 in H2. apply Hf in H2.
           rewrite <- He, <- Hcid, !Z.eqb_refl in H2. discriminate.
        -- apply list_lookup_singleton_Some in H1 as [? _].
           apply list_lookup_singleton_Some in H2 as [? _]. lia.
  - apply cruzar_competencia_None in H as [-> _]. by split.
Qed.

Lemma cruzar_competencia_chaves_unicas_witness :
  exists db' r,
    cruzar_competencia Exemplo.db_com_resumos Exemplo.empresa "2024-01"
    = Retorna (db', Some r)
    /\ length (resultados_auditoria Exemplo.db_com_resumos) = 2%nat
    /\ length (resultados_auditoria db') = 3%nat
    /\ NoDup (ResultadoAuditoria.id <$> resultados_auditoria db')
    /\ chaves_unicas (resultados_auditoria db').
Proof.
  eexists _, _. split; [vm_compute; reflexivity|].
  do 2 (split; [reflexivity|]).
  apply (cruzar_competencia_chaves_unicas Exemplo.db_com_resumos
           Exemplo.empresa "2024-01" _ _ eq_refl).
  - change (NoDup [1; 2]). apply NoDup_cons. split.
    + intros H. apply list_elem_of_singleton in H. discriminate H.
    + apply NoDup_singleton.
  - intros i j r1 r2 H1 H2 He Hc.
    destruct i as [|[|i]], j as [|[|j]];
      try reflexivity; try discriminate H1; try discriminate H2;
      cbn in H1, H2; injection H1 as <-; injection H2 as <-;
      discriminate He.
Defined.

(** ** Reconciliation over a range *)

Lemma int_excecao s e : int s = Levanta e -> e = ValueError.
Proof.
  unfold int.
  destruct (match int_strip s with String _ _ => _ | EmptyString => None end);
    [|by intros [= <-]].
  destruct (_ <=? _); [discriminate | by intros [= <-]].
Qed.

Lemma datetime_dia1_excecao ano mes e :
  datetime_dia1 ano mes = Levanta e -> e = ValueError \/ e = OverflowError.
Proof.
  unfold datetime_dia1.
  destruct (negb _); [intros [= <-]; by right|].
  destruct (_ && _); [discriminate | intros [= <-]; by left].
Qed.

(** The exceptions of the date arithmetic: ValueError for a text that is
    not of the form year-month or a year or month out of range,
    OverflowError for a year or month beyond the C [int]. *)
Lemma _intervalo_datas_competencia_excecao ano_mes e :
  _intervalo_datas_competencia ano_mes = Levanta e ->
  e = ValueError \/ e = OverflowError.
Proof.
  unfold _intervalo_datas_competencia.
  destruct (PyStr.split "-" ano_mes) as [|a [|m [|x l]]].
  - intros [= <-]. by left.
  - destruct (int a) eqn:E; cbn; [intros [= <-]; by left|].
    intros [= <-]. left. by eapply int_excecao.
  - destruct (int a) as [ano|] eqn:Ea; cbn;
      [|intros [= <-]; left; by eapply int_excecao].
    destruct (int m) as [mes|] eqn:Em; cbn;
      [|intros [= <-]; left; by eapply int_excecao].
    destruct (datetime_dia1 ano mes) as [ini|] eqn:Ei; cbn;
      [|intros [= <-]; by eapply datetime_dia1_excecao].
    destruct (if mes =? 12 then _ else _) as [fim|] eqn:Ef; cbn; [done|].
    intros [= <-]. destruct (mes =? 12); by eapply datetime_dia1_excecao.
  - destruct (int a) eqn:E; cbn; [intros [= <-]; by left|].
    intros [= <-]. left. by eapply int_excecao.
Qed.

Lemma token_invalido_excecao ano_mes :
  ~ token_valido ano_mes ->
  exists e, _intervalo_datas_competencia ano_mes = Levanta e.
Proof.
  intros H. destruct (_intervalo_datas_competencia ano_mes) as [x|e] eqn:E.
  - exfalso. apply H. by exists x.
  - by exists e.
Qed.

(** With a declaration row of the company for the token, reconciliation
    returns a summary when the token is accepted and raises the exception
    of the date arithmetic when it is not. *)
Lemma cruzar_competencia_com_pgdas db empresa ano_mes c :
  c ∈ competencias_pgdas db ->
  CompetenciaPGDAS.empresa_id c = Empresa.id empresa ->
  CompetenciaPGDAS.ano_mes c = ano_mes ->
  (token_valido ano_mes ->
   exists db' r, cruzar_competencia db empresa ano_mes
                 = Retorna (db', Some r))
  /\ (forall e, _intervalo_datas_competencia ano_mes = Levanta e ->
      cruzar_competencia db empresa ano_mes = Levanta e).
Proof.
  intros Hc He Ha. unfold cruzar_competencia.
  destruct (first_ _ (competencias_pgdas db)) as [[j c']|] eqn:E.
  - unfold calcular_base_monofasica_xml. split.
    + intros [[ini fim] Ht]. rewrite Ht. cbn.
      destruct (get_or_create_resultado_auditoria _ _ _) as [tab [i res]].
      by eexists _, _.
    + intros e Ht. by rewrite Ht.
  - exfalso. rewrite first_None in E. specialize (E c Hc).
    rewrite He, Ha, Z.eqb_refl, String.eqb_refl in E. discriminate.
Qed.

Lemma cruzar_lista_ok empresa tokens : forall db,
  Forall (fun t => token_valido t
                   /\ exists c, c ∈ competencias_pgdas db
                        /\ CompetenciaPGDAS.empresa_id c = Empresa.id empresa
                        /\ CompetenciaPGDAS.ano_mes c = t) tokens ->
  exists db' rs,
    cruzar_lista db empresa tokens = Retorna (db', rs)
    /\ length rs = length tokens
    /\ Forall (fun r => ResultadoAuditoria.empresa_id r = Empresa.id empresa)
         rs
    /\ notas_fiscais db' = notas_fiscais db
    /\ competencias_pgdas db' = competencias_pgdas db
    /\ ncm_monofasicos db' = ncm_monofasicos db
    /\ anexos_aliquotas db' = anexos_aliquotas db.
Proof.
  induction tokens as [|t l IH]; intros db Hall.
  - exists db, []. repeat split; constructor.
  - apply List.Forall_cons_iff in Hall as [(Ht & c & Hc & He & Ha) Hl].
    destruct (cruzar_competencia_com_pgdas db empresa t c Hc He Ha)
      as [Hok _].
    destruct (Hok Ht) as (db1 & r & E1).
    pose proof (cruzar_competencia_notas _ _ _ _ _ E1) as (N1 & C1 & M1 & A1).
    destruct (IH db1) as (db2 & rs & E2 & Hlen & Hrs & N2 & C2 & M2 & A2).
    { rewrite C1. exact Hl. }
    exists db2, (r :: rs). cbn [cruzar_lista]. rewrite E1. cbn. rewrite E2. cbn.
    split; [done|]. split; [cbn; lia|].
    split.
    { constructor; [|done].
      apply cruzar_competencia_Some in E1 as (j & c' & base & _ & _ & Hr).
      by destruct Hr as [(i & r0 & Hf & -> & _)|(_ & -> & _)];
        [apply first_Some_elem in Hf as [_ Hp];
         apply andb_true_iff in Hp as [Hp _]; apply Z.eqb_eq in Hp|]. }
    repeat split; congruence.
Qed.

(** The loop stops at the first token the date arithmetic refuses, with
    the exception that token raises. *)
Lemma cruzar_lista_erro empresa tokens : forall db,
  Forall (fun t => exists c, c ∈ competencias_pgdas db
                     /\ CompetenciaPGDAS.empresa_id c = Empresa.id empresa
                     /\ CompetenciaPGDAS.ano_mes c = t) tokens ->
  Exists (fun t => ~ token_valido t) tokens ->
  exists t e,
    t ∈ tokens
    /\ _intervalo_datas_competencia t = Levanta e
    /\ cruzar_lista db empresa tokens = Levanta e.
Proof.
  induction tokens as [|t l IH]; intros db Hall Hex.
  - by apply Exists_nil in Hex.
  - apply List.Forall_cons_iff in Hall as [(c & Hc & He & Ha) Hl].
    destruct (cruzar_competencia_com_pgdas db empresa t c Hc He Ha)
      as [Hok Herr].
    cbn [cruzar_lista].
    destruct (_intervalo_datas_competencia t) as [x|e] eqn:Et.
    + destruct (Hok (ex_intro _ x Et)) as (db1 & r & E1). rewrite E1. cbn.
      pose proof (cruzar_competencia_notas _ _ _ _ _ E1) as (_ & C1 & _).
      destruct (IH db1) as (t' & e & Ht' & Het & Hl').
      { by rewrite C1. }
      { apply Exists_cons in Hex as [Hex|Hex]; [|done].
        exfalso. apply Hex. by exists x. }
      exists t', e. split; [by right|]. split; [done|]. by rewrite Hl'.
    + exists t, e. split; [by left|]. split; [done|].
      by rewrite (Herr e eq_refl).
Qed.

(** X12. Reconciliation over a range selects the company's declaration
    rows whose token lies between the two limits in text order.  When
    every selected token is accepted by the date arithmetic the call
    returns one summary per selected row, all of the company, and leaves
    invoices and declarations untouched; when some selected token is not
    accepted (such as a row whose period is not of the form year-month,
    or whose month does not fit a C [int]) the call raises the exception
    the date arithmetic raises on a selected token: ValueError or
    OverflowError. *)
Theorem cruzar_intervalo_um_por_declaracao db empresa ano_mes_inicial
  ano_mes_final :
  let selecionadas :=
    filter (fun c => Is_true (no_intervalo empresa ano_mes_inicial
                                ano_mes_final c))
           (competencias_pgdas db) in
  (Forall (fun c => token_valido (CompetenciaPGDAS.ano_mes c)) selecionadas ->
   exists db' rs,
     cruzar_intervalo db empresa ano_mes_inicial ano_mes_final
     = Retorna (db', rs)
     /\ length rs = length selecionadas
     /\ Forall (fun r => ResultadoAuditoria.empresa_id r = Empresa.id empresa)
          rs
     /\ notas_fiscais db' = notas_fiscais db
     /\ competencias_pgdas db' = competencias_pgdas db)
  /\ (Exists (fun c => ~ token_valido (CompetenciaPGDAS.ano_mes c))
        selecionadas ->
      exists c e,
        c ∈ selecionadas
        /\ _intervalo_datas_competencia (CompetenciaPGDAS.ano_mes c)
           = Levanta e
        /\ cruzar_intervalo db empresa ano_mes_inicial ano_mes_final
           = Levanta e
        /\ (e = ValueError \/ e = OverflowError)).
Proof.
  intros selecionadas.
  assert (Forall (fun t => exists c, c ∈ competencias_pgdas db
                     /\ CompetenciaPGDAS.empresa_id c = Empresa.id empresa
                     /\ CompetenciaPGDAS.ano_mes c = t)
            (CompetenciaPGDAS.ano_mes <$> selecionadas)) as Hrows.
  { apply Forall_forall. intros t Ht.
    apply list_elem_of_fmap in Ht as (c & -> & Hc).
    apply list_elem_of_filter in Hc as [Hp Hc]. exists c.
    split; [done|]. split; [|done].
    apply Is_true_true in Hp. unfold no_intervalo in Hp.
    rewrite !andb_true_iff in Hp. destruct Hp as [[Hp _] _].
    by apply Z.eqb_eq in Hp. }
  unfold cruzar_intervalo. fold selecionadas. split.
  - intros Hv.
    destruct (cruzar_lista_ok empresa (CompetenciaPGDAS.ano_mes <$> selecionadas)
                db) as (db' & rs & E & Hlen & Hrs & N & C & _).
    { rewrite Forall_forall in Hrows. rewrite Forall_forall in Hv.
      apply Forall_forall. intros t Ht. split; [|by apply Hrows].
      apply list_elem_of_fmap in Ht as (c & -> & Hc). by apply Hv. }
    exists db', rs. rewrite length_fmap in Hlen. done.
  - intros Hex.
    destruct (cruzar_lista_erro empresa
                (CompetenciaPGDAS.ano_mes <$> selecionadas) db Hrows)
      as (t & e & Ht & He & Hl).
    { apply Exists_exists in Hex as (c & Hc & Hn).
      apply Exists_exists. exists (CompetenciaPGDAS.ano_mes c).
      split; [|done]. apply list_elem_of_fmap. by exists c. }
    apply list_elem_of_fmap in Ht as (c & -> & Hc).
    exists c, e. split; [done|]. split; [done|]. split; [done|].
    by eapply _intervalo_datas_competencia_excecao.
Qed.

Lemma cruzar_intervalo_um_por_declaracao_witness :
  (exists db' rs,
     cruzar_intervalo Exemplo.db Exemplo.empresa "2024-01" "2024-03"
     = Retorna (db', rs)
     /\ length rs = 2%nat)
  /\ cruzar_intervalo
       (set_competencias_pgdas
          [Exemplo.c_2024_01;
           Exemplo.competencia 5 "2024-099999999999" (Exemplo.dec2 0)
             (Exemplo.dec2 0) None None None]
          Exemplo.db)
       Exemplo.empresa "2024-01" "2024-12"
     = Levanta OverflowError.
Proof.
  split.
  - destruct (proj1 (cruzar_intervalo_um_por_declaracao Exemplo.db
                       Exemplo.empresa "2024-01" "2024-03"))
      as (db' & rs & E & Hlen & _).
    + repeat constructor; eexists; vm_compute; reflexivity.
    + exists db', rs. split; [exact E | exact Hlen].
  - destruct (proj2 (cruzar_intervalo_um_por_declaracao
                       (set_competencias_pgdas
                          [Exemplo.c_2024_01;
                           Exemplo.competencia 5 "2024-099999999999"
                             (Exemplo.dec2 0) (Exemplo.dec2 0) None None None]
                          Exemplo.db)
                       Exemplo.empresa "2024-01" "2024-12"))
      as (c & e & _ & _ & Hcr & _).
    + apply Exists_cons_tl, Exists_cons_hd. intros [x Hx].
      vm_compute in Hx. discriminate Hx.
    + pose proof Hcr as Hcr'. vm_compute in Hcr'. injection Hcr' as <-.
      exact Hcr.
Defined.

(** ** Estimation *)

(** X13. The bracket used for a period is the first row of the table, in
    storage order, of the period's annex whose inclusive range contains the
    trailing-12-month revenue (compared as numbers, whatever the number of
    decimal places); when brackets overlap the earlier row wins, and the
    lookup yields nothing exactly when no row matches. *)
Theorem obter_anexo_primeira_faixa (tabela : list AnexoAliquota.t)
  (c : CompetenciaPGDAS.t) :
  match obter_anexo_aliquota_para_competencia tabela c with
  | Some a =>
      exists i, tabela !! i = Some a /\ faixa_contem c a
                /\ forall j b, tabela !! j = Some b -> (j < i)%nat ->
                               ~ faixa_contem c b
  | None => forall a, a ∈ tabela -> ~ faixa_contem c a
  end.
Proof.
  destruct (obter_anexo_aliquota_para_competencia tabela c) as [a|] eqn:E.
  - unfold obter_anexo_aliquota_para_competencia in E.
    destruct (first_ _ tabela) as [[i a']|] eqn:Ef; [|done].
    injection E as ->. apply first_Some_iff in Ef as (Hi & Hp & Hj).
    exists i. split; [done|]. split; [by apply na_faixa_spec|].
    intros j b Hb Hlt Hf. apply na_faixa_spec in Hf.
    specialize (Hj j b Hb Hlt). congruence.
  - by apply obter_anexo_None.
Qed.



Lemma set_indev_set_indev a b c a' b' c' r :
  ResultadoAuditoria.set_indev a b c (ResultadoAuditoria.set_indev a' b' c' r)
  = ResultadoAuditoria.set_indev a b c r.
Proof. reflexivity. Qed.

Lemma garantir_aliquota_efetiva_memo c v :
  garantir_aliquota_efetiva
    (CompetenciaPGDAS.set_aliquota_efetiva (Some v) c)
  = Retorna (CompetenciaPGDAS.set_aliquota_efetiva (Some v) c, v).
Proof. reflexivity. Qed.

(** The estimation, by cases. *)
Lemma calcular_indev_para_resultado_casos tabela resultado c :
  (calcular_indev_para_resultado tabela resultado (Some c)
   = Retorna (ResultadoAuditoria.set_indev (Some Dec.zero) (Some Dec.zero)
                (Some Dec.zero) resultado, Some c)
   /\ Dec.coef (ResultadoAuditoria.diferenca_base resultado) <= 0)
  \/ (exists v,
        0 < Dec.coef (ResultadoAuditoria.diferenca_base resultado)
        /\ garantir_aliquota_efetiva c
           = Retorna (CompetenciaPGDAS.set_aliquota_efetiva (Some v) c, v)
        /\ calcular_indev_para_resultado tabela resultado (Some c)
           = Retorna
               (match obter_anexo_aliquota_para_competencia tabela c with
                | None =>
                    ResultadoAuditoria.set_indev None None None resultado
                | Some af =>
                    let dif :=
                      Dec.or_zero
                        (ResultadoAuditoria.diferenca_base resultado) in
                    let pis :=
                      (dif * (v * Dec.or_zero
                                    (AnexoAliquota.percentual_pis af)))%dec in
                    let cofins :=
                      (dif * (v * Dec.or_zero
                                    (AnexoAliquota.percentual_cofins af)))%dec in
                    ResultadoAuditoria.set_indev (Some pis) (Some cofins)
                      (Some (pis + cofins)%dec) resultado
                end,
                Some (CompetenciaPGDAS.set_aliquota_efetiva (Some v) c))).
Proof.
  destruct (Z.le_gt_cases
              (Dec.coef (ResultadoAuditoria.diferenca_base resultado)) 0)
    as [Hle|Hgt].
  - left. split; [|done]. apply calcular_indev_nao_positiva.
    apply DecFacts.leb_zero in Hle. apply DecFacts.leb_to_Q in Hle.
    by rewrite DecFacts.to_Q_zero in Hle.
  - right.
    destruct (calcular_indev_diferenca_positiva tabela resultado c)
      as (v & Hv & He).
    { apply DecFacts.to_Q_gt_0. lia. }
    exists v. split; [lia|]. by split.
Qed.

(** X15. The estimation writes the three impact fields of the summary and
    the memoized rate of the period, and nothing else.  The three impact
    fields are either all null or all set; a summary whose declaration
    period cannot be found is returned exactly as it was. *)
Theorem calcular_indev_so_altera_impactos tabela resultado competencia r c' :
  calcular_indev_para_resultado tabela resultado competencia
  = Retorna (r, c') ->
  (exists pis cofins total,
     r = ResultadoAuditoria.set_indev pis cofins total resultado
     /\ ((pis = None /\ cofins = None /\ total = None)
         \/ (is_Some pis /\ is_Some cofins /\ is_Some total)
         \/ competencia = None))
  /\ (competencia = None -> r = resultado /\ c' = None)
  /\ (forall c, competencia = Some c ->
        c' = Some c
        \/ exists v, c' = Some (CompetenciaPGDAS.set_aliquota_efetiva
                                  (Some v) c)).
Proof.
  intros H. destruct competencia as [c|].
  - destruct (calcular_indev_para_resultado_casos tabela resultado c)
      as [[E _]|(v & _ & _ & E)]; rewrite E in H; injection H as <- <-.
    + split; [|split; [done|]].
      * eexists _, _, _. split; [reflexivity|]. right. left.
        repeat split; by eexists.
      * intros c0 [= <-]. by left.
    + split; [|split; [done|]].
      * destruct (obter_anexo_aliquota_para_competencia tabela c).
        -- eexists _, _, _. split; [reflexivity|]. right. left.
           repeat split; by eexists.
        -- eexists _, _, _. split; [reflexivity|]. by left.
      * intros c0 [= <-]. right. by exists v.
  - cbn in H. injection H as <- <-. split; [|split; [done|done]].
    exists (ResultadoAuditoria.pis_indev resultado),
      (ResultadoAuditoria.cofins_indev resultado),
      (ResultadoAuditoria.total_indev resultado).
    split; [by destruct resultado|]. by right; right.
Qed.

Lemma calcular_indev_so_altera_impactos_witness :
  exists pis cofins total,
    ResultadoAuditoria.set_indev (Some Dec.zero) (Some Dec.zero)
      (Some Dec.zero)
      (ResultadoAuditoria.mk 1 1 1 (Exemplo.dec2 0) (Exemplo.dec2 70000)
         (Exemplo.dec2 (-70000)) None None None)
    = ResultadoAuditoria.set_indev pis cofins total
        (ResultadoAuditoria.mk 1 1 1 (Exemplo.dec2 0) (Exemplo.dec2 70000)
           (Exemplo.dec2 (-70000)) None None None).
Proof.
  destruct (calcular_indev_so_altera_impactos Exemplo.faixas
              (ResultadoAuditoria.mk 1 1 1 (Exemplo.dec2 0)
                 (Exemplo.dec2 70000) (Exemplo.dec2 (-70000)) None None None)
              (Some Exemplo.c_2024_01) _ _ eq_refl)
    as ((pis & cofins & total & H & _) & _).
  exists pis, cofins, total. exact H.
Defined.

(** With the declaration period at hand, a second run reads the rate the
    first run memoized and the difference it did not change. *)
Lemma calcular_indev_para_resultado_idem_Some tabela resultado c r c' :
  calcular_indev_para_resultado tabela resultado (Some c)
  = Retorna (r, c') ->
  calcular_indev_para_resultado tabela r c' = Retorna (r, c').
Proof.
  intros H.
  - destruct (calcular_indev_para_resultado_casos tabela resultado c)
      as [[E Hle]|(v & Hgt & _ & E)]; rewrite E in H; injection H as <- <-.
    + rewrite calcular_indev_nao_positiva; [done|].
      cbn. apply DecFacts.leb_zero in Hle. apply DecFacts.leb_to_Q in Hle.
      by rewrite DecFacts.to_Q_zero in Hle.
    + set (c1 := CompetenciaPGDAS.set_aliquota_efetiva (Some v) c).
      destruct (calcular_indev_para_resultado_casos tabela
                  (match obter_anexo_aliquota_para_competencia tabela c with
                   | None =>
                       ResultadoAuditoria.set_indev None None None resultado
                   | Some af =>
                       ResultadoAuditoria.set_indev
                         (Some (Dec.or_zero
                                  (ResultadoAuditoria.diferenca_base resultado)
                                * (v * Dec.or_zero
                                         (AnexoAliquota.percentual_pis af)))%dec)
                         (Some (Dec.or_zero
                                  (ResultadoAuditoria.diferenca_base resultado)
                                * (v * Dec.or_zero
                                         (AnexoAliquota.percentual_cofins af)))%dec)
                         (Some (Dec.or_zero
                                  (ResultadoAuditoria.diferenca_base resultado)
                                * (v * Dec.or_zero
                                         (AnexoAliquota.percentual_pis af))
                                + Dec.or_zero
                                    (ResultadoAuditoria.diferenca_base resultado)
                                  * (v * Dec.or_zero
                                           (AnexoAliquota.percentual_cofins af)))%dec)
                         resultado
                   end) c1)
        as [[_ Hle]|(v' & _ & Hv' & E')].
      * exfalso.
        destruct (obter_anexo_aliquota_para_competencia tabela c);
          cbn in Hle; lia.
      * cbn zeta in *. rewrite E'. unfold c1 in Hv'.
        rewrite garantir_aliquota_efetiva_memo in Hv'.
        injection Hv' as _ <-. unfold c1.
        rewrite obter_anexo_set_aliquota.
        destruct (obter_anexo_aliquota_para_competencia tabela c);
          reflexivity.
Qed.

(** With the rate of the period stored, or with no positive difference,
    the estimation does not write on the period. *)
Lemma calcular_indev_para_resultado_gravada tabela resultado c r c' :
  is_Some (CompetenciaPGDAS.aliquota_efetiva c)
  \/ Dec.coef (ResultadoAuditoria.diferenca_base resultado) <= 0 ->
  calcular_indev_para_resultado tabela resultado (Some c) = Retorna (r, c') ->
  c' = Some c.
Proof.
  intros Hs H.
  destruct (calcular_indev_para_resultado_casos tabela resultado c)
    as [[E _]|(v & Hgt & Hg & E)]; rewrite E in H; injection H as _ <-.
  - done.
  - destruct Hs as [[v0 Hv0]|Hle]; [|lia].
    unfold garantir_aliquota_efetiva in Hg. rewrite Hv0 in Hg.
    injection Hg as Hc _. by rewrite <- Hc.
Qed.

Lemma calcular_indev_na_posicao_gravada db i res db' r :
  (forall c, c ∈ competencias_pgdas db ->
     is_Some (CompetenciaPGDAS.aliquota_efetiva c)) ->
  calcular_indev_na_posicao db i res = Retorna (db', r) ->
  competencias_pgdas db' = competencias_pgdas db.
Proof.
  intros Hs H. unfold calcular_indev_na_posicao in H.
  destruct (competencia_de db res) as [[j c]|] eqn:E.
  - inv_bind H. destruct a as [r1 c1]. cbn in H.
    change (snd <$> Some (j, c)) with (Some c) in Ha.
    apply first_Some_elem in E as [Hj _].
    apply calcular_indev_para_resultado_gravada in Ha as ->.
    + injection H as <- _. cbn. by apply list_insert_id.
    + left. apply Hs. by eapply list_elem_of_lookup_2.
  - inv_bind H. destruct a as [r1 c1]. cbn in H. by injection H as <- _.
Qed.

Lemma calcular_indev_para_competencia_gravada db empresa ano_mes db' y :
  (forall c, c ∈ competencias_pgdas db ->
     is_Some (CompetenciaPGDAS.aliquota_efetiva c)) ->
  calcular_indev_para_competencia db empresa ano_mes = Retorna (db', y) ->
  competencias_pgdas db' = competencias_pgdas db.
Proof.
  intros Hs H. unfold calcular_indev_para_competencia in H.
  destruct (first_ _ (resultados_auditoria db)) as [[i res]|].
  - inv_bind H. destruct a as [db1 r1]. cbn in H. injection H as <- _.
    by eapply calcular_indev_na_posicao_gravada.
  - by injection H as <- _.
Qed.

(** X16. The estimation is idempotent for a period whose rate is stored
    (or a summary with no positive difference, or with no period at all):
    the call leaves the period as it was, and applied again to the summary
    it has just returned it returns the same summary: the second run reads
    the same difference and the same stored rate and assigns the same
    three impacts.  (A rate derived by the call itself is excluded: it is
    assigned with the precision of the division, and a later call reads
    what the column kept of it.) *)
Theorem calcular_indev_idempotente tabela resultado competencia r c' :
  (forall c, competencia = Some c ->
     is_Some (CompetenciaPGDAS.aliquota_efetiva c)
     \/ Dec.coef (ResultadoAuditoria.diferenca_base resultado) <= 0) ->
  calcular_indev_para_resultado tabela resultado competencia
  = Retorna (r, c') ->
  c' = competencia
  /\ calcular_indev_para_resultado tabela r c' = Retorna (r, c').
Proof.
  intros Hs H. destruct competencia as [c|].
  - split.
    + by apply (calcular_indev_para_resultado_gravada tabela resultado c r);
        [apply Hs|].
    + by apply (calcular_indev_para_resultado_idem_Some tabela resultado c).
  - cbn in H. by injection H as <- <-.
Qed.

Lemma calcular_indev_idempotente_witness :
  exists r,
    calcular_indev_para_resultado Exemplo.faixas
      (ResultadoAuditoria.mk 1 1 1 (Exemplo.dec2 100000) (Exemplo.dec2 70000)
         (Exemplo.dec2 30000) None None None)
      (Some Exemplo.c_2024_01) = Retorna (r, Some Exemplo.c_2024_01)
    /\ ResultadoAuditoria.total_indev r = Some (Dec.mk 300000000000 (-10))
    /\ calcular_indev_para_resultado Exemplo.faixas r (Some Exemplo.c_2024_01)
       = Retorna (r, Some Exemplo.c_2024_01).
Proof.
  eexists. split; [vm_compute; reflexivity|].
  split; [vm_compute; reflexivity|].
  refine (proj2 (calcular_indev_idempotente Exemplo.faixas
           (ResultadoAuditoria.mk 1 1 1 (Exemplo.dec2 100000)
              (Exemplo.dec2 70000) (Exemplo.dec2 30000) None None None)
           (Some Exemplo.c_2024_01) _ _ _ _)).
  - intros c [= <-]. left. eexists. reflexivity.
  - vm_compute. reflexivity.
Defined.

Lemma sgn_prod_nonneg x a b :
  Z.sgn x = Z.sgn a * Z.sgn b -> 0 <= a -> 0 <= b -> 0 <= x.
Proof.
  intros H Ha Hb. apply Z.sgn_nonneg. rewrite H.
  apply Z.mul_nonneg_nonneg; by apply Z.sgn_nonneg.
Qed.

Lemma add_nonneg a b :
  0 <= Dec.coef a -> 0 <= Dec.coef b -> 0 <= Dec.coef (a + b)%dec.
Proof.
  intros Ha Hb. apply Z.sgn_nonneg. rewrite DecFacts.add_sgn.
  apply Z.sgn_nonneg.
  destruct (Z.le_gt_cases 0 (Dec.coef (Dec.add_exact a b))) as [|Hlt];
    [done|].
  exfalso. apply DecFacts.to_Q_lt_0 in Hlt.
  rewrite DecFacts.to_Q_add_exact in Hlt.
  assert (~ (Dec.to_Q a < 0)%Q) as Ha'
    by (rewrite DecFacts.to_Q_lt_0; lia).
  assert (~ (Dec.to_Q b < 0)%Q) as Hb'
    by (rewrite DecFacts.to_Q_lt_0; lia).
  lra.
Qed.

Lemma div_sinal a b :
  Dec.coef b <> 0 ->
  exists r, Dec.div a b = Some r
            /\ Z.sgn (Dec.coef r) = Z.sgn (Dec.coef a) * Z.sgn (Dec.coef b).
Proof.
  intros Hb. destruct (Z.eq_dec (Dec.coef a) 0) as [E|E].
  - unfold Dec.div. destruct (Z.eqb_spec (Dec.coef b) 0); [done|].
    destruct (Z.eqb_spec (Dec.coef a) 0); [|done].
    eexists. split; [reflexivity|]. rewrite DecFacts.fix_sgn, E. reflexivity.
  - by apply DecFacts.div_sgn.
Qed.

(** X17. The sign of the rate and of the impacts.  A rate derived from a
    positive trailing-12-month revenue is non-negative exactly when the
    deduction parcel does not exceed the product revenue x nominal rate
    (as the code computes it), and it is zero exactly when they are equal:
    no rounding changes these signs.  Whenever the resolved rate and the
    split percentages of the table are non-negative, the three impacts the
    estimation stores are non-negative, whatever the difference. *)
Theorem sinal_da_aliquota_e_dos_impactos tabela resultado
  (c : CompetenciaPGDAS.t) r c' v :
  garantir_aliquota_efetiva c
  = Retorna (CompetenciaPGDAS.set_aliquota_efetiva (Some v) c, v) ->
  calcular_indev_para_resultado tabela resultado (Some c) = Retorna (r, c') ->
  (CompetenciaPGDAS.aliquota_efetiva c = None ->
   0 < Dec.coef (CompetenciaPGDAS.receita_bruta_12m c) ->
   (0 <= Dec.coef v
    <-> (Dec.to_Q (Dec.opt_or_zero (CompetenciaPGDAS.parcela_a_deduzir c))
         <= Dec.to_Q
              (Dec.or_zero (CompetenciaPGDAS.receita_bruta_12m c)
               * Dec.opt_or_zero (CompetenciaPGDAS.aliquota_nominal c))%dec)%Q)
   /\ (Dec.coef v = 0
       <-> (Dec.to_Q (Dec.opt_or_zero (CompetenciaPGDAS.parcela_a_deduzir c))
            == Dec.to_Q
                 (Dec.or_zero (CompetenciaPGDAS.receita_bruta_12m c)
                  * Dec.opt_or_zero (CompetenciaPGDAS.aliquota_nominal c))%dec)%Q))
  /\ (0 <= Dec.coef v ->
      (forall a, a ∈ tabela ->
         0 <= Dec.coef (AnexoAliquota.percentual_pis a)
         /\ 0 <= Dec.coef (AnexoAliquota.percentual_cofins a)) ->
      forall x d,
        x ∈ [ResultadoAuditoria.pis_indev r; ResultadoAuditoria.cofins_indev r;
             ResultadoAuditoria.total_indev r] ->
        x = Some d -> 0 <= Dec.coef d).
Proof.
  intros Hv H. split.
  - intros Hnone Hrec. unfold garantir_aliquota_efetiva in Hv.
    rewrite Hnone in Hv.
    set (r12 := Dec.or_zero (CompetenciaPGDAS.receita_bruta_12m c)) in *.
    set (nom := Dec.opt_or_zero (CompetenciaPGDAS.aliquota_nominal c)) in *.
    set (par := Dec.opt_or_zero (CompetenciaPGDAS.parcela_a_deduzir c)) in *.
    assert (0 < Dec.coef r12) as Hr12
      by (unfold r12; rewrite DecFacts.coef_or_zero; lia).
    destruct (Dec.eqb r12 Dec.zero) eqn:Ez.
    { apply DecFacts.eqb_zero in Ez. lia. }
    destruct (div_sinal (r12 * nom - par)%dec r12) as (q & Hq & Hs); [lia|].
    rewrite Hq in Hv. injection Hv as _ <-.
    pose proof (sub_sinal (r12 * nom)%dec par) as (Hpos & Hneg & Hzero).
    assert (Z.sgn (Dec.coef r12) = 1) as S1 by lia.
    rewrite S1, Z.mul_1_r in Hs.
    split; split; intros Hx.
    + assert (~ (Dec.to_Q (r12 * nom)%dec < Dec.to_Q par)%Q) as Hn
        by (rewrite <- Hneg; lia).
      lra.
    + assert (~ Dec.coef (r12 * nom - par)%dec < 0) as Hn
        by (rewrite Hneg; lra).
      lia.
    + assert (Dec.coef (r12 * nom - par)%dec = 0) as H0 by lia.
      apply Hzero in H0. lra.
    + assert (Dec.coef (r12 * nom - par)%dec = 0) as H0
        by (apply Hzero; lra).
      lia.
  - intros Hvpos Htab x d Hx ->.
    destruct (calcular_indev_para_resultado_casos tabela resultado c)
      as [[E _]|(v' & Hgt & Hv' & E)]; rewrite E in H; injection H as <- _.
    + cbn in Hx. set_unfold in Hx.
      destruct Hx as [[= ->]|[[= ->]|[[= ->]|[]]]]; done.
    + rewrite Hv in Hv'. injection Hv' as _ <-.
      destruct (obter_anexo_aliquota_para_competencia tabela c) as [af|] eqn:Ea.
      * apply obter_anexo_Some in Ea as [Haf _].
        destruct (Htab af Haf) as [Hp Hc].
        assert (forall p, 0 <= Dec.coef p ->
                  0 <= Dec.coef
                         (Dec.or_zero
                            (ResultadoAuditoria.diferenca_base resultado)
                          * (v * Dec.or_zero p))%dec) as Hprod.
        { intros p Hp0.
          eapply sgn_prod_nonneg; [apply DecFacts.mul_sgn | |].
          - rewrite DecFacts.coef_or_zero. lia.
          - eapply sgn_prod_nonneg; [apply DecFacts.mul_sgn | done |].
            by rewrite DecFacts.coef_or_zero. }
        cbn in Hx. set_unfold in Hx.
        destruct Hx as [[= ->]|[[= ->]|[[= ->]|[]]]].
        -- by apply Hprod.
        -- by apply Hprod.
        -- apply add_nonneg; by apply Hprod.
      * cbn in Hx. set_unfold in Hx.
        destruct Hx as [[= ]|[[= ]|[[= ]|[]]]].
Qed.

Lemma sinal_da_aliquota_e_dos_impactos_witness :
  exists r c',
    calcular_indev_para_resultado Exemplo.faixas
      (ResultadoAuditoria.mk 1 1 1 (Exemplo.dec2 100000) (Exemplo.dec2 70000)
         (Exemplo.dec2 30000) None None None)
      (Some Exemplo.c_2024_01) = Retorna (r, c')
    /\ forall x d,
         x ∈ [ResultadoAuditoria.pis_indev r;
              ResultadoAuditoria.cofins_indev r;
              ResultadoAuditoria.total_indev r] ->
         x = Some d -> 0 <= Dec.coef d.
Proof.
  eexists _, _. split; [vm_compute; reflexivity|].
  refine (proj2 (sinal_da_aliquota_e_dos_impactos Exemplo.faixas
                   (ResultadoAuditoria.mk 1 1 1 (Exemplo.dec2 100000)
                      (Exemplo.dec2 70000) (Exemplo.dec2 30000)
                      None None None)
                   Exemplo.c_2024_01 _ _ (Exemplo.dec4 1000)
                   eq_refl eq_refl) _ _).
  - cbn. lia.
  - intros a Ha. apply list_elem_of_singleton in Ha. subst a. cbn. lia.
Defined.

(** ** Estimation over all the summaries of a company *)

Lemma calcular_indev_para_resultado_forma tabela resultado competencia r c' :
  calcular_indev_para_resultado tabela resultado competencia
  = Retorna (r, c') ->
  mesmas_bases r resultado.
Proof.
  intros H. destruct competencia as [c|].
  - destruct (calcular_indev_para_resultado_casos tabela resultado c)
      as [[E _]|(v & _ & _ & E)]; rewrite E in H; injection H as <- _.
    + by repeat split.
    + destruct (obter_anexo_aliquota_para_competencia tabela c);
        by repeat split.
  - cbn in H. injection H as <- _. by repeat split.
Qed.









(** ** The import of a declaration file *)

(** One row of the file: the period of the company is rewritten in place
    when it is stored, and staged as a new object otherwise. *)
Lemma upsert_competencia_pgdas_ok float_ dados s empresa s' nova :
  upsert_competencia_pgdas float_ dados s empresa = Retorna (s', nova) ->
  exists ano_mes,
    dados !! "ano_mes"%string = Some ano_mes /\ ano_mes <> ""%string
    /\ CompetenciaPGDAS.empresa_id nova = Empresa.id empresa
    /\ CompetenciaPGDAS.ano_mes nova = ano_mes
    /\ ((exists i c,
           first_ (chave_pgdas empresa ano_mes) (persistentes s) = Some (i, c)
           /\ persistentes s' = <[i := nova]> (persistentes s)
           /\ novos s' = novos s
           /\ CompetenciaPGDAS.id nova = CompetenciaPGDAS.id c
           /\ CompetenciaPGDAS.anexo nova
              = anexo_da_linha dados (CompetenciaPGDAS.anexo c))
        \/ (first_ (chave_pgdas empresa ano_mes) (persistentes s) = None
            /\ persistentes s' = persistentes s
            /\ novos s' = novos s ++ [nova]
            /\ CompetenciaPGDAS.anexo nova = anexo_da_linha dados None)).
Proof.
  unfold upsert_competencia_pgdas.
  destruct (dados !! "ano_mes"%string) as [[|a r]|] eqn:Ea; try done.
  fold (chave_pgdas empresa (String a r)).
  intros H. exists (String a r). split; [done|]. split; [done|].
  destruct (first_ (chave_pgdas empresa (String a r)) (persistentes s))
    as [[i c]|] eqn:Ef.
  - do 8 inv_bind H. injection H as <- <-. cbn.
    split; [done|]. split; [done|]. left. exists i, c. done.
  - do 8 inv_bind H. injection H as <- <-. cbn.
    split; [done|]. split; [done|]. right. done.
Qed.

Lemma mesma_competencia_trans a b c :
  mesma_competencia a b -> mesma_competencia b c -> mesma_competencia a c.
Proof.
  unfold mesma_competencia. intros (?&?&?) (?&?&?). repeat split; congruence.
Qed.

(** The stored rows keep position, key, company and period through the
    loop, rows of other companies are not touched, and what is staged is
    of the company. *)
Lemma upsert_linhas_ok float_ empresa linhas : forall s s',
  upsert_linhas float_ linhas s empresa = Retorna s' ->
  length (persistentes s') = length (persistentes s)
  /\ (forall i c, persistentes s !! i = Some c ->
        exists c', persistentes s' !! i = Some c'
                   /\ mesma_competencia c' c
                   /\ (CompetenciaPGDAS.empresa_id c <> Empresa.id empresa ->
                       c' = c))
  /\ exists extra,
       novos s' = novos s ++ extra
       /\ Forall (fun c => CompetenciaPGDAS.empresa_id c = Empresa.id empresa
                           /\ CompetenciaPGDAS.ano_mes c <> ""%string) extra.
Proof.
  induction linhas as [|linha resto IH]; intros s s' H.
  - cbn in H. injection H as <-. split; [done|]. split.
    + intros i c Hi. exists c. by repeat split.
    + exists []. by rewrite app_nil_r.
  - cbn [upsert_linhas] in H. inv_bind H. destruct a as [s1 nova]. cbn in H.
    apply IH in H as (L & R & extra & N & F).
    apply upsert_competencia_pgdas_ok in Ha
      as (ano_mes & _ & Hne & He & Ham & Hcase).
    destruct Hcase as [(i & c & Hf & P1 & N1 & Hid & _)|(_ & P1 & N1 & _)].
    + apply first_Some_elem in Hf as [Hi Hk].
      apply andb_true_iff in Hk as [Hk1 Hk2].
      apply Z.eqb_eq in Hk1. apply String.eqb_eq in Hk2.
      split; [by rewrite L, P1, length_insert|]. split.
      * intros j cj Hj. destruct (decide (j = i)) as [->|Hji].
        -- rewrite Hi in Hj. injection Hj as <-.
           destruct (R i nova) as (c' & Hc' & Hm & _).
           { rewrite P1. apply list_lookup_insert_eq.
             by eapply lookup_lt_Some. }
           exists c'. split; [done|]. split.
           ++ eapply mesma_competencia_trans; [exact Hm|].
              repeat split; congruence.
           ++ intros Hx. congruence.
        -- apply R. rewrite P1. by rewrite list_lookup_insert_ne.
      * exists extra. by rewrite N, N1.
    + split; [by rewrite L, P1|]. split.
      * intros j cj Hj. apply R. by rewrite P1.
      * exists (nova :: extra). split.
        -- by rewrite N, N1, <- app_assoc.
        -- constructor; [|done]. split; [done|]. by rewrite Ham.
Qed.

(** [commit] appends the staged objects in order, each with a fresh key. *)
Lemma foldl_inserir novos : forall tabela,
  exists inseridos,
    foldl inserir tabela novos = tabela ++ inseridos
    /\ Forall2 (fun n c => exists id, n = com_id id c) inseridos novos
    /\ (NoDup (CompetenciaPGDAS.id <$> tabela) ->
        NoDup (CompetenciaPGDAS.id <$> tabela ++ inseridos)).
Proof.
  induction novos as [|c l IH]; intros tabela.
  - exists []. rewrite app_nil_r. by repeat split.
  - cbn [foldl].
    destruct (IH (inserir tabela c)) as (ins & E & F & Hnd).
    exists (com_id (proximo_id (CompetenciaPGDAS.id <$> tabela)) c :: ins).
    rewrite E.
    change (inserir tabela c)
      with (tabela ++ [com_id (proximo_id (CompetenciaPGDAS.id <$> tabela)) c])
      in *.
    split; [by rewrite <- app_assoc|]. split.
    + constructor; [by eexists | done].
    + intros Ht. rewrite <- app_assoc in Hnd. apply Hnd.
      rewrite fmap_app. apply NoDup_app. split; [done|].
      split; [|apply NoDup_singleton].
      intros x Hx Hx'. cbn in Hx'. apply list_elem_of_singleton in Hx'.
      subst x. apply proximo_id_maior in Hx. lia.
Qed.

Lemma importar_pgdas_csv_Retorna float_ linhas db empresa db' :
  importar_pgdas_csv float_ linhas db empresa = (db', Retorna tt) ->
  exists s inseridos,
    upsert_linhas float_ linhas (mk_Sessao (competencias_pgdas db) []) empresa
    = Retorna s
    /\ Forall (fun c => is_Some (CompetenciaPGDAS.anexo c)) (novos s)
    /\ Forall2 (fun n c => exists id, n = com_id id c) inseridos (novos s)
    /\ (NoDup (CompetenciaPGDAS.id <$> persistentes s) ->
        NoDup (CompetenciaPGDAS.id <$> persistentes s ++ inseridos))
    /\ db' = set_competencias_pgdas (persistentes s ++ inseridos) db.
Proof.
  unfold importar_pgdas_csv.
  destruct (upsert_linhas float_ linhas _ empresa) as [s|e] eqn:E;
    [|cbn; discriminate].
  cbn. unfold commit.
  destruct (forallb _ (novos s)) eqn:Ef; [|discriminate].
  intros [= <-].
  destruct (foldl_inserir (novos s) (persistentes s)) as (ins & Ei & F & Hnd).
  exists s, ins. split; [done|]. split.
  - apply Forall_forall. intros c Hc.
    rewrite forallb_forall in Ef. apply list_elem_of_In in Hc.
    specialize (Ef c Hc). by apply bool_decide_eq_true in Ef.
  - split; [done|]. split; [done|]. by rewrite Ei.
Qed.

(** X19. A successful import touches the declarations of the company
    only.  Every stored declaration keeps its position, key, company and
    period, the declarations of other companies are exactly as they were,
    the rows added come after the stored ones and are of the company with
    an annex and a period token, distinct keys stay distinct, and no other
    table is touched. *)
Theorem importar_pgdas_csv_so_a_empresa float_ linhas db empresa db' :
  importar_pgdas_csv float_ linhas db empresa = (db', Retorna tt) ->
  ncm_monofasicos db' = ncm_monofasicos db
  /\ notas_fiscais db' = notas_fiscais db
  /\ anexos_aliquotas db' = anexos_aliquotas db
  /\ resultados_auditoria db' = resultados_auditoria db
  /\ (forall i c,
        competencias_pgdas db !! i = Some c ->
        exists c', competencias_pgdas db' !! i = Some c'
                   /\ mesma_competencia c' c
                   /\ (CompetenciaPGDAS.empresa_id c <> Empresa.id empresa ->
                       c' = c))
  /\ (forall i c',
        competencias_pgdas db' !! i = Some c' ->
        (length (competencias_pgdas db) <= i)%nat ->
        CompetenciaPGDAS.empresa_id c' = Empresa.id empresa
        /\ is_Some (CompetenciaPGDAS.anexo c')
        /\ CompetenciaPGDAS.ano_mes c' <> ""%string)
  /\ (NoDup (CompetenciaPGDAS.id <$> competencias_pgdas db) ->
      NoDup (CompetenciaPGDAS.id <$> competencias_pgdas db')).
Proof.
  intros H. apply importar_pgdas_csv_Retorna in H
    as (s & ins & Hs & Hanexo & Hins & Hnd & ->).
  apply upsert_linhas_ok in Hs as (L & R & extra & N & F).
  cbn in L, R, N. subst extra.
  do 4 (split; [reflexivity|]). cbn. split; [|split].
  - intros i c Hi. destruct (R i c Hi) as (c' & Hc' & Hm).
    exists c'. split; [|done]. rewrite lookup_app_l; [done|].
    by eapply lookup_lt_Some.
  - intros i c' Hi Hlen. rewrite lookup_app_r in Hi by lia.
    destruct (Forall2_lookup_l _ _ _ _ _ Hins Hi) as (n & Hn & id & ->).
    apply list_elem_of_lookup_2 in Hn.
    rewrite Forall_forall in F, Hanexo.
    destruct (F n Hn) as [He Ha]. specialize (Hanexo n Hn). by cbn.
  - intros Hdb. apply Hnd.
    assert (CompetenciaPGDAS.id <$> persistentes s
            = CompetenciaPGDAS.id <$> competencias_pgdas db) as ->; [|done].
    apply list_eq. intros i. rewrite !list_lookup_fmap.
    destruct (competencias_pgdas db !! i) as [c|] eqn:Ei.
    + destruct (R i c Ei) as (c' & -> & (Hid & _) & _). cbn. by rewrite Hid.
    + apply lookup_ge_None in Ei. rewrite <- L in Ei.
      apply lookup_ge_None in Ei. by rewrite Ei.
Qed.

Lemma importar_pgdas_csv_so_a_empresa_witness :
  exists db',
    importar_pgdas_csv Exemplo.float_
      [Exemplo.linha "2024-01" "200.00"; Exemplo.linha "2024-02" "700.00"]
      Exemplo.db Exemplo.empresa = (db', Retorna tt)
    /\ notas_fiscais db' = notas_fiscais Exemplo.db
    /\ (NoDup (CompetenciaPGDAS.id <$> competencias_pgdas Exemplo.db) ->
        NoDup (CompetenciaPGDAS.id <$> competencias_pgdas db')).
Proof.
  eexists. split; [vm_compute; reflexivity|].
  edestruct (importar_pgdas_csv_so_a_empresa Exemplo.float_
               [Exemplo.linha "2024-01" "200.00";
                Exemplo.linha "2024-02" "700.00"]
               Exemplo.db Exemplo.empresa)
    as (_ & H2 & _ & _ & _ & _ & H7); [vm_compute; reflexivity|].
  exact (conj H2 H7).
Defined.

Lemma upsert_linhas_novos_crescem float_ empresa linhas s s' c :
  upsert_linhas float_ linhas s empresa = Retorna s' ->
  c ∈ novos s -> c ∈ novos s'.
Proof.
  intros H Hc. apply upsert_linhas_ok in H as (_ & _ & extra & -> & _).
  apply elem_of_app. by left.
Qed.

(** The keys (company, period) of the stored rows do not change during
    the loop: a lookup finds a row after the loop exactly when it found
    one before. *)
Lemma upsert_linhas_chaves float_ empresa linhas s s' e ano_mes :
  upsert_linhas float_ linhas s empresa = Retorna s' ->
  first_ (chave_pgdas e ano_mes) (persistentes s') = None
  <-> first_ (chave_pgdas e ano_mes) (persistentes s) = None.
Proof.
  intros H. apply upsert_linhas_ok in H as (L & R & _).
  rewrite !first_None. split; intros Hn c Hc.
  - apply list_elem_of_lookup in Hc as [i Hi].
    destruct (R i c Hi) as (c' & Hc' & (_ & He & Ha) & _).
    apply list_elem_of_lookup_2 in Hc'. specialize (Hn c' Hc').
    unfold chave_pgdas in *. by rewrite <- He, <- Ha.
  - apply list_elem_of_lookup in Hc as [i Hi].
    assert (is_Some (persistentes s !! i)) as [c0 Hc0].
    { apply lookup_lt_is_Some. rewrite <- L. by eapply lookup_lt_Some. }
    destruct (R i c0 Hc0) as (c' & Hc' & (_ & He & Ha) & _).
    rewrite Hi in Hc'. injection Hc' as <-.
    apply list_elem_of_lookup_2 in Hc0. specialize (Hn c0 Hc0).
    unfold chave_pgdas in *. by rewrite He, Ha.
Qed.

Lemma upsert_linhas_app float_ empresa l1 : forall l2 s,
  upsert_linhas float_ (l1 ++ l2) s empresa
  = (upsert_linhas float_ l1 s empresa
     ≫= fun s1 => upsert_linhas float_ l2 s1 empresa).
Proof.
  induction l1 as [|x l IH]; intros l2 s; [done|].
  cbn [app upsert_linhas].
  destruct (upsert_competencia_pgdas float_ x s empresa) as [[s1 n]|e];
    cbn; [apply IH | done].
Qed.

(** X20. A row for a period the company has not stored yet and without an
    annex ("anexo" absent or empty) makes the whole import fail, wherever
    the row stands in the file: the call ends in an exception and the
    database is left as it was. *)
Theorem importar_pgdas_csv_sem_anexo float_ linhas db empresa linha ano_mes :
  linha ∈ linhas ->
  linha !! "ano_mes"%string = Some ano_mes ->
  (linha !! "anexo"%string = None
   \/ linha !! "anexo"%string = Some ""%string) ->
  (forall c, c ∈ competencias_pgdas db ->
     ~ (CompetenciaPGDAS.empresa_id c = Empresa.id empresa
        /\ CompetenciaPGDAS.ano_mes c = ano_mes)) ->
  exists e,
    importar_pgdas_csv float_ linhas db empresa = (db, Levanta e).
Proof.
  intros Hin Ham Hanexo Hnova.
  apply list_elem_of_split in Hin as (l1 & l2 & ->).
  unfold importar_pgdas_csv.
  destruct (upsert_linhas float_ (l1 ++ linha :: l2) _ empresa)
    as [s|e] eqn:E; [|by exists e].
  exists IntegrityError.
  rewrite upsert_linhas_app in E.
  inv_bind E. rename a into s1. cbn [upsert_linhas] in E.
  inv_bind E. destruct a as [s2 nova]. cbn in E.
  pose proof (upsert_linhas_chaves _ _ _ _ _ empresa ano_mes Ha) as Hk.
  cbn in Hk.
  apply upsert_competencia_pgdas_ok in Ha0
    as (am & Ham' & _ & _ & _ & Hcase).
  rewrite Ham in Ham'. injection Ham' as <-.
  assert (first_ (chave_pgdas empresa ano_mes) (persistentes s1) = None)
    as Hnone.
  { apply Hk. apply first_None. intros c Hc.
    apply not_true_is_false. intros Hc'. unfold chave_pgdas in Hc'.
    apply andb_true_iff in Hc' as [H1 H2].
    apply Z.eqb_eq in H1. apply String.eqb_eq in H2.
    by apply (Hnova c Hc). }
  destruct Hcase as [(i & c & Hf & _)|(_ & _ & N2 & Hax)]; [congruence|].
  assert (nova ∈ novos s) as Hnova_in.
  { eapply upsert_linhas_novos_crescem; [exact E|].
    rewrite N2. apply elem_of_app. right. by apply list_elem_of_singleton. }
  assert (CompetenciaPGDAS.anexo nova = None) as Hnone_anexo.
  { rewrite Hax. unfold anexo_da_linha.
    by destruct Hanexo as [-> | ->]. }
  cbn [mbind py_bind]. unfold commit.
  destruct (forallb _ (novos s)) eqn:Ef; [|reflexivity].
  exfalso. rewrite forallb_forall in Ef.
  apply list_elem_of_In in Hnova_in. specialize (Ef nova Hnova_in).
  apply bool_decide_eq_true in Ef. rewrite Hnone_anexo in Ef.
  by destruct Ef.
Qed.

Lemma importar_pgdas_csv_sem_anexo_witness :
  exists e,
    importar_pgdas_csv Exemplo.float_
      [Exemplo.linha "2024-01" "700.00";
       {[ "ano_mes"%string := "2024-02"%string ]}]
      Exemplo.db Exemplo.empresa = (Exemplo.db, Levanta e).
Proof.
  apply (importar_pgdas_csv_sem_anexo Exemplo.float_
           [Exemplo.linha "2024-01" "700.00";
            {[ "ano_mes"%string := "2024-02"%string ]}]
           Exemplo.db Exemplo.empresa
           {[ "ano_mes"%string := "2024-02"%string ]} "2024-02").
  - apply (list_elem_of_lookup_2 _ 1%nat). reflexivity.
  - vm_compute. reflexivity.
  - left. vm_compute. reflexivity.
  - intros c Hc [_ Ha]. unfold Exemplo.db in Hc. cbn in Hc.
    apply elem_of_cons in Hc as [->|Hc]; [discriminate Ha|].
    apply list_elem_of_singleton in Hc. subst c. discriminate Ha.
Defined.

(** X21. The importer looks a period up among the committed rows only
    (the session does not flush before a query): two rows of one file for
    the same period, when the company has not stored that period yet, are
    not merged.  A successful import appends two declarations of the
    company with that period token and distinct keys. *)
Theorem importar_pgdas_csv_periodo_repetido float_ db empresa l1 l2
  ano_mes db' :
  l1 !! "ano_mes"%string = Some ano_mes ->
  l2 !! "ano_mes"%string = Some ano_mes ->
  (forall c, c ∈ competencias_pgdas db ->
     ~ (CompetenciaPGDAS.empresa_id c = Empresa.id empresa
        /\ CompetenciaPGDAS.ano_mes c = ano_mes)) ->
  importar_pgdas_csv float_ [l1; l2] db empresa = (db', Retorna tt) ->
  exists c1 c2,
    competencias_pgdas db' = competencias_pgdas db ++ [c1; c2]
    /\ CompetenciaPGDAS.empresa_id c1 = Empresa.id empresa
    /\ CompetenciaPGDAS.empresa_id c2 = Empresa.id empresa
    /\ CompetenciaPGDAS.ano_mes c1 = ano_mes
    /\ CompetenciaPGDAS.ano_mes c2 = ano_mes
    /\ CompetenciaPGDAS.id c1 < CompetenciaPGDAS.id c2.
Proof.
  intros H1 H2 Hnova H.
  assert (first_ (chave_pgdas empresa ano_mes) (competencias_pgdas db) = None)
    as Hnone.
  { apply first_None. intros c Hc.
    apply not_true_is_false. intros Hc'. unfold chave_pgdas in Hc'.
    apply andb_true_iff in Hc' as [E1 E2].
    apply Z.eqb_eq in E1. apply String.eqb_eq in E2.
    by apply (Hnova c Hc). }
  unfold importar_pgdas_csv in H.
  destruct (upsert_linhas float_ [l1; l2] _ empresa) as [s|e] eqn:E;
    [|cbn in H; discriminate].
  cbn [upsert_linhas] in E.
  inv_bind E. destruct a as [s1 n1]. cbn in E.
  inv_bind E. destruct a as [s2 n2]. cbn in E. injection E as <-.
  apply upsert_competencia_pgdas_ok in Ha
    as (am1 & Ham1 & _ & He1 & Hn1 & Hcase1).
  rewrite H1 in Ham1. injection Ham1 as <-.
  cbn [persistentes novos] in Hcase1.
  destruct Hcase1 as [(i & c & Hf & _)|(_ & P1 & N1 & _)];
    [rewrite Hnone in Hf; discriminate|].
  apply upsert_competencia_pgdas_ok in Ha0
    as (am2 & Ham2 & _ & He2 & Hn2 & Hcase2).
  rewrite H2 in Ham2. injection Ham2 as <-.
  rewrite P1 in Hcase2.
  destruct Hcase2 as [(i & c & Hf & _)|(_ & P2 & N2 & _)];
    [rewrite Hnone in Hf; discriminate|].
  cbn [mbind py_bind] in H. unfold commit in H.
  destruct (forallb _ (novos s2)); [|discriminate].
  injection H as <-. rewrite N2, N1, P2. cbn [app foldl].
  unfold inserir at 1 2.
  fold (com_id (proximo_id (CompetenciaPGDAS.id <$> competencias_pgdas db))
          n1).
  set (c1 := com_id _ n1).
  fold (com_id (proximo_id
                  (CompetenciaPGDAS.id <$> competencias_pgdas db ++ [c1]))
          n2).
  set (c2 := com_id _ n2).
  exists c1, c2. cbn [competencias_pgdas set_competencias_pgdas].
  split; [by rewrite <- app_assoc|].
  do 4 (split; [done|]).
  unfold c2. cbn [com_id CompetenciaPGDAS.id].
  apply proximo_id_maior. rewrite fmap_app. apply elem_of_app. right.
  by apply list_elem_of_singleton.
Qed.

Lemma importar_pgdas_csv_periodo_repetido_witness :
  exists c1 c2,
    competencias_pgdas
      (importar_pgdas_csv Exemplo.float_
         [Exemplo.linha "2024-02" "700.00"; Exemplo.linha "2024-02" "200.00"]
         Exemplo.db Exemplo.empresa).1
    = competencias_pgdas Exemplo.db ++ [c1; c2]
    /\ CompetenciaPGDAS.id c1 < CompetenciaPGDAS.id c2.
Proof.
  destruct (importar_pgdas_csv_periodo_repetido Exemplo.float_ Exemplo.db
              Exemplo.empresa (Exemplo.linha "2024-02" "700.00")
              (Exemplo.linha "2024-02" "200.00") "2024-02"
              (importar_pgdas_csv Exemplo.float_
                 [Exemplo.linha "2024-02" "700.00";
                  Exemplo.linha "2024-02" "200.00"]
                 Exemplo.db Exemplo.empresa).1)
    as (c1 & c2 & E & _ & _ & _ & _ & Hlt).
  - vm_compute. reflexivity.
  - vm_compute. reflexivity.
  - intros c Hc [_ Ha]. unfold Exemplo.db in Hc. cbn in Hc.
    apply elem_of_cons in Hc as [->|Hc]; [discriminate Ha|].
    apply list_elem_of_singleton in Hc. subst c. discriminate Ha.
  - vm_compute. reflexivity.
  - exists c1, c2. exact (conj E Hlt).
Defined.

(** ** The periods of a request *)

Lemma strftime_Y_m_canonico ano mes dia :
  1000 <= ano ->
  strftime_Y_m ano mes = competencia_from_date (mk_date ano mes dia).
Proof.
  intros H. unfold strftime_Y_m, str_ano, competencia_from_date.
  cbn [year month].
  destruct (Z.ltb_spec ano 10); [lia|].
  destruct (Z.ltb_spec ano 100); [lia|].
  destruct (Z.ltb_spec ano 1000); [lia|]. reflexivity.
Qed.

Lemma gerar_loop_ok ano_fim mes_fim fuel : forall ano mes,
  1 <= mes <= 12 -> 1 <= mes_fim <= 12 ->
  12 * ano_fim + mes_fim < 12 * 9999 + 12 ->
  fuel = meses_entre ano mes ano_fim mes_fim ->
  exists l,
    gerar_loop fuel ano mes ano_fim mes_fim = Retorna l
    /\ length l = fuel
    /\ forall i, (i < fuel)%nat ->
         l !! i = Some (strftime_Y_m
                          ((12 * ano + mes - 1 + Z.of_nat i) / 12)
                          ((12 * ano + mes - 1 + Z.of_nat i) mod 12 + 1)).
Proof.
  induction fuel as [|f IH]; intros ano mes Hm Hmf Hfim Hfuel.
  - exists []. split; [done|]. split; [done|]. intros i Hi. lia.
  - cbn [gerar_loop]. unfold meses_entre in Hfuel.
    assert (((ano <? ano_fim) || ((ano =? ano_fim) && (mes <=? mes_fim)))
            = true) as -> by lia.
    destruct (IH (if mes =? 12 then ano + 1 else ano)
                (if mes =? 12 then 1 else mes + 1))
      as (l & E & Hlen & Hl).
    { destruct (Z.eqb_spec mes 12); lia. }
    { done. }
    { done. }
    { unfold meses_entre. destruct (Z.eqb_spec mes 12); lia. }
    assert ((if mes =? 12
             then if ano + 1 <=? 9999
                  then gerar_loop f (ano + 1) 1 ano_fim mes_fim
                  else Levanta ValueError
             else gerar_loop f ano (mes + 1) ano_fim mes_fim)
            = Retorna l) as ->.
    { destruct (Z.eqb_spec mes 12) as [->|Hne]; [|exact E].
      destruct (Z.leb_spec (ano + 1) 9999); [exact E | lia]. }
    cbn. eexists. split; [reflexivity|]. split; [cbn; lia|].
    intros [|j] Hi.
    + cbn [lookup list_lookup]. do 2 f_equal.
      all: Z.div_mod_to_equations; lia.
    + cbn [lookup list_lookup]. change (l !! j = Some
        (strftime_Y_m ((12 * ano + mes - 1 + Z.of_nat (S j)) / 12)
           ((12 * ano + mes - 1 + Z.of_nat (S j)) mod 12 + 1))).
      rewrite Hl by lia.
      replace (12 * (if mes =? 12 then ano + 1 else ano)
               + (if mes =? 12 then 1 else mes + 1) - 1 + Z.of_nat j)
        with (12 * ano + mes - 1 + Z.of_nat (S j))
        by (destruct (Z.eqb_spec mes 12); lia).
      reflexivity.
Qed.

Lemma gerar_loop_9999 fuel : forall ano mes,
  1 <= mes <= 12 -> ano <= 9999 ->
  fuel = meses_entre ano mes 9999 12 ->
  gerar_loop fuel ano mes 9999 12 = Levanta ValueError.
Proof.
  induction fuel as [|f IH]; intros ano mes Hm Ha Hfuel.
  - unfold meses_entre in Hfuel. lia.
  - cbn [gerar_loop]. unfold meses_entre in Hfuel.
    assert (((ano <? 9999) || ((ano =? 9999) && (mes <=? 12))) = true)
      as -> by lia.
    destruct (Z.eqb_spec mes 12) as [->|Hne].
    + destruct (Z.leb_spec (ano + 1) 9999) as [Hle|Hgt]; [|reflexivity].
      rewrite IH; [done | lia | lia | unfold meses_entre; lia].
    + rewrite IH; [done | lia | lia | unfold meses_entre; lia].
Qed.

(** X22. The periods generated for a request.  When both limits are
    accepted and the last one is before December 9999, the list holds one
    token per month from the first limit to the last, both included, in
    chronological order (none when the first limit is after the last);
    for years from 1000 on each token is the canonical text
    [competencia_from_date] writes.  A range ending in December 9999
    raises ValueError: the loop steps past the last representable month. *)
Theorem _gerar_intervalo_competencias_meses inicial final ano mes ano_fim
  mes_fim :
  strptime_Y_m inicial = Retorna (ano, mes) ->
  strptime_Y_m final = Retorna (ano_fim, mes_fim) ->
  (12 * ano_fim + mes_fim < 12 * 9999 + 12 ->
   exists l,
     _gerar_intervalo_competencias inicial final = Retorna l
     /\ length l = meses_entre ano mes ano_fim mes_fim
     /\ forall i, (i < length l)%nat ->
          l !! i = Some (strftime_Y_m
                           ((12 * ano + mes - 1 + Z.of_nat i) / 12)
                           ((12 * ano + mes - 1 + Z.of_nat i) mod 12 + 1))
          /\ (1000 <= ano ->
              l !! i = Some (competencia_from_date
                               (mk_date
                                  ((12 * ano + mes - 1 + Z.of_nat i) / 12)
                                  ((12 * ano + mes - 1 + Z.of_nat i) mod 12
                                   + 1) 1))))
  /\ (ano_fim = 9999 -> mes_fim = 12 ->
      _gerar_intervalo_competencias inicial final = Levanta ValueError).
Proof.
  intros Hi Hf. unfold _gerar_intervalo_competencias. rewrite Hi, Hf. cbn.
  apply strptime_Y_m_range in Hi as [Ha Hm].
  apply strptime_Y_m_range in Hf as [Haf Hmf].
  split.
  - intros Hfim.
    destruct (gerar_loop_ok ano_fim mes_fim
                (meses_entre ano mes ano_fim mes_fim) ano mes Hm Hmf Hfim
                eq_refl) as (l & E & Hlen & Hl).
    exists l. split; [done|]. split; [done|].
    intros i Hlt. rewrite Hlen in Hlt. split; [by apply Hl|].
    intros H1000. rewrite (Hl i Hlt). f_equal.
    apply strftime_Y_m_canonico. Z.div_mod_to_equations; lia.
  - intros -> ->. apply gerar_loop_9999; [done | lia | done].
Qed.

Lemma _gerar_intervalo_competencias_meses_witness :
  exists l,
    _gerar_intervalo_competencias "2023-11" "2024-02" = Retorna l
    /\ length l = 4%nat
    /\ l !! 2%nat = Some (competencia_from_date (mk_date 2024 1 1)).
Proof.
  destruct (proj1 (_gerar_intervalo_competencias_meses "2023-11" "2024-02"
                     2023 11 2024 2 eq_refl eq_refl))
    as (l & E & Hlen & Hl); [lia|].
  exists l. split; [exact E|]. split; [exact Hlen|].
  rewrite Hlen in Hl. destruct (Hl 2%nat) as [_ H]; [unfold meses_entre; lia|].
  apply H. lia.
Defined.

(** ** The company of a request *)

Lemma _get_or_create_empresa_casos tabela cnpj razao_social tabela' empresa :
  _get_or_create_empresa tabela cnpj razao_social
  = (tabela', Retorna empresa) ->
  (exists i e,
     first_ (fun e => String.eqb (Empresa.cnpj e) cnpj) tabela = Some (i, e)
     /\ ((tabela' = tabela /\ empresa = e
          /\ (Empresa.razao_social e <> ""%string
              \/ razao_social = None \/ razao_social = Some ""%string))
         \/ (exists nome,
               razao_social = Some nome /\ nome <> ""%string
               /\ Empresa.razao_social e = ""%string
               /\ empresa = Empresa.mk (Empresa.id e) (Empresa.cnpj e) nome
               /\ tabela' = <[i := empresa]> tabela)))
  \/ (exists nome,
        first_ (fun e => String.eqb (Empresa.cnpj e) cnpj) tabela = None
        /\ razao_social = Some nome
        /\ empresa = Empresa.mk (proximo_id (Empresa.id <$> tabela)) cnpj nome
        /\ tabela' = tabela ++ [empresa]).
Proof.
  unfold _get_or_create_empresa.
  destruct (first_ _ tabela) as [[i e]|] eqn:Ef.
  - intros H. left. exists i, e. split; [done|].
    destruct razao_social as [[|c r]|].
    + injection H as <- <-. left. auto.
    + destruct (String.eqb_spec (Empresa.razao_social e) "") as [E|E].
      * injection H as <- <-. right. exists (String c r). done.
      * injection H as <- <-. left. auto.
    + injection H as <- <-. left. auto.
  - intros H. right. destruct razao_social as [nome|]; [|discriminate].
    injection H as <- <-. by exists nome.
Qed.

(** X23. Finding or creating the company of a request.  The company
    returned is stored and has the requested CNPJ; every other company is
    left as it was and every stored company keeps its position, key and
    CNPJ; a stored name that is not empty is never overwritten; distinct
    CNPJs and distinct keys stay distinct; and a second call with the same
    arguments returns the same company and changes nothing. *)
Theorem _get_or_create_empresa_ok tabela cnpj razao_social tabela' empresa :
  _get_or_create_empresa tabela cnpj razao_social
  = (tabela', Retorna empresa) ->
  empresa ∈ tabela'
  /\ Empresa.cnpj empresa = cnpj
  /\ (forall i e, tabela !! i = Some e ->
        exists e', tabela' !! i = Some e'
                   /\ Empresa.id e' = Empresa.id e
                   /\ Empresa.cnpj e' = Empresa.cnpj e
                   /\ (Empresa.cnpj e <> cnpj
                       \/ Empresa.razao_social e <> ""%string -> e' = e))
  /\ (NoDup (Empresa.cnpj <$> tabela) -> NoDup (Empresa.cnpj <$> tabela'))
  /\ (NoDup (Empresa.id <$> tabela) -> NoDup (Empresa.id <$> tabela'))
  /\ _get_or_create_empresa tabela' cnpj razao_social
     = (tabela', Retorna empresa).
Proof.
  intros H. apply _get_or_create_empresa_casos in H
    as [(i & e & Hf & Hcase)|(nome & Hf & -> & -> & ->)].
  - pose proof Hf as Hf'. apply first_Some_elem in Hf' as [Hi Hp].
    apply String.eqb_eq in Hp.
    destruct Hcase as [(-> & -> & Hmot)|(nome & -> & Hne & Hvazio & -> & ->)].
    + split; [by eapply list_elem_of_lookup_2|]. split; [done|].
      split; [intros j x Hj; exists x; by repeat split|].
      do 2 (split; [done|]).
      unfold _get_or_create_empresa. rewrite Hf.
      destruct razao_social as [[|c r]|]; try done.
      destruct (String.eqb_spec (Empresa.razao_social e) "") as [E|E];
        [|done].
      by destruct Hmot as [?|[?|?]].
    + split; [eapply list_elem_of_lookup_2, list_lookup_insert_eq;
              by eapply lookup_lt_Some|].
      split; [done|]. split.
      { intros j x Hj. destruct (decide (j = i)) as [->|Hji].
        - rewrite Hi in Hj. injection Hj as <-. eexists.
          split; [apply list_lookup_insert_eq; by eapply lookup_lt_Some|].
          cbn. do 2 (split; [done|]). intros [Hx|Hx]; congruence.
        - exists x. rewrite list_lookup_insert_ne by done. by repeat split. }
      split.
      { rewrite list_fmap_insert. cbn.
        rewrite list_insert_id; [done|]. by rewrite list_lookup_fmap, Hi. }
      split.
      { rewrite list_fmap_insert. cbn.
        rewrite list_insert_id; [done|]. by rewrite list_lookup_fmap, Hi. }
      unfold _get_or_create_empresa.
      erewrite first_insert; [| exact Hf | cbn; by apply String.eqb_eq].
      destruct nome as [|c r]; [done|]. cbn [Empresa.razao_social].
      reflexivity.
  - rewrite first_None in Hf.
    split; [apply elem_of_app; right; by apply list_elem_of_singleton|].
    split; [done|]. split.
    { intros j x Hj. exists x. split; [|by repeat split].
      rewrite lookup_app_l; [done|]. by eapply lookup_lt_Some. }
    split.
    { intros Hnd. rewrite fmap_app. apply NoDup_app. split; [done|].
      split; [|apply NoDup_singleton].
      intros x Hx Hx'. cbn in Hx'. apply list_elem_of_singleton in Hx'.
      subst x. apply list_elem_of_fmap in Hx as (e & He & Hin).
      specialize (Hf e Hin). rewrite <- He, String.eqb_refl in Hf.
      discriminate. }
    split.
    { intros Hnd. rewrite fmap_app. apply NoDup_app. split; [done|].
      split; [|apply NoDup_singleton].
      intros x Hx Hx'. cbn in Hx'. apply list_elem_of_singleton in Hx'.
      subst x. apply proximo_id_maior in Hx. lia. }
    unfold _get_or_create_empresa.
    erewrite first_app_novo;
      [| by apply first_None | cbn; by apply String.eqb_eq].
    destruct nome as [|c r]; [done|]. reflexivity.
Qed.

Lemma _get_or_create_empresa_ok_witness :
  exists tabela' empresa,
    _get_or_create_empresa [Empresa.mk 1 "12.345.678/0001-90" ""]
      "12.345.678/0001-90" (Some "Posto Exemplo Ltda"%string)
    = (tabela', Retorna empresa)
    /\ empresa ∈ tabela'
    /\ _get_or_create_empresa tabela' "12.345.678/0001-90"
         (Some "Posto Exemplo Ltda"%string)
       = (tabela', Retorna empresa).
Proof.
  eexists _, _. split; [vm_compute; reflexivity|].
  edestruct (_get_or_create_empresa_ok
               [Empresa.mk 1 "12.345.678/0001-90" ""]
               "12.345.678/0001-90" (Some "Posto Exemplo Ltda"%string))
    as (H1 & _ & _ & _ & _ & H6); [vm_compute; reflexivity|].
  exact (conj H1 H6).
Defined.

(** X24. Finding or creating the company fails in one case only: no
    company has the CNPJ and no name was given, and then the insert
    violates the NOT NULL constraint on the name, IntegrityError is raised
    and the table of companies is left as it was.  An empty name is
    accepted for a new company. *)
Theorem _get_or_create_empresa_falha tabela cnpj razao_social tabela' e :
  _get_or_create_empresa tabela cnpj razao_social = (tabela', Levanta e)
  <-> razao_social = None
      /\ (forall x, x ∈ tabela -> Empresa.cnpj x <> cnpj)
      /\ tabela' = tabela /\ e = IntegrityError.
Proof.
  unfold _get_or_create_empresa.
  destruct (first_ _ tabela) as [[i x]|] eqn:Ef.
  - split.
    + intros H. exfalso.
      destruct razao_social as [[|c r]|]; try discriminate.
      by destruct (String.eqb (Empresa.razao_social x) "").
    + intros (_ & Hn & _). exfalso.
      apply first_Some_elem in Ef as [Hi Hp]. apply String.eqb_eq in Hp.
      eapply Hn; [by eapply list_elem_of_lookup_2 | done].
  - rewrite first_None in Ef. split.
    + intros H. destruct razao_social as [nome|]; [discriminate|].
      injection H as <- <-. split; [done|]. split; [|done].
      intros x Hx Hc. specialize (Ef x Hx).
      rewrite Hc, String.eqb_refl in Ef. discriminate.
    + intros (-> & _ & -> & ->). reflexivity.
Qed.

(** ** Processing a period again *)

Lemma first_Forall2 {A : Type} (R : A -> A -> Prop) (p p' : A -> bool)
  (l l' : list A) :
  Forall2 R l l' -> (forall x x', R x x' -> p x = p' x') ->
  match first_ p l with
  | Some (i, x) => exists x', first_ p' l' = Some (i, x') /\ R x x'
  | None => first_ p' l' = None
  end.
Proof.
  intros HF Hp. destruct (first_ p l) as [[i x]|] eqn:E.
  - apply first_Some_iff in E as (Hi & Hx & Hj).
    destruct (Forall2_lookup_l _ _ _ _ _ HF Hi) as (x' & Hi' & HR).
    exists x'. split; [|done]. apply first_Some_iff.
    split; [done|]. split; [by rewrite <- (Hp x x' HR)|].
    intros j y' Hy' Hlt.
    destruct (Forall2_lookup_r _ _ _ _ _ HF Hy') as (y & Hy & HRy).
    rewrite <- (Hp y y' HRy). by eapply Hj.
  - rewrite first_None in *. intros x' Hx'.
    apply list_elem_of_lookup in Hx' as [i Hi'].
    destruct (Forall2_lookup_r _ _ _ _ _ HF Hi') as (x & Hi & HR).
    rewrite <- (Hp x x' HR). apply E. by eapply list_elem_of_lookup_2.
Qed.

Lemma so_aliquota_refl c : so_aliquota c c.
Proof. exists (CompetenciaPGDAS.aliquota_efetiva c). by destruct c. Qed.

Lemma mesmas_bases_refl r : mesmas_bases r r.
Proof. by repeat split. Qed.

Lemma Forall2_refl_insert {A : Type} (R : A -> A -> Prop) (l : list A) i x y :
  (forall z, R z z) -> l !! i = Some y -> R x y ->
  Forall2 R (<[i := x]> l) l.
Proof.
  intros Hrefl Hi HR. rewrite <- (list_insert_id l i y Hi) at 2.
  apply Forall2_insert; [|done].
  apply Forall_Forall2_diag, Forall_forall. auto.
Qed.

Lemma existsb_so_aliquota (l l' : list CompetenciaPGDAS.t) cid ano_mes :
  Forall2 so_aliquota l' l ->
  existsb (fun c => (CompetenciaPGDAS.id c =? cid)
                    && String.eqb (CompetenciaPGDAS.ano_mes c) ano_mes) l'
  = existsb (fun c => (CompetenciaPGDAS.id c =? cid)
                      && String.eqb (CompetenciaPGDAS.ano_mes c) ano_mes) l.
Proof.
  induction 1 as [|c' c l' l [v ->] _ IH]; [done|]. cbn. by rewrite IH.
Qed.

(** What one run of the estimation at a position leaves behind. *)
Lemma calcular_indev_na_posicao_forma db i res db' r :
  resultados_auditoria db !! i = Some res ->
  calcular_indev_na_posicao db i res = Retorna (db', r) ->
  mesmas_bases r res
  /\ resultados_auditoria db' = <[i := r]> (resultados_auditoria db)
  /\ Forall2 mesmas_bases (resultados_auditoria db') (resultados_auditoria db)
  /\ Forall2 so_aliquota (competencias_pgdas db') (competencias_pgdas db)
  /\ notas_fiscais db' = notas_fiscais db
  /\ ncm_monofasicos db' = ncm_monofasicos db
  /\ anexos_aliquotas db' = anexos_aliquotas db
  /\ calcular_indev_na_posicao db' i r = Retorna (db', r).
Proof.
  intros Hi H. unfold calcular_indev_na_posicao in H.
  inv_bind H. destruct a as [r1 c1]. cbn in H.
  pose proof (calcular_indev_para_resultado_forma _ _ _ _ _ Ha) as Hb.
  assert (forall l : list ResultadoAuditoria.t, <[i := r1]> (<[i := r1]> l)
                                              = <[i := r1]> l) as Hii
    by (intros l; apply list_insert_insert_eq).
  unfold competencia_de in *.
  destruct (first_ _ (competencias_pgdas db)) as [[j c]|] eqn:Ec.
  - change (snd <$> Some (j, c)) with (Some c) in Ha.
    pose proof (calcular_indev_para_resultado_idem_Some _ _ _ _ _ Ha)
      as Hidem.
    assert (exists c2, c1 = Some c2 /\ so_aliquota c2 c) as (c2 & -> & Hso).
    { destruct (calcular_indev_para_resultado_casos (anexos_aliquotas db)
                  res c) as [[E _]|(v & _ & _ & E)];
        rewrite E in Ha; injection Ha as _ <-; eexists; split; try done.
      - apply so_aliquota_refl.
      - by eexists. }
    injection H as <- <-. cbn.
    pose proof Ec as Ec'. apply first_Some_elem in Ec' as [Hj Hp].
    split; [done|]. split; [done|].
    split; [by eapply Forall2_refl_insert; [apply mesmas_bases_refl|..]|].
    split; [by eapply Forall2_refl_insert; [apply so_aliquota_refl|..]|].
    do 3 (split; [done|]).
    unfold calcular_indev_na_posicao, competencia_de.
    cbn [competencias_pgdas resultados_auditoria anexos_aliquotas
         set_competencias_pgdas set_resultados_auditoria].
    destruct Hb as (_ & _ & Hcid & _). rewrite Hcid.
    erewrite first_insert; [| exact Ec |].
    + change (snd <$> Some (j, c2)) with (Some c2). rewrite Hidem.
      cbn [mbind py_bind]. unfold set_competencias_pgdas,
        set_resultados_auditoria.
      cbn [competencias_pgdas resultados_auditoria anexos_aliquotas
           ncm_monofasicos notas_fiscais].
      by rewrite Hii, list_insert_insert_eq.
    + destruct Hso as [v ->]. exact Hp.
  - cbn in Ha. injection Ha as <- <-. injection H as <- <-. cbn.
    split; [done|]. split; [done|].
    split; [by eapply Forall2_refl_insert; [apply mesmas_bases_refl|..]|].
    split; [apply Forall_Forall2_diag, Forall_forall; intros;
            apply so_aliquota_refl|].
    do 3 (split; [done|]).
    unfold calcular_indev_na_posicao, competencia_de.
    cbn [competencias_pgdas resultados_auditoria anexos_aliquotas
         set_competencias_pgdas set_resultados_auditoria].
    rewrite Ec. cbn. unfold set_resultados_auditoria. cbn. by rewrite Hii.
Qed.

Lemma calcular_indev_para_competencia_forma db empresa ano_mes db' y :
  calcular_indev_para_competencia db empresa ano_mes = Retorna (db', y) ->
  Forall2 mesmas_bases (resultados_auditoria db') (resultados_auditoria db)
  /\ Forall2 so_aliquota (competencias_pgdas db') (competencias_pgdas db)
  /\ notas_fiscais db' = notas_fiscais db
  /\ ncm_monofasicos db' = ncm_monofasicos db
  /\ anexos_aliquotas db' = anexos_aliquotas db
  /\ calcular_indev_para_competencia db' empresa ano_mes = Retorna (db', y).
Proof.
  unfold calcular_indev_para_competencia.
  fold (resultado_da_competencia (competencias_pgdas db) empresa ano_mes).
  fold (resultado_da_competencia (competencias_pgdas db') empresa ano_mes).
  intros H.
  destruct (first_ _ (resultados_auditoria db)) as [[i res]|] eqn:Ef.
  - inv_bind H. destruct a as [db1 r]. cbn in H. injection H as <- <-.
    pose proof Ef as Ef'. apply first_Some_iff in Ef' as (Hi & Hq & Hlow).
    apply calcular_indev_na_posicao_forma in Ha
      as (Hb & R & FR & FC & N & M & A & Hidem); [|done].
    do 5 (split; [done|]).
    assert (first_ (resultado_da_competencia (competencias_pgdas db1)
                      empresa ano_mes) (resultados_auditoria db1)
            = Some (i, r)) as ->.
    { pose proof (first_Forall2 (fun a b => mesmas_bases b a)
                    (resultado_da_competencia (competencias_pgdas db)
                       empresa ano_mes)
                    (resultado_da_competencia (competencias_pgdas db1)
                       empresa ano_mes)
                    (resultados_auditoria db) (resultados_auditoria db1))
        as HF.
      rewrite Ef in HF. destruct HF as (x' & Hx' & _).
      - by apply Forall2_flip.
      - intros x x' (_ & He & Hc & _). unfold resultado_da_competencia.
        rewrite He, Hc. f_equal. symmetry. by apply existsb_so_aliquota.
      - pose proof Hx' as Hl. apply first_Some_elem in Hl as [Hl _].
        rewrite R, list_lookup_insert_eq in Hl
          by (by eapply lookup_lt_Some).
        injection Hl as <-. exact Hx'. }
    rewrite Hidem. done.
  - injection H as <- <-.
    split; [apply Forall_Forall2_diag, Forall_forall; intros;
            apply mesmas_bases_refl|].
    split; [apply Forall_Forall2_diag, Forall_forall; intros;
            apply so_aliquota_refl|].
    do 3 (split; [done|]). by rewrite Ef.
Qed.

Lemma set_resultados_auditoria_id db :
  set_resultados_auditoria (resultados_auditoria db) db = db.
Proof. by destruct db. Qed.

Lemma set_notas_fiscais_id db : set_notas_fiscais (notas_fiscais db) db = db.
Proof. by destruct db. Qed.

Lemma calcular_base_monofasica_xml_notas db db' empresa ano_mes :
  notas_fiscais db' = notas_fiscais db ->
  calcular_base_monofasica_xml db' empresa ano_mes
  = calcular_base_monofasica_xml db empresa ano_mes.
Proof. intros H. unfold calcular_base_monofasica_xml. by rewrite H. Qed.

(** A database on which reconciliation changes nothing keeps that property
    when the estimation has run on it. *)
Lemma cruzar_competencia_fixo db2 db3 empresa ano_mes x :
  cruzar_competencia db2 empresa ano_mes = Retorna (db2, x) ->
  Forall2 mesmas_bases (resultados_auditoria db3) (resultados_auditoria db2) ->
  Forall2 so_aliquota (competencias_pgdas db3) (competencias_pgdas db2) ->
  notas_fiscais db3 = notas_fiscais db2 ->
  exists x', cruzar_competencia db3 empresa ano_mes = Retorna (db3, x').
Proof.
  intros H FR FC N.
  pose proof (first_Forall2 (fun a b => so_aliquota b a)
                (fun c => (CompetenciaPGDAS.empresa_id c =? Empresa.id empresa)
                          && String.eqb (CompetenciaPGDAS.ano_mes c) ano_mes)
                (fun c => (CompetenciaPGDAS.empresa_id c =? Empresa.id empresa)
                          && String.eqb (CompetenciaPGDAS.ano_mes c) ano_mes)
                (competencias_pgdas db2) (competencias_pgdas db3)) as HC.
  destruct x as [r|].
  - apply cruzar_competencia_Some in H
      as (j & c & base & Hc & Hbase & Hr).
    rewrite Hc in HC. destruct HC as (c3 & Hc3 & [v ->]).
    { by apply Forall2_flip. }
    { by intros a b [w ->]. }
    destruct Hr as [(i & r0 & Hf & Er & Edb)|(_ & _ & Edb)].
    + apply (f_equal resultados_auditoria) in Edb. cbn in Edb.
      pose proof Hf as Hf'. apply first_Some_elem in Hf' as [Hi _].
      assert (r = r0) as Err.
      { assert (resultados_auditoria db2 !! i = Some r) as Hi'.
        { rewrite Edb. apply list_lookup_insert_eq.
          by eapply lookup_lt_Some. }
        congruence. }
      subst r0.
      pose proof (first_Forall2 (fun a b => mesmas_bases b a)
                    (fun r => (ResultadoAuditoria.empresa_id r
                               =? Empresa.id empresa)
                              && (ResultadoAuditoria.competencia_id r
                                  =? CompetenciaPGDAS.id c))
                    (fun r => (ResultadoAuditoria.empresa_id r
                               =? Empresa.id empresa)
                              && (ResultadoAuditoria.competencia_id r
                                  =? CompetenciaPGDAS.id c))
                    (resultados_auditoria db2) (resultados_auditoria db3))
        as HR.
      rewrite Hf in HR. destruct HR as (r3 & Hr3 & Hb).
      { by apply Forall2_flip. }
      { intros a b (_ & He & Hcid & _). by rewrite He, Hcid. }
      unfold cruzar_competencia. rewrite Hc3.
      rewrite (calcular_base_monofasica_xml_notas db2 db3) by done.
      rewrite Hbase. cbn [mbind py_bind].
      unfold get_or_create_resultado_auditoria.
      cbn [CompetenciaPGDAS.id CompetenciaPGDAS.set_aliquota_efetiva
           CompetenciaPGDAS.receita_monofasica_declarada].
      rewrite Hr3. eexists.
      assert (ResultadoAuditoria.set_bases base
                (Dec.or_zero (CompetenciaPGDAS.receita_monofasica_declarada c))
                (base - Dec.or_zero
                          (CompetenciaPGDAS.receita_monofasica_declarada c))%dec
                r3 = r3) as ->.
      { destruct Hb as (_ & _ & _ & B1 & B2 & B3).
        rewrite Er in B1, B2, B3. cbn in B1, B2, B3.
        destruct r3. cbn in *. by rewrite B1, B2, B3. }
      apply first_Some_elem in Hr3 as [Hi3 _].
      by rewrite list_insert_id, set_resultados_auditoria_id.
    + exfalso. apply (f_equal resultados_auditoria) in Edb. cbn in Edb.
      apply (f_equal length) in Edb. rewrite length_app in Edb. cbn in Edb.
      lia.
  - apply cruzar_competencia_None in H as [_ Hn].
    rewrite Hn in HC. exists None. unfold cruzar_competencia.
    rewrite HC; [done | by apply Forall2_flip | by intros a b [w ->]].
Qed.

(** X25. Processing a period again changes nothing when the rates of the
    declarations are stored: one pass of classification, reconciliation and
    estimation over a period leaves the declarations as they were, and a
    second pass over the same period succeeds and leaves the database
    exactly as the first pass left it.  (A pass that has to derive a rate
    is excluded: the rate is assigned with the precision of the division,
    and the second pass reads what the column kept of it.) *)
Theorem processar_competencia_idempotente db empresa comp db' :
  (forall c, c ∈ competencias_pgdas db ->
     is_Some (CompetenciaPGDAS.aliquota_efetiva c)) ->
  processar_competencia db empresa comp = Retorna db' ->
  competencias_pgdas db' = competencias_pgdas db
  /\ processar_competencia db' empresa comp = Retorna db'.
Proof.
  unfold processar_competencia. intros Hs H.
  inv_bind H. destruct a as [db1 n]. cbn in H.
  inv_bind H. destruct a as [db2 x]. cbn in H.
  inv_bind H. destruct a as [db3 y]. cbn in H. injection H as <-.
  assert (competencias_pgdas db3 = competencias_pgdas db) as Hcomp.
  { pose proof (classificar_itens_empresa_competencia_notas _ _ _ _ _ Ha)
      as (ini & fim & _ & E1).
    pose proof (cruzar_competencia_notas _ _ _ _ _ Ha0) as (_ & E2 & _).
    assert (competencias_pgdas db2 = competencias_pgdas db) as E12
      by (by rewrite E2, E1).
    rewrite <- E12. eapply calcular_indev_para_competencia_gravada; [|done].
    by rewrite E12. }
  split; [done|].
  apply classificar_itens_empresa_competencia_idem in Ha.
  pose proof (cruzar_competencia_notas _ _ _ _ _ Ha0) as (N2 & _ & M2 & _).
  assert (cruzar_competencia db2 empresa comp = Retorna (db2, x)) as Hfix.
  { destruct x as [r|]; [by apply (cruzar_competencia_idem_Some db1)|].
    apply cruzar_competencia_None in Ha0 as [-> Hn].
    unfold cruzar_competencia. by rewrite Hn. }
  clear Ha0. rename Hfix into Ha0.
  apply calcular_indev_para_competencia_forma in Ha1
    as (FR & FC & N3 & M3 & _ & Hidem).
  destruct (cruzar_competencia_fixo db2 db3 empresa comp x Ha0 FR FC N3)
    as [x' Hx'].
  assert (exists n', classificar_itens_empresa_competencia db3 empresa comp
                     = Retorna (db3, n')) as [n' ->].
  { unfold classificar_itens_empresa_competencia in *.
    destruct (_intervalo_datas_competencia comp) as [[ini fim]|];
      [|discriminate].
    cbn in *. injection Ha as Hdb _.
    apply (f_equal notas_fiscais) in Hdb. cbn in Hdb.
    rewrite N3, N2, M3, M2, Hdb, <- N2, <- N3.
    rewrite set_notas_fiscais_id. by eexists. }
  cbn. rewrite Hx'. cbn. rewrite Hidem. done.
Qed.

Lemma processar_competencia_idempotente_witness :
  exists db' r,
    processar_competencia Exemplo.db_aliquota_gravada Exemplo.empresa
      "2024-01" = Retorna db'
    /\ resultados_auditoria db' = [r]
    /\ ResultadoAuditoria.total_indev r = Some (Dec.mk 300000000000 (-10))
    /\ processar_competencia db' Exemplo.empresa "2024-01" = Retorna db'.
Proof.
  eexists _, _. split; [vm_compute; reflexivity|].
  split; [vm_compute; reflexivity|].
  split; [vm_compute; reflexivity|].
  refine (proj2 (processar_competencia_idempotente
                   Exemplo.db_aliquota_gravada Exemplo.empresa "2024-01"
                   _ _ _)).
  - intros c Hc. apply list_elem_of_singleton in Hc as ->.
    eexists. reflexivity.
  - vm_compute. reflexivity.
Defined.

(** ** What the processing loop leaves alone *)

Lemma mesmos_dados_refl a : mesmos_dados a a.
Proof. by repeat split. Qed.

Lemma mesmos_dados_trans a b c :
  mesmos_dados a b -> mesmos_dados b c -> mesmos_dados a c.
Proof.
  unfold mesmos_dados. intros (?&?&?&?&?&?&?&?) (?&?&?&?&?&?&?&?).
  repeat split; congruence.
Qed.

Lemma Forall2_refl_all {A : Type} (R : A -> A -> Prop) (l : list A) :
  (forall x, R x x) -> Forall2 R l l.
Proof. intros H. apply Forall_Forall2_diag, Forall_forall. auto. Qed.

Lemma Forall2_trans_all {A : Type} (R : A -> A -> Prop) (l1 l2 l3 : list A) :
  (forall x y z, R x y -> R y z -> R x z) ->
  Forall2 R l1 l2 -> Forall2 R l2 l3 -> Forall2 R l1 l3.
Proof.
  intros Ht H12. revert l3.
  induction H12 as [|x y l1 l2 Hxy _ IH]; intros l3 H23.
  - by apply Forall2_nil_inv_l in H23 as ->.
  - apply Forall2_cons_inv_l in H23 as (z & l3' & Hyz & H' & ->).
    constructor; [by eapply Ht | by apply IH].
Qed.

Lemma mesma_nota_refl a : mesma_nota a a.
Proof.
  repeat split. apply Forall2_refl_all, mesmos_dados_refl.
Qed.

Lemma mesma_nota_trans a b c :
  mesma_nota a b -> mesma_nota b c -> mesma_nota a c.
Proof.
  unfold mesma_nota. intros (?&?&?&?&?&F1) (?&?&?&?&?&F2).
  repeat split; try congruence.
  eapply Forall2_trans_all; [apply mesmos_dados_trans | done | done].
Qed.

Lemma so_aliquota_trans a b c :
  so_aliquota a b -> so_aliquota b c -> so_aliquota a c.
Proof. intros [v ->] [w ->]. by exists v. Qed.

Lemma mesmo_resultado_trans a b c :
  mesmo_resultado a b -> mesmo_resultado b c -> mesmo_resultado a c.
Proof.
  unfold mesmo_resultado. intros (?&?&?) (?&?&?). repeat split; congruence.
Qed.

Lemma so_processamento_refl db : so_processamento db db.
Proof.
  do 2 (split; [done|]).
  split; [apply Forall2_refl_all, mesma_nota_refl|].
  split; [apply Forall2_refl_all, so_aliquota_refl|].
  intros i r Hi. exists r. by repeat split.
Qed.

Lemma so_processamento_trans db1 db2 db3 :
  so_processamento db1 db2 -> so_processamento db2 db3 ->
  so_processamento db1 db3.
Proof.
  intros (M1 & A1 & N1 & C1 & R1) (M2 & A2 & N2 & C2 & R2).
  split; [congruence|]. split; [congruence|].
  split; [eapply Forall2_trans_all; [apply mesma_nota_trans | done | done]|].
  split; [eapply Forall2_trans_all; [apply so_aliquota_trans | done | done]|].
  intros i r Hi. destruct (R1 i r Hi) as (r' & Hi' & Hm).
  destruct (R2 i r' Hi') as (r'' & Hi'' & Hm'). exists r''.
  split; [done|]. by eapply mesmo_resultado_trans.
Qed.

Lemma classificacao_so_processamento db empresa ano_mes db' n :
  classificar_itens_empresa_competencia db empresa ano_mes
  = Retorna (db', n) ->
  so_processamento db db'.
Proof.
  intros H. apply classificar_itens_empresa_competencia_notas in H
    as (ini & fim & _ & ->).
  do 2 (split; [done|]). cbn.
  split; [|split; [apply Forall2_refl_all, so_aliquota_refl|]].
  - apply Forall2_map_diag. intros nota.
    destruct (nota_na_competencia empresa ini fim nota);
      [|apply mesma_nota_refl].
    unfold classificar_itens_nota. repeat split. cbn.
    apply Forall2_map_diag. intros item.
    by destruct (classificar_item_flags item
                   (_ncm_esta_em_vigencia (ncm_monofasicos db)
                      (ItemNota.ncm item)
                      (dt_date (NotaFiscal.data_emissao nota))))
      as (_ & _ & ?).
  - intros i r Hi. exists r. by repeat split.
Qed.

Lemma cruzar_so_processamento db empresa ano_mes db' x :
  cruzar_competencia db empresa ano_mes = Retorna (db', x) ->
  so_processamento db db'.
Proof.
  intros H. destruct x as [r|].
  - apply cruzar_competencia_Some in H
      as (j & c & base & _ & _ & Hr).
    destruct Hr as [(i & r0 & Hf & -> & ->)|(_ & -> & ->)].
    + do 2 (split; [done|]). cbn.
      split; [apply Forall2_refl_all, mesma_nota_refl|].
      split; [apply Forall2_refl_all, so_aliquota_refl|].
      apply first_Some_elem in Hf as [Hi _].
      intros k r Hk. destruct (decide (k = i)) as [->|Hne].
      * rewrite Hi in Hk. injection Hk as <-. eexists.
        split; [apply list_lookup_insert_eq; by eapply lookup_lt_Some|].
        by repeat split.
      * exists r. rewrite list_lookup_insert_ne by done. by repeat split.
    + do 2 (split; [done|]). cbn.
      split; [apply Forall2_refl_all, mesma_nota_refl|].
      split; [apply Forall2_refl_all, so_aliquota_refl|].
      intros k r Hk. exists r. split; [|by repeat split].
      rewrite lookup_app_l; [done|]. by eapply lookup_lt_Some.
  - apply cruzar_competencia_None in H as [-> _]. apply so_processamento_refl.
Qed.

Lemma calcular_so_processamento db empresa ano_mes db' y :
  calcular_indev_para_competencia db empresa ano_mes = Retorna (db', y) ->
  so_processamento db db'.
Proof.
  intros H. apply calcular_indev_para_competencia_forma in H
    as (FR & FC & N & M & A & _).
  do 2 (split; [done|]).
  split; [rewrite N; apply Forall2_refl_all, mesma_nota_refl|].
  split; [done|].
  intros i r Hi.
  destruct (Forall2_lookup_r _ _ _ _ _ FR Hi) as (r' & Hi' & Hb).
  exists r'. split; [done|]. destruct Hb as (?&?&?&_). by repeat split.
Qed.

(** X26. What the processing loop of a request leaves alone, for any list
    of periods: the catalog and the bracket table are untouched; every
    invoice keeps its position, header and the data of its items (only
    item flags change); every declaration keeps its position and all its
    fields but the memoized rate; every summary keeps its position, key,
    company and declaration period.  Nothing is deleted or reordered. *)
Theorem processar_competencias_so_processamento competencias :
  forall db empresa db',
    processar_competencias db empresa competencias = Retorna db' ->
    so_processamento db db'.
Proof.
  induction competencias as [|comp resto IH]; intros db empresa db' H.
  - cbn in H. injection H as <-. apply so_processamento_refl.
  - cbn [processar_competencias] in H. inv_bind H. rename a into db1.
    apply IH in H. eapply so_processamento_trans; [|exact H].
    unfold processar_competencia in Ha.
    inv_bind Ha. destruct a as [d1 n]. cbn in Ha.
    inv_bind Ha. destruct a as [d2 x]. cbn in Ha.
    inv_bind Ha. destruct a as [d3 y]. cbn in Ha. injection Ha as <-.
    eapply so_processamento_trans;
      [by eapply classificacao_so_processamento|].
    eapply so_processamento_trans; [by eapply cruzar_so_processamento|].
    by eapply calcular_so_processamento.
Qed.

Lemma processar_competencias_so_processamento_witness :
  exists db',
    processar_competencias Exemplo.db Exemplo.empresa
      ["2024-01"; "2024-02"; "2024-03"]%string = Retorna db'
    /\ so_processamento Exemplo.db db'.
Proof.
  eexists. split; [vm_compute; reflexivity|].
  apply (processar_competencias_so_processamento
           ["2024-01"; "2024-02"; "2024-03"]%string
           Exemplo.db Exemplo.empresa).
  vm_compute. reflexivity.
Defined.

(** ** Cells of the declaration file *)

(** X27. A numeric cell of the declaration file: an absent cell and a
    cell of white space only are null, without any conversion; white
    space around a number is dropped before the conversion; and the only
    exception a cell can raise is ValueError. *)
Theorem _parse_decimal_celula (float_ : string -> option Dec.t)
  (e1 e2 s : string) :
  so_espacos e1 = true -> so_espacos e2 = true ->
  _parse_decimal float_ None = Retorna None
  /\ _parse_decimal float_ (Some e1) = Retorna None
  /\ _parse_decimal float_ (Some (String.append e1 (String.append s e2)))
     = _parse_decimal float_ (Some s)
  /\ (PyStr.strip s <> ""%string ->
      _parse_decimal float_ (Some s)
      = match float_ (PyStr.strip s) with
        | Some x => Retorna (Some x)
        | None => Levanta ValueError
        end).
Proof.
  intros H1 H2. split; [reflexivity|]. split; [|split].
  - unfold _parse_decimal, PyStr.strip.
    by rewrite (lstrip_so_espacos e1 H1).
  - unfold _parse_decimal. by rewrite strip_entre_espacos.
  - intros Hne. unfold _parse_decimal.
    by destruct (String.eqb_spec (PyStr.strip s) "").
Qed.

Lemma _parse_decimal_celula_witness :
  _parse_decimal Exemplo.float_ (Some "  700.00 "%string)
  = _parse_decimal Exemplo.float_ (Some "700.00"%string).
Proof.
  exact (proj1 (proj2 (proj2 (_parse_decimal_celula Exemplo.float_
                                "  " " " "700.00" eq_refl eq_refl)))).
Defined.
